(** * A shallow embedding of the dashboard's filter / aggregation pipeline

    The development follows the TypeScript sources of the dashboard:
    - [data/types.ts]               the record model,
    - [contexts/FilterContext.tsx]  the filter state store,
    - [contexts/SLAContext.tsx]     the SLA threshold store,
    - [components/DateRangePicker.tsx], [components/DataTable.tsx],
      [components/Charts.tsx], [components/KPICards.tsx], [App.tsx]
                                    the derived views.

    Conventions of the embedding.
    - A JavaScript [number] that is finite is a rational ([Q]); the only
      non-finite results the modelled code can produce come from a division,
      which is modelled by [JsNumber.div] with its [NaN] and infinities.
    - A valid [Date] is its time value, the number of milliseconds since the
      epoch ([Z]); an invalid one is absent ([None]).  The local time zone is
      a fixed offset [tz] (milliseconds east of UTC) and the clock reading
      [now] is an argument of every function that reads it.
    - A string-literal union is an inductive type, with a [_name] function
      giving the literal where the code uses it as an object key.
    - React state is explicit state passing: a handler is a function from
      the state of the render in which it was created to the next state. *)

From Stdlib Require Import ZArith QArith Qround List Bool String Ascii Lia.
From Stdlib Require Import Numbers.DecimalString Decimal DecimalZ.
From Stdlib Require DecimalFacts DecimalPos DecimalN.
From Stdlib Require Import Permutation Sorted.
Import ListNotations.

Local Open Scope string_scope.
Local Open Scope list_scope.
Local Open Scope Z_scope.

(* ------------------------------------------------------------------ *)
(** ** JavaScript numbers *)

Module JsNumber.

(** [a > b], [a < b], [a === b] on finite numbers, which are rationals. *)
Definition gt (a b : Q) : bool := negb (Qle_bool a b).
Definition lt (a b : Q) : bool := negb (Qle_bool b a).
Definition eq (a b : Q) : bool := Qeq_bool a b.

Definition of_nat (n : nat) : Q := inject_Z (Z.of_nat n).

(** A number as an arithmetic expression may produce it.  The sign of a
    zero is not tracked. *)
Inductive value :=
| Fin (q : Q)
| NaN
| PosInfinity
| NegInfinity.

Definition neg (v : value) : value :=
  match v with
  | Fin q => Fin (- q)%Q
  | NaN => NaN
  | PosInfinity => NegInfinity
  | NegInfinity => PosInfinity
  end.

Definition add (a b : value) : value :=
  match a, b with
  | Fin x, Fin y => Fin (x + y)%Q
  | NaN, _ | _, NaN => NaN
  | PosInfinity, NegInfinity | NegInfinity, PosInfinity => NaN
  | PosInfinity, _ | _, PosInfinity => PosInfinity
  | NegInfinity, _ | _, NegInfinity => NegInfinity
  end.

Definition sub (a b : value) : value := add a (neg b).

(** The infinity with the sign of [q] times [v], for [v] infinite. *)
Definition scale_inf (v : value) (q : Q) : value :=
  if eq q 0%Q then NaN else if lt q 0%Q then neg v else v.

Definition mul (a b : value) : value :=
  match a, b with
  | Fin x, Fin y => Fin (x * y)%Q
  | NaN, _ | _, NaN => NaN
  | Fin x, inf => scale_inf inf x
  | inf, Fin y => scale_inf inf y
  | PosInfinity, PosInfinity | NegInfinity, NegInfinity => PosInfinity
  | _, _ => NegInfinity
  end.

Definition div (a b : value) : value :=
  match a, b with
  | Fin x, Fin y =>
      if eq y 0%Q then
        if eq x 0%Q then NaN
        else if lt 0%Q x then PosInfinity else NegInfinity
      else Fin (x / y)%Q
  | NaN, _ | _, NaN => NaN
  | Fin _, _ => Fin 0%Q
  | inf, Fin y => if lt y 0%Q then neg inf else inf
  | _, _ => NaN
  end.

(** [a === b] *)
Definition strict_eq (a b : value) : bool :=
  match a, b with
  | Fin x, Fin y => eq x y
  | PosInfinity, PosInfinity | NegInfinity, NegInfinity => true
  | _, _ => false
  end.

(** Truthiness of a number: neither zero nor [NaN]. *)
Definition truthy (v : value) : bool :=
  match v with
  | Fin q => negb (eq q 0%Q)
  | NaN => false
  | _ => true
  end.

Definition isFinite (v : value) : bool :=
  match v with Fin _ => true | _ => false end.

Definition of_count (n : nat) : value := Fin (of_nat n).

(** [Math.round]: the nearest integer, ties towards plus infinity. *)
Definition round (v : value) : value :=
  match v with
  | Fin q => Fin (inject_Z (Qfloor (q + (1 # 2))%Q))
  | other => other
  end.

Definition Z_to_string (z : Z) : string :=
  NilZero.string_of_int (Z.to_int z).

(** [n.toString()] for an integral [n]. *)
Definition toString (z : Z) : string := Z_to_string z.

(** [v.toFixed(1)] below 1e21: the sign, then the magnitude rounded to the
    nearest tenth, the larger one of two nearest. *)
Definition toFixed1 (v : value) : string :=
  match v with
  | NaN => "NaN"
  | PosInfinity => "Infinity"
  | NegInfinity => "-Infinity"
  | Fin q =>
      let x := if lt q 0%Q then (- q)%Q else q in
      let n := Qfloor (x * 10 + (1 # 2))%Q in
      ((if lt q 0%Q then "-" else EmptyString) ++
       Z_to_string (n / 10)%Z ++ "." ++ Z_to_string (n mod 10)%Z)%string
  end.

End JsNumber.

(* ------------------------------------------------------------------ *)
(** ** JavaScript dates *)

Module JsDate.

Definition msPerDay : Z := 86400000.

(** Day number (days since 1970-01-01) of a proleptic Gregorian date,
    month in 1..12. *)
Definition days_from_civil (y m d : Z) : Z :=
  let y' := if m <=? 2 then y - 1 else y in
  let era := y' / 400 in
  let yoe := y' - era * 400 in
  let mp := (m + 9) mod 12 in
  let doy := (153 * mp + 2) / 5 + d - 1 in
  let doe := yoe * 365 + yoe / 4 - yoe / 100 + doy in
  era * 146097 + doe - 719468.

(** Year, month (1..12) and day of month of a day number. *)
Definition civil_from_days (z : Z) : Z * Z * Z :=
  let z := z + 719468 in
  let era := z / 146097 in
  let doe := z - era * 146097 in
  let yoe := (doe - doe / 1460 + doe / 36524 - doe / 146096) / 365 in
  let y := yoe + era * 400 in
  let doy := doe - (365 * yoe + yoe / 4 - yoe / 100) in
  let mp := (5 * doy + 2) / 153 in
  let d := doy - (153 * mp + 2) / 5 + 1 in
  let m := if mp <? 10 then mp + 3 else mp - 9 in
  (if m <=? 2 then y + 1 else y, m, d).

Definition Day (t : Z) : Z := t / msPerDay.
Definition TimeWithinDay (t : Z) : Z := t mod msPerDay.

(** [MakeDay(year, month, date)] with a 0-based month, any integer date. *)
Definition MakeDay (y m dt : Z) : Z :=
  days_from_civil (y + m / 12) (m mod 12 + 1) 1 + dt - 1.

Section Zone.
(** Offset of local time from UTC, in milliseconds, in a zone that keeps one
    offset all year; [Zoned] below has the same functions for any zone. *)
Variable tz : Z.

Definition LocalTime (t : Z) : Z := t + tz.
Definition UTC (t : Z) : Z := t - tz.

Definition getFullYear (t : Z) : Z :=
  let '(y, _, _) := civil_from_days (Day (LocalTime t)) in y.
Definition getMonth (t : Z) : Z :=
  let '(_, m, _) := civil_from_days (Day (LocalTime t)) in m - 1.
Definition getDate (t : Z) : Z :=
  let '(_, _, d) := civil_from_days (Day (LocalTime t)) in d.

(** [new Date(year, month, date)]: local midnight of that day. *)
Definition newDate (y m d : Z) : Z := UTC (MakeDay y m d * msPerDay).

(** [t.setDate(dt)]: same local month and time of day, day of month [dt]
    (which may be zero or negative and then reaches into earlier
    months). *)
Definition setDate (t dt : Z) : Z :=
  let lt := LocalTime t in
  UTC (MakeDay (getFullYear t) (getMonth t) dt * msPerDay + TimeWithinDay lt).
End Zone.

(** The time zone of the host: [offsetAt t] is the offset of local time
    from UTC in force at the instant [t] ([LocalTZA(t, true)]) and
    [offsetOfLocal t] the offset by which the local time [t] is read
    ([LocalTZA(t, false)]), both in milliseconds.  Where the zone changes
    its offset, as for daylight saving, the two change with it. *)
Record TimeZone := mkTimeZone {
  offsetAt : Z -> Z;
  offsetOfLocal : Z -> Z
}.

(** The zone that keeps the offset [tz]. *)
Definition fixedOffset (tz : Z) : TimeZone :=
  {| offsetAt := fun _ => tz; offsetOfLocal := fun _ => tz |}.

Module Zoned.
Section Zone.
Variable zone : TimeZone.

Definition LocalTime (t : Z) : Z := t + offsetAt zone t.
Definition UTC (t : Z) : Z := t - offsetOfLocal zone t.

Definition getFullYear (t : Z) : Z :=
  let '(y, _, _) := civil_from_days (Day (LocalTime t)) in y.
Definition getMonth (t : Z) : Z :=
  let '(_, m, _) := civil_from_days (Day (LocalTime t)) in m - 1.
Definition getDate (t : Z) : Z :=
  let '(_, _, d) := civil_from_days (Day (LocalTime t)) in d.

(** [new Date(year, month, date)]: the instant at which the local clock
    reads midnight of that day. *)
Definition newDate (y m d : Z) : Z := UTC (MakeDay y m d * msPerDay).

(** [t.setDate(dt)]: the local time of [t] with the day of month replaced
    by [dt], the time of day kept, read back as an instant. *)
Definition setDate (t dt : Z) : Z :=
  let lt := LocalTime t in
  UTC (MakeDay (getFullYear t) (getMonth t) dt * msPerDay + TimeWithinDay lt).
End Zone.
End Zoned.

Definition digit (c : ascii) : option Z :=
  let n := Z.of_nat (nat_of_ascii c) in
  if (48 <=? n) && (n <=? 57) then Some (n - 48) else None.

Fixpoint digits (s : string) (acc : Z) : option Z :=
  match s with
  | EmptyString => Some acc
  | String c s' =>
      match digit c with
      | Some n => digits s' (acc * 10 + n)
      | None => None
      end
  end.

Definition isLeap (y : Z) : bool :=
  ((y mod 4 =? 0) && negb (y mod 100 =? 0)) || (y mod 400 =? 0).

Definition daysInMonth (y m : Z) : Z :=
  if m =? 2 then (if isLeap y then 29 else 28)
  else if (m =? 4) || (m =? 6) || (m =? 9) || (m =? 11) then 30 else 31.

(** [new Date(s)] for the date-only ISO form [YYYY-MM-DD], which is read
    as UTC midnight of that day.  Every other string is an invalid date
    here; the records of the dashboard only carry this form. *)
Definition parse (s : string) : option Z :=
  if negb (Nat.eqb (String.length s) 10) then None else
  match digits (substring 0 4 s) 0, digits (substring 5 2 s) 0,
        digits (substring 8 2 s) 0 with
  | Some y, Some m, Some d =>
      if String.eqb (substring 4 1 s) "-" && String.eqb (substring 7 1 s) "-"
         && (1 <=? m) && (m <=? 12) && (1 <=? d) && (d <=? daysInMonth y m)
      then Some (days_from_civil y m d * msPerDay)
      else None
  | _, _, _ => None
  end.

Definition pad (width : nat) (z : Z) : string :=
  let s := JsNumber.Z_to_string z in
  let fix zeros (n : nat) : string :=
    match n with O => EmptyString | S n' => String "0" (zeros n') end in
  (zeros (width - String.length s)%nat ++ s)%string.

(** [t.toISOString().split('T')[0]] for a year in 0..9999: the UTC
    calendar day of [t] as [YYYY-MM-DD]. *)
Definition toISODate (t : Z) : string :=
  let '(y, m, d) := civil_from_days (Day t) in
  (pad 4 y ++ "-" ++ pad 2 m ++ "-" ++ pad 2 d)%string.

(** [a < b], [a > b], [a >= b] on dates; a comparison with an invalid
    date is false. *)
Definition lt (a b : option Z) : bool :=
  match a, b with Some x, Some y => x <? y | _, _ => false end.
Definition gt (a b : option Z) : bool := lt b a.
Definition ge (a b : option Z) : bool :=
  match a, b with Some x, Some y => y <=? x | _, _ => false end.

End JsDate.

(* ------------------------------------------------------------------ *)
(** ** The record model ([data/types.ts]) *)

Module Types.

Inductive Vertical := Restaurant | Fuel | Grocery.
Inductive Status := Resolved | InProgress.
Inductive IssueCategory :=
| APIError | BillingInquiry | RefundRequest | NetworkIssues
| SoftwareIntegration.
Inductive Urgency := UrgencyLow | UrgencyMedium | UrgencyHigh.
Inductive Priority := PriorityLow | PriorityMedium | PriorityHigh.
Inductive AccountHealth := Advocate | Engaged | Neutral | Skeptic | ChurnRisk.

Scheme Equality for Vertical.
Scheme Equality for Status.
Scheme Equality for IssueCategory.
Scheme Equality for Urgency.
Scheme Equality for Priority.
Scheme Equality for AccountHealth.

Definition Vertical_name (v : Vertical) : string :=
  match v with
  | Restaurant => "Restaurant" | Fuel => "Fuel" | Grocery => "Grocery"
  end.

Definition Status_name (s : Status) : string :=
  match s with Resolved => "Resolved" | InProgress => "In Progress" end.

Definition IssueCategory_name (c : IssueCategory) : string :=
  match c with
  | APIError => "API Error"
  | BillingInquiry => "Billing Inquiry"
  | RefundRequest => "Refund Request"
  | NetworkIssues => "Network Issues"
  | SoftwareIntegration => "Software Integration"
  end.

Definition AccountHealth_name (h : AccountHealth) : string :=
  match h with
  | Advocate => "Advocate" | Engaged => "Engaged" | Neutral => "Neutral"
  | Skeptic => "Skeptic" | ChurnRisk => "Churn Risk"
  end.

Record ServiceRequest := mkServiceRequest {
  requestId : string;
  accountName : string;
  vertical : Vertical;
  siteCount : Q;
  issueCategory : IssueCategory;
  requestDate : string;
  status : Status;
  urgency : Urgency;
  priority : Priority;
  timeToRespond : Q;
  timeToResolution : Q;
  resolutionDate : string;
  accountHealth : AccountHealth
}.

Definition Urgency_name (u : Urgency) : string :=
  match u with
  | UrgencyLow => "Low" | UrgencyMedium => "Medium" | UrgencyHigh => "High"
  end.

Definition Priority_name (p : Priority) : string :=
  match p with
  | PriorityLow => "Low" | PriorityMedium => "Medium" | PriorityHigh => "High"
  end.

End Types.

(* ------------------------------------------------------------------ *)
(** ** The SLA threshold store ([contexts/SLAContext.tsx]) *)

Module SLAContext.
Import Types.

Record SLAThresholds := mkSLAThresholds {
  responseTimeHours : Q;
  resolutionTimeHours : Q
}.

Definition defaultThresholds : SLAThresholds :=
  {| responseTimeHours := 12; resolutionTimeHours := 72 |}.

Section Provider.
Variable thresholds : SLAThresholds.

Definition isBreachingResponse (request : ServiceRequest) : bool :=
  JsNumber.gt (timeToRespond request) (responseTimeHours thresholds).

Definition isBreachingResolution (request : ServiceRequest) : bool :=
  JsNumber.gt (timeToResolution request) (resolutionTimeHours thresholds).

Definition isBreachingSLA (request : ServiceRequest) : bool :=
  isBreachingResponse request || isBreachingResolution request.

Definition getBreachCount (data : list ServiceRequest) : nat :=
  List.length (filter isBreachingSLA data).
End Provider.

End SLAContext.

(* ------------------------------------------------------------------ *)
(** ** The filter state store ([contexts/FilterContext.tsx]) *)

Module FilterContext.
Import Types.

Inductive Preset := last7 | last30 | last90 | ytd | custom | all.

Scheme Equality for Preset.

Record DateRange := mkDateRange {
  start : option Z;
  end_ : option Z;
  preset : Preset
}.

Record ChartFilters := mkChartFilters {
  vertical : option Vertical;
  status : option Status;
  issueCategory : option IssueCategory;
  accountHealth : option AccountHealth
}.

Record FilterPreset := mkFilterPreset {
  id : string;
  name : string;
  filters : ChartFilters;
  dateRange : DateRange
}.

Definition defaultDateRange : DateRange :=
  {| start := None; end_ := None; preset := all |}.

Definition defaultChartFilters : ChartFilters :=
  {| vertical := None; status := None; issueCategory := None;
     accountHealth := None |}.

(** The state held by [FilterProvider]: its three [useState] cells
    ([currentDateRange] is the cell [dateRange]) and the collection last
    written under the key [filterPresets], as a value; [None] is an absent
    key. *)
Record State := mkState {
  chartFilters : ChartFilters;
  currentDateRange : DateRange;
  presets : list FilterPreset;
  storage : option (list FilterPreset)
}.

(** Initial state; [saved] is the parsed content of the key when the
    provider mounts.  The JSON text is not modelled: it gives the bounds of a
    stored date range back as strings, so only an absent key and collections
    without date bounds are mounted faithfully. *)
Definition init (saved : option (list FilterPreset)) : State :=
  {| chartFilters := defaultChartFilters;
     currentDateRange := defaultDateRange;
     presets := match saved with Some l => l | None => [] end;
     storage := saved |}.

(** A key of [ChartFilters] together with a value of its type. *)
Inductive ChartFilterEntry :=
| vertical_entry (value : option Vertical)
| status_entry (value : option Status)
| issueCategory_entry (value : option IssueCategory)
| accountHealth_entry (value : option AccountHealth).

Definition setChartFilter (e : ChartFilterEntry) (s : State) : State :=
  let prev := chartFilters s in
  let next :=
    match e with
    | vertical_entry v =>
        {| vertical := v; status := status prev;
           issueCategory := issueCategory prev;
           accountHealth := accountHealth prev |}
    | status_entry v =>
        {| vertical := vertical prev; status := v;
           issueCategory := issueCategory prev;
           accountHealth := accountHealth prev |}
    | issueCategory_entry v =>
        {| vertical := vertical prev; status := status prev;
           issueCategory := v;
           accountHealth := accountHealth prev |}
    | accountHealth_entry v =>
        {| vertical := vertical prev; status := status prev;
           issueCategory := issueCategory prev;
           accountHealth := v |}
    end in
  {| chartFilters := next; currentDateRange := currentDateRange s;
     presets := presets s; storage := storage s |}.

Definition clearChartFilters (s : State) : State :=
  {| chartFilters := defaultChartFilters;
     currentDateRange := currentDateRange s;
     presets := presets s; storage := storage s |}.

Definition isSome {A} (o : option A) : bool :=
  match o with Some _ => true | None => false end.

Definition hasActiveChartFilters (s : State) : bool :=
  let f := chartFilters s in
  existsb (fun b : bool => b)
    [isSome (vertical f); isSome (status f); isSome (issueCategory f);
     isSome (accountHealth f)].

Definition setDateRange (range : DateRange) (s : State) : State :=
  {| chartFilters := chartFilters s; currentDateRange := range;
     presets := presets s; storage := storage s |}.

(** [savePreset(name)]; [now] is the value that [Date.now()] returns, the
    reading of the host's millisecond clock, which the store takes as it
    is. *)
Definition savePreset (now : Z) (name : string) (s : State) : State :=
  let newPreset :=
    {| id := JsNumber.toString now; name := name;
       filters := chartFilters s; dateRange := currentDateRange s |} in
  let updated := presets s ++ [newPreset] in
  {| chartFilters := chartFilters s; currentDateRange := currentDateRange s;
     presets := updated; storage := Some updated |}.

(** [presets.find(p => p.id === id)] *)
Definition findPreset (i : string) (l : list FilterPreset) : option FilterPreset :=
  find (fun p => String.eqb (id p) i) l.

Definition loadPreset (i : string) (s : State) : State :=
  match findPreset i (presets s) with
  | Some p =>
      {| chartFilters := filters p; currentDateRange := dateRange p;
         presets := presets s; storage := storage s |}
  | None => s
  end.

Definition deletePreset (i : string) (s : State) : State :=
  let updated := filter (fun p => negb (String.eqb (id p) i)) (presets s) in
  {| chartFilters := chartFilters s; currentDateRange := currentDateRange s;
     presets := updated; storage := Some updated |}.

(** The operations of the store, as events. *)
Inductive Action :=
| SetChartFilter (e : ChartFilterEntry)
| ClearChartFilters
| SetDateRange (range : DateRange)
| SavePreset (now : Z) (name : string)
| LoadPreset (i : string)
| DeletePreset (i : string).

Definition step (s : State) (a : Action) : State :=
  match a with
  | SetChartFilter e => setChartFilter e s
  | ClearChartFilters => clearChartFilters s
  | SetDateRange r => setDateRange r s
  | SavePreset now n => savePreset now n s
  | LoadPreset i => loadPreset i s
  | DeletePreset i => deletePreset i s
  end.

Definition run (s : State) (l : list Action) : State := fold_left step l s.

(** States reachable from an empty store. *)
Definition reachable (s : State) : Prop :=
  exists l, s = run (init None) l.

(** The mutations that change the filters or the date range without
    touching the preset collection. *)
Definition isFilterMutation (a : Action) : bool :=
  match a with
  | SetChartFilter _ | ClearChartFilters | SetDateRange _ => true
  | _ => false
  end.

End FilterContext.

(* ------------------------------------------------------------------ *)
(** ** The preset menu ([components/FilterPresets.tsx]) *)

Module FilterPresets.
Import FilterContext.

(** The save button is enabled. *)
Definition canSave (s : State) : bool :=
  hasActiveChartFilters s || negb (Preset_beq (preset (currentDateRange s)) all).

(** [handleSave] with the trimmed name [name]. *)
Definition handleSave (now : Z) (name : string) (s : State) : State :=
  if negb (String.eqb name EmptyString) then savePreset now name s else s.

End FilterPresets.

(* ------------------------------------------------------------------ *)
(** ** The date-range picker ([components/DateRangePicker.tsx]) *)

Module DateRangePicker.
Import FilterContext.

Section Env.
(** The offset of a zone that keeps one offset, and the value of
    [new Date()]; [Zoned] below has [getPresetDates] for any zone. *)
Variables (tz now : Z).

Definition getPresetDates (p : Preset) : option Z * option Z :=
  let today :=
    JsDate.newDate tz (JsDate.getFullYear tz now) (JsDate.getMonth tz now)
                   (JsDate.getDate tz now) in
  match p with
  | last7 =>
      let start := JsDate.setDate tz today (JsDate.getDate tz today - 7) in
      (Some start, Some today)
  | last30 =>
      let start := JsDate.setDate tz today (JsDate.getDate tz today - 30) in
      (Some start, Some today)
  | last90 =>
      let start := JsDate.setDate tz today (JsDate.getDate tz today - 90) in
      (Some start, Some today)
  | ytd =>
      let start := JsDate.newDate tz (JsDate.getFullYear tz now) 0 1 in
      (Some start, Some today)
  | _ => (None, None)
  end.

Definition handlePresetSelect (p : Preset) (s : State) : State :=
  match p with
  | custom => s
  | _ =>
      let dates := getPresetDates p in
      setDateRange {| start := fst dates; end_ := snd dates; preset := p |} s
  end.
End Env.

(** [getPresetDates] in any time zone. *)
Module Zoned.
Section Env.
Variables (zone : JsDate.TimeZone) (now : Z).

Definition getPresetDates (p : Preset) : option Z * option Z :=
  let today :=
    JsDate.Zoned.newDate zone (JsDate.Zoned.getFullYear zone now)
      (JsDate.Zoned.getMonth zone now) (JsDate.Zoned.getDate zone now) in
  match p with
  | last7 =>
      let start := JsDate.Zoned.setDate zone today (JsDate.Zoned.getDate zone today - 7) in
      (Some start, Some today)
  | last30 =>
      let start := JsDate.Zoned.setDate zone today (JsDate.Zoned.getDate zone today - 30) in
      (Some start, Some today)
  | last90 =>
      let start := JsDate.Zoned.setDate zone today (JsDate.Zoned.getDate zone today - 90) in
      (Some start, Some today)
  | ytd =>
      let start := JsDate.Zoned.newDate zone (JsDate.Zoned.getFullYear zone now) 0 1 in
      (Some start, Some today)
  | _ => (None, None)
  end.
End Env.
End Zoned.

(** [handleCustomApply]; the two strings are the values of the date
    inputs, each empty or of the form [YYYY-MM-DD]. *)
Definition handleCustomApply (customStart customEnd : string) (s : State) : State :=
  let start := if String.eqb customStart EmptyString then None else JsDate.parse customStart in
  let end' := if String.eqb customEnd EmptyString then None else JsDate.parse customEnd in
  setDateRange {| start := start; end_ := end'; preset := custom |} s.

End DateRangePicker.

(* ------------------------------------------------------------------ *)
(** ** The export view ([App.tsx], [DashboardContent]) *)

Module App.
Import Types.
Module F := FilterContext.

Definition filteredData (serviceRequests : list ServiceRequest)
           (chartFilters : F.ChartFilters) (dateRange : F.DateRange)
  : list ServiceRequest :=
  let result := serviceRequests in
  (* Date range filter *)
  let result :=
    if negb (F.Preset_beq (F.preset dateRange) F.all)
       && (F.isSome (F.start dateRange) || F.isSome (F.end_ dateRange))
    then
      filter (fun d =>
        let date := JsDate.parse (requestDate d) in
        if F.isSome (F.start dateRange) && JsDate.lt date (F.start dateRange)
        then false
        else if F.isSome (F.end_ dateRange) && JsDate.gt date (F.end_ dateRange)
        then false
        else true) result
    else result in
  (* Chart filters *)
  let result :=
    match F.vertical chartFilters with
    | Some v => filter (fun d => Vertical_beq (vertical d) v) result
    | None => result
    end in
  let result :=
    match F.status chartFilters with
    | Some v => filter (fun d => Status_beq (status d) v) result
    | None => result
    end in
  let result :=
    match F.issueCategory chartFilters with
    | Some v => filter (fun d => IssueCategory_beq (issueCategory d) v) result
    | None => result
    end in
  let result :=
    match F.accountHealth chartFilters with
    | Some v => filter (fun d => AccountHealth_beq (accountHealth d) v) result
    | None => result
    end in
  result.

End App.

(* ------------------------------------------------------------------ *)
(** ** The charts ([components/Charts.tsx]) *)

Module Charts.
Import Types.
Module F := FilterContext.

Definition filteredData (data : list ServiceRequest) (dateRange : F.DateRange)
  : list ServiceRequest :=
  if negb (F.Preset_beq (F.preset dateRange) F.all)
     && (F.isSome (F.start dateRange) || F.isSome (F.end_ dateRange))
  then
    filter (fun d =>
      let date := JsDate.parse (requestDate d) in
      if F.isSome (F.start dateRange) && JsDate.lt date (F.start dateRange)
      then false
      else if F.isSome (F.end_ dateRange) && JsDate.gt date (F.end_ dateRange)
      then false
      else true) data
  else data.

(** A [Record<string, V>] whose keys are not array indices: own properties
    are enumerated in the order in which they were first created.  None of
    the literals of the four categorical fields is an array index. *)
Section JsObject.
Context {V : Type}.

Fixpoint get (k : string) (o : list (string * V)) : option V :=
  match o with
  | [] => None
  | (k', v) :: o' => if String.eqb k' k then Some v else get k o'
  end.

(** [o[k] = v]: an existing property keeps its place, a new one comes
    last. *)
Fixpoint set (k : string) (v : V) (o : list (string * V)) : list (string * V) :=
  match o with
  | [] => [(k, v)]
  | (k', v') :: o' =>
      if String.eqb k' k then (k', v) :: o' else (k', v') :: set k v o'
  end.

(** [Object.entries(o)] *)
Definition entries (o : list (string * V)) : list (string * V) := o.
End JsObject.

Record NamedValue (V : Type) := mkNamedValue { name : string; value : V }.
Arguments mkNamedValue {V}.
Arguments name {V}.
Arguments value {V}.

(** [counts[k] = (counts[k] || 0) + 1] *)
Definition increment (k : string) (counts : list (string * nat)) : list (string * nat) :=
  let old :=
    match get k counts with
    | Some n => if Nat.eqb n 0 then O else n
    | None => O
    end in
  set k (old + 1)%nat counts.

(** The body shared by [verticalData], [statusData], [categoryData] and
    [healthData]; [key] reads the field. *)
Definition countBy (key : ServiceRequest -> string) (filteredData : list ServiceRequest)
  : list (NamedValue nat) :=
  let counts :=
    fold_left (fun counts item => increment (key item) counts) filteredData [] in
  map (fun '(name, value) => mkNamedValue name value) (entries counts).

Definition verticalData := countBy (fun item => Vertical_name (vertical item)).
Definition statusData := countBy (fun item => Status_name (status item)).
Definition categoryData := countBy (fun item => IssueCategory_name (issueCategory item)).
Definition healthData := countBy (fun item => AccountHealth_name (accountHealth item)).

Definition addTotal (item : ServiceRequest) (totals : list (string * (Q * nat)))
  : list (string * (Q * nat)) :=
  let k := Vertical_name (vertical item) in
  let totals :=
    match get k totals with
    | Some _ => totals
    | None => set k (0%Q, O) totals
    end in
  match get k totals with
  | Some (sum, count) => set k ((sum + timeToResolution item)%Q, (count + 1)%nat) totals
  | None => totals
  end.

Definition avgResolutionByVertical (filteredData : list ServiceRequest)
  : list (NamedValue JsNumber.value) :=
  let totals := fold_left (fun totals item => addTotal item totals) filteredData [] in
  map (fun '(name, (sum, count)) =>
         mkNamedValue name
           (JsNumber.round (JsNumber.div (JsNumber.Fin sum) (JsNumber.of_count count))))
      (entries totals).

(** [v === name] for a nullable filter value [v]. *)
Definition selected {A} (eqb : A -> A -> bool) (v : option A) (name : A) : bool :=
  match v with
  | Some v => eqb v name
  | None => false
  end.

(** The click handlers of the charts.  The segments of a chart are the
    entries of its data, so the name of a clicked entry is a literal of the
    field; [None] is an entry without a name.  The result is the call of
    [setChartFilter] that the handler makes, if it makes one. *)
Definition handleVerticalClick (chartFilters : F.ChartFilters) (entry : option Vertical)
  : option F.ChartFilterEntry :=
  match entry with
  | None => None
  | Some name =>
      if selected Vertical_beq (F.vertical chartFilters) name
      then Some (F.vertical_entry None)
      else Some (F.vertical_entry (Some name))
  end.

Definition handleStatusClick (chartFilters : F.ChartFilters) (entry : option Status)
  : option F.ChartFilterEntry :=
  match entry with
  | None => None
  | Some name =>
      if selected Status_beq (F.status chartFilters) name
      then Some (F.status_entry None)
      else Some (F.status_entry (Some name))
  end.

Definition handleCategoryClick (chartFilters : F.ChartFilters) (entry : option IssueCategory)
  : option F.ChartFilterEntry :=
  match entry with
  | None => None
  | Some name =>
      if selected IssueCategory_beq (F.issueCategory chartFilters) name
      then Some (F.issueCategory_entry None)
      else Some (F.issueCategory_entry (Some name))
  end.

Definition handleHealthClick (chartFilters : F.ChartFilters) (entry : option AccountHealth)
  : option F.ChartFilterEntry :=
  match entry with
  | None => None
  | Some name =>
      if selected AccountHealth_beq (F.accountHealth chartFilters) name
      then Some (F.accountHealth_entry None)
      else Some (F.accountHealth_entry (Some name))
  end.

End Charts.

(* ------------------------------------------------------------------ *)
(** ** The KPI cards ([components/KPICards.tsx]) *)

Module KPICards.
Import Types.
Module F := FilterContext.

(** [KPICard]: the percent change shown in the comparison badge;
    [previousValue] is an optional prop. *)
Definition percentChange (value : JsNumber.value) (previousValue : option JsNumber.value)
  : option JsNumber.value :=
  match previousValue with
  | Some p =>
      if JsNumber.truthy p && negb (JsNumber.strict_eq p (JsNumber.Fin 0))
      then Some (JsNumber.mul (JsNumber.div (JsNumber.sub value p) p) (JsNumber.Fin 100))
      else None
  | None => None
  end.

Inductive Metric :=
| count | resolved | inProgress | responseTime | resolutionTime | churnRisk
| slaBreaches.

(** [data.reduce((sum, d) => sum + f(d), 0)] *)
Definition sumOf (f : ServiceRequest -> Q) (data : list ServiceRequest) : Q :=
  fold_left (fun sum d => (sum + f d)%Q) data 0%Q.

(** [data.length > 0 ? data.reduce(...) / data.length : 0] *)
Definition meanOrZero (f : ServiceRequest -> Q) (data : list ServiceRequest)
  : JsNumber.value :=
  if (0 <? List.length data)%nat
  then JsNumber.div (JsNumber.Fin (sumOf f data)) (JsNumber.of_count (List.length data))
  else JsNumber.Fin 0.

Definition countWhere (p : ServiceRequest -> bool) (data : list ServiceRequest)
  : JsNumber.value :=
  JsNumber.of_count (List.length (filter p data)).

Section Env.
(** The offset of a zone that keeps one offset, and the value of
    [new Date()]; [Zoned] below has the same functions for any zone. *)
Variables (tz now : Z).

(** The first three statements of the loop body of
    [generateSparklineData]: the string of the day [i] days before
    today. *)
Definition dateStr (i : nat) : string :=
  let date := now in
  let date := JsDate.setDate tz date (JsDate.getDate tz date - Z.of_nat i) in
  JsDate.toISODate date.

(** The value pushed for the day [i] days before today. *)
Definition point (data : list ServiceRequest) (metric : Metric) (i : nat)
  : JsNumber.value :=
  let dayData := filter (fun d => String.eqb (requestDate d) (dateStr i)) data in
  match metric with
  | count => JsNumber.of_count (List.length dayData)
  | resolved => countWhere (fun d => Status_beq (status d) Resolved) dayData
  | inProgress => countWhere (fun d => Status_beq (status d) InProgress) dayData
  | responseTime => meanOrZero timeToRespond dayData
  | resolutionTime => meanOrZero timeToResolution dayData
  | churnRisk => countWhere (fun d => AccountHealth_beq (accountHealth d) ChurnRisk) dayData
  | slaBreaches =>
      countWhere (fun d => JsNumber.gt (timeToRespond d) 12
                           || JsNumber.gt (timeToResolution d) 72) dayData
  end.

(** [for (let i = days - 1; i >= 0; i--)]: the values pushed while the
    loop variable runs from [n - 1] down to [0]. *)
Fixpoint series (data : list ServiceRequest) (metric : Metric) (n : nat)
  : list JsNumber.value :=
  match n with
  | O => []
  | S i => point data metric i :: series data metric i
  end.

Definition placeholder : list JsNumber.value :=
  map JsNumber.of_count [1; 2; 1; 3; 2; 4; 3]%nat.

Definition generateSparklineData (data : list ServiceRequest) (metric : Metric)
           (days : nat) : list JsNumber.value :=
  let result := series data metric days in
  (* Ensure we always have some variation for visual appeal *)
  if forallb (fun v => JsNumber.strict_eq v (JsNumber.Fin 0)) result
  then placeholder
  else result.

Definition getPreviousPeriodData (data : list ServiceRequest) (days : Z)
  : list ServiceRequest :=
  let today := now in
  let periodStart := JsDate.setDate tz today (JsDate.getDate tz today - days * 2) in
  let periodEnd := JsDate.setDate tz today (JsDate.getDate tz today - days) in
  filter (fun d =>
    let date := JsDate.parse (requestDate d) in
    JsDate.ge date (Some periodStart) && JsDate.lt date (Some periodEnd)) data.
End Env.

(** [generateSparklineData] and [getPreviousPeriodData] in any time zone;
    [now] is the value of [new Date()]. *)
Module Zoned.
Section Env.
Variables (zone : JsDate.TimeZone) (now : Z).

Definition dateStr (i : nat) : string :=
  let date := now in
  let date := JsDate.Zoned.setDate zone date (JsDate.Zoned.getDate zone date - Z.of_nat i) in
  JsDate.toISODate date.

Definition point (data : list ServiceRequest) (metric : Metric) (i : nat)
  : JsNumber.value :=
  let dayData := filter (fun d => String.eqb (requestDate d) (dateStr i)) data in
  match metric with
  | count => JsNumber.of_count (List.length dayData)
  | resolved => countWhere (fun d => Status_beq (status d) Resolved) dayData
  | inProgress => countWhere (fun d => Status_beq (status d) InProgress) dayData
  | responseTime => meanOrZero timeToRespond dayData
  | resolutionTime => meanOrZero timeToResolution dayData
  | churnRisk => countWhere (fun d => AccountHealth_beq (accountHealth d) ChurnRisk) dayData
  | slaBreaches =>
      countWhere (fun d => JsNumber.gt (timeToRespond d) 12
                           || JsNumber.gt (timeToResolution d) 72) dayData
  end.

Fixpoint series (data : list ServiceRequest) (metric : Metric) (n : nat)
  : list JsNumber.value :=
  match n with
  | O => []
  | S i => point data metric i :: series data metric i
  end.

Definition generateSparklineData (data : list ServiceRequest) (metric : Metric)
           (days : nat) : list JsNumber.value :=
  let result := series data metric days in
  if forallb (fun v => JsNumber.strict_eq v (JsNumber.Fin 0)) result
  then placeholder
  else result.

Definition getPreviousPeriodData (data : list ServiceRequest) (days : Z)
  : list ServiceRequest :=
  let today := now in
  let periodStart :=
    JsDate.Zoned.setDate zone today (JsDate.Zoned.getDate zone today - days * 2) in
  let periodEnd :=
    JsDate.Zoned.setDate zone today (JsDate.Zoned.getDate zone today - days) in
  filter (fun d =>
    let date := JsDate.parse (requestDate d) in
    JsDate.ge date (Some periodStart) && JsDate.lt date (Some periodEnd)) data.
End Env.
End Zoned.

Definition filteredData (data : list ServiceRequest) (dateRange : F.DateRange)
  : list ServiceRequest :=
  if F.Preset_beq (F.preset dateRange) F.all
     || (negb (F.isSome (F.start dateRange)) && negb (F.isSome (F.end_ dateRange)))
  then data
  else
    filter (fun d =>
      let date := JsDate.parse (requestDate d) in
      if F.isSome (F.start dateRange) && JsDate.lt date (F.start dateRange)
      then false
      else if F.isSome (F.end_ dateRange) && JsDate.gt date (F.end_ dateRange)
      then false
      else true) data.

(** The figures computed by [KPICards] from the date-filtered records. *)
Section Figures.
Variable filteredData : list ServiceRequest.

Definition totalRequests : JsNumber.value :=
  JsNumber.of_count (List.length filteredData).
Definition resolvedCount : JsNumber.value :=
  countWhere (fun d => Status_beq (status d) Resolved) filteredData.
Definition inProgressCount : JsNumber.value :=
  countWhere (fun d => Status_beq (status d) InProgress) filteredData.
Definition avgResponseTime : JsNumber.value :=
  meanOrZero timeToRespond filteredData.
Definition avgResolutionTime : JsNumber.value :=
  meanOrZero timeToResolution filteredData.
Definition churnRiskCount : JsNumber.value :=
  countWhere (fun d => AccountHealth_beq (accountHealth d) ChurnRisk) filteredData.
Definition slaBreachCount (thresholds : SLAContext.SLAThresholds) : JsNumber.value :=
  JsNumber.of_count (SLAContext.getBreachCount thresholds filteredData).

(** The subtitle of the card [Resolved]:
    [((resolvedCount / totalRequests) * 100).toFixed(1) + '%'] *)
Definition resolvedSubtitle : string :=
  (JsNumber.toFixed1
     (JsNumber.mul (JsNumber.div resolvedCount totalRequests) (JsNumber.Fin 100))
   ++ "%")%string.

(** The subtitle of the card [In Progress]. *)
Definition inProgressSubtitle : string :=
  (JsNumber.toFixed1
     (JsNumber.mul (JsNumber.div inProgressCount totalRequests) (JsNumber.Fin 100))
   ++ "%")%string.
End Figures.

(** The seven cards of [KPICards]: the value of each card with the value of
    the previous period that it is compared to. *)
Definition cards (thresholds : SLAContext.SLAThresholds)
           (filteredData previousData : list ServiceRequest)
  : list (JsNumber.value * JsNumber.value) :=
  [(totalRequests filteredData, totalRequests previousData);
   (resolvedCount filteredData, resolvedCount previousData);
   (inProgressCount filteredData, inProgressCount previousData);
   (avgResponseTime filteredData, avgResponseTime previousData);
   (avgResolutionTime filteredData, avgResolutionTime previousData);
   (churnRiskCount filteredData, churnRiskCount previousData);
   (slaBreachCount filteredData thresholds, slaBreachCount previousData thresholds)].

(** The percent changes of the seven cards. *)
Definition badges (thresholds : SLAContext.SLAThresholds)
           (filteredData previousData : list ServiceRequest)
  : list (option JsNumber.value) :=
  map (fun '(value, previousValue) => percentChange value (Some previousValue))
      (cards thresholds filteredData previousData).

End KPICards.

(* ------------------------------------------------------------------ *)
(** ** The table ([components/DataTable.tsx]) *)

Module DataTable.
Import Types.
Module F := FilterContext.

Inductive SortKey :=
| k_requestId | k_accountName | k_vertical | k_siteCount | k_issueCategory
| k_requestDate | k_status | k_urgency | k_priority | k_timeToRespond
| k_timeToResolution | k_resolutionDate | k_accountHealth.

Scheme Equality for SortKey.

Inductive SortDirection := asc | desc.

Definition ITEMS_PER_PAGE : Z := 50.

(** The [useState] cells of the component that take part in filtering,
    sorting and paging; the empty selection [''] of a column filter is
    [None]. *)
Record State := mkState {
  search : string;
  verticalFilter : option Vertical;
  statusFilter : option Status;
  categoryFilter : option IssueCategory;
  urgencyFilter : option Urgency;
  priorityFilter : option Priority;
  healthFilter : option AccountHealth;
  sortKey : SortKey;
  sortDirection : SortDirection;
  currentPage : Z
}.

Definition init : State :=
  {| search := EmptyString; verticalFilter := None; statusFilter := None;
     categoryFilter := None; urgencyFilter := None; priorityFilter := None;
     healthFilter := None; sortKey := k_requestDate; sortDirection := desc;
     currentPage := 1 |}.

(** The setters of the cells. *)
Definition setSearch (v : string) (s : State) : State :=
  {| search := v; verticalFilter := verticalFilter s; statusFilter :=
     statusFilter s; categoryFilter := categoryFilter s; urgencyFilter :=
     urgencyFilter s; priorityFilter := priorityFilter s; healthFilter :=
     healthFilter s; sortKey := sortKey s; sortDirection := sortDirection
     s; currentPage := currentPage s |}.

Definition setVerticalFilter (v : option Vertical) (s : State) : State :=
  {| search := search s; verticalFilter := v; statusFilter := statusFilter
     s; categoryFilter := categoryFilter s; urgencyFilter := urgencyFilter
     s; priorityFilter := priorityFilter s; healthFilter := healthFilter
     s; sortKey := sortKey s; sortDirection := sortDirection s;
     currentPage := currentPage s |}.

Definition setStatusFilter (v : option Status) (s : State) : State :=
  {| search := search s; verticalFilter := verticalFilter s; statusFilter
     := v; categoryFilter := categoryFilter s; urgencyFilter :=
     urgencyFilter s; priorityFilter := priorityFilter s; healthFilter :=
     healthFilter s; sortKey := sortKey s; sortDirection := sortDirection
     s; currentPage := currentPage s |}.

Definition setCategoryFilter (v : option IssueCategory) (s : State) : State :=
  {| search := search s; verticalFilter := verticalFilter s; statusFilter
     := statusFilter s; categoryFilter := v; urgencyFilter :=
     urgencyFilter s; priorityFilter := priorityFilter s; healthFilter :=
     healthFilter s; sortKey := sortKey s; sortDirection := sortDirection
     s; currentPage := currentPage s |}.

Definition setUrgencyFilter (v : option Urgency) (s : State) : State :=
  {| search := search s; verticalFilter := verticalFilter s; statusFilter
     := statusFilter s; categoryFilter := categoryFilter s; urgencyFilter
     := v; priorityFilter := priorityFilter s; healthFilter :=
     healthFilter s; sortKey := sortKey s; sortDirection := sortDirection
     s; currentPage := currentPage s |}.

Definition setPriorityFilter (v : option Priority) (s : State) : State :=
  {| search := search s; verticalFilter := verticalFilter s; statusFilter
     := statusFilter s; categoryFilter := categoryFilter s; urgencyFilter
     := urgencyFilter s; priorityFilter := v; healthFilter := healthFilter
     s; sortKey := sortKey s; sortDirection := sortDirection s;
     currentPage := currentPage s |}.

Definition setHealthFilter (v : option AccountHealth) (s : State) : State :=
  {| search := search s; verticalFilter := verticalFilter s; statusFilter
     := statusFilter s; categoryFilter := categoryFilter s; urgencyFilter
     := urgencyFilter s; priorityFilter := priorityFilter s; healthFilter
     := v; sortKey := sortKey s; sortDirection := sortDirection s;
     currentPage := currentPage s |}.

Definition setSortKey (v : SortKey) (s : State) : State :=
  {| search := search s; verticalFilter := verticalFilter s; statusFilter
     := statusFilter s; categoryFilter := categoryFilter s; urgencyFilter
     := urgencyFilter s; priorityFilter := priorityFilter s; healthFilter
     := healthFilter s; sortKey := v; sortDirection := sortDirection s;
     currentPage := currentPage s |}.

Definition setSortDirection (v : SortDirection) (s : State) : State :=
  {| search := search s; verticalFilter := verticalFilter s; statusFilter
     := statusFilter s; categoryFilter := categoryFilter s; urgencyFilter
     := urgencyFilter s; priorityFilter := priorityFilter s; healthFilter
     := healthFilter s; sortKey := sortKey s; sortDirection := v;
     currentPage := currentPage s |}.

Definition setCurrentPage (v : Z) (s : State) : State :=
  {| search := search s; verticalFilter := verticalFilter s; statusFilter
     := statusFilter s; categoryFilter := categoryFilter s; urgencyFilter
     := urgencyFilter s; priorityFilter := priorityFilter s; healthFilter
     := healthFilter s; sortKey := sortKey s; sortDirection :=
     sortDirection s; currentPage := v |}.

(** The effect that runs when [chartFilters] changes:
    "Sync chart filters with local filters". *)
Definition syncChartFilters (chartFilters : F.ChartFilters) (s : State) : State :=
  let s :=
    match F.vertical chartFilters with
    | Some v => setVerticalFilter (Some v) s
    | None => s
    end in
  let s :=
    match F.status chartFilters with
    | Some v => setStatusFilter (Some v) s
    | None => s
    end in
  let s :=
    match F.issueCategory chartFilters with
    | Some v => setCategoryFilter (Some v) s
    | None => s
    end in
  match F.accountHealth chartFilters with
  | Some v => setHealthFilter (Some v) s
  | None => s
  end.

(** ASCII case folding and substring search stand for
    [toLowerCase] and [includes]. *)
Definition lower (c : ascii) : ascii :=
  let n := nat_of_ascii c in
  if (65 <=? n)%nat && (n <=? 90)%nat then ascii_of_nat (n + 32) else c.

Fixpoint toLowerCase (s : string) : string :=
  match s with
  | EmptyString => EmptyString
  | String c s' => String (lower c) (toLowerCase s')
  end.

Fixpoint includes (s sub : string) : bool :=
  String.prefix sub s
  || match s with
     | EmptyString => false
     | String _ s' => includes s' sub
     end.

(** [!v || x === v] for a nullable filter value [v]. *)
Definition matches {A} (eqb : A -> A -> bool) (x : A) (v : option A) : bool :=
  match v with
  | Some v => eqb x v
  | None => true
  end.

(** The callback of [data.filter] in [filteredData]. *)
Definition keep (s : State) (chartFilters : F.ChartFilters) (dateRange : F.DateRange)
           (item : ServiceRequest) : bool :=
  (* Date range filter *)
  let rejected :=
    if negb (F.Preset_beq (F.preset dateRange) F.all)
       && (F.isSome (F.start dateRange) || F.isSome (F.end_ dateRange))
    then
      let date := JsDate.parse (requestDate item) in
      if F.isSome (F.start dateRange) && JsDate.lt date (F.start dateRange)
      then true
      else if F.isSome (F.end_ dateRange) && JsDate.gt date (F.end_ dateRange)
      then true
      else false
    else false in
  if rejected then false else
  let matchesSearch :=
    String.eqb (search s) EmptyString
    || includes (toLowerCase (accountName item)) (toLowerCase (search s))
    || includes (toLowerCase (requestId item)) (toLowerCase (search s)) in
  let matchesVertical := matches Vertical_beq (vertical item) (verticalFilter s) in
  let matchesStatus := matches Status_beq (status item) (statusFilter s) in
  let matchesCategory := matches IssueCategory_beq (issueCategory item) (categoryFilter s) in
  let matchesUrgency := matches Urgency_beq (urgency item) (urgencyFilter s) in
  let matchesPriority := matches Priority_beq (priority item) (priorityFilter s) in
  let matchesHealth := matches AccountHealth_beq (accountHealth item) (healthFilter s) in
  (* Chart filters (override local filters if set) *)
  let matchesChartVertical := matches Vertical_beq (vertical item) (F.vertical chartFilters) in
  let matchesChartStatus := matches Status_beq (status item) (F.status chartFilters) in
  let matchesChartCategory :=
    matches IssueCategory_beq (issueCategory item) (F.issueCategory chartFilters) in
  let matchesChartHealth :=
    matches AccountHealth_beq (accountHealth item) (F.accountHealth chartFilters) in
  matchesSearch && matchesVertical && matchesStatus && matchesCategory &&
  matchesUrgency && matchesPriority && matchesHealth &&
  matchesChartVertical && matchesChartStatus && matchesChartCategory &&
  matchesChartHealth.

Definition filteredData (data : list ServiceRequest) (s : State)
           (chartFilters : F.ChartFilters) (dateRange : F.DateRange)
  : list ServiceRequest :=
  filter (keep s chartFilters dateRange) data.

(** [Math.ceil(length / ITEMS_PER_PAGE)] *)
Definition totalPages (sortedData : list ServiceRequest) : Z :=
  (Z.of_nat (List.length sortedData) + ITEMS_PER_PAGE - 1) / ITEMS_PER_PAGE.

(** [sortedData.slice(b, e)] for non-negative bounds. *)
Definition slice {A} (l : list A) (b e : Z) : list A :=
  firstn (Z.to_nat (e - b)) (skipn (Z.to_nat b) l).

(** The sort of [sortedData] calls the host's [localeCompare]; the sorted
    list is an argument here. *)
Definition paginatedData (sortedData : list ServiceRequest) (s : State)
  : list ServiceRequest :=
  slice sortedData ((currentPage s - 1) * ITEMS_PER_PAGE)
        (currentPage s * ITEMS_PER_PAGE).

Definition handleSort (key : SortKey) (s : State) : State :=
  if SortKey_beq (sortKey s) key
  then setSortDirection (match sortDirection s with asc => desc | desc => asc end) s
  else setSortDirection asc (setSortKey key s).

(** What the user does in the table's own controls. *)
Inductive Event :=
| SearchChange (v : string)
| VerticalChange (v : option Vertical)
| StatusChange (v : option Status)
| CategoryChange (v : option IssueCategory)
| UrgencyChange (v : option Urgency)
| PriorityChange (v : option Priority)
| HealthChange (v : option AccountHealth)
| Sort (key : SortKey)
| Previous
| Next.

(** The [onChange] and [onClick] handlers; [pages] is [totalPages] of the
    render in which the button was clicked. *)
Definition handle (pages : Z) (e : Event) (s : State) : State :=
  match e with
  | SearchChange v => setCurrentPage 1 (setSearch v s)
  | VerticalChange v => setCurrentPage 1 (setVerticalFilter v s)
  | StatusChange v => setCurrentPage 1 (setStatusFilter v s)
  | CategoryChange v => setCurrentPage 1 (setCategoryFilter v s)
  | UrgencyChange v => setCurrentPage 1 (setUrgencyFilter v s)
  | PriorityChange v => setCurrentPage 1 (setPriorityFilter v s)
  | HealthChange v => setCurrentPage 1 (setHealthFilter v s)
  | Sort key => handleSort key s
  | Previous => setCurrentPage (Z.max 1 (currentPage s - 1)) s
  | Next => setCurrentPage (Z.min pages (currentPage s + 1)) s
  end.

(** [item[sortKey]]: a string or a number. *)
Inductive FieldValue :=
| StringValue (s : string)
| NumberValue (n : Q).

Definition field (key : SortKey) (item : ServiceRequest) : FieldValue :=
  match key with
  | k_requestId => StringValue (requestId item)
  | k_accountName => StringValue (accountName item)
  | k_vertical => StringValue (Vertical_name (vertical item))
  | k_siteCount => NumberValue (siteCount item)
  | k_issueCategory => StringValue (IssueCategory_name (issueCategory item))
  | k_requestDate => StringValue (requestDate item)
  | k_status => StringValue (Status_name (status item))
  | k_urgency => StringValue (Urgency_name (urgency item))
  | k_priority => StringValue (Priority_name (priority item))
  | k_timeToRespond => NumberValue (timeToRespond item)
  | k_timeToResolution => NumberValue (timeToResolution item)
  | k_resolutionDate => StringValue (resolutionDate item)
  | k_accountHealth => StringValue (AccountHealth_name (accountHealth item))
  end.

(** [Array.prototype.sort] is stable: for a comparator that is a consistent
    ordering its result is the one stable arrangement, which insertion from
    the right computes.  The comparator is given by the sign of its
    result. *)
Fixpoint insert {A} (cmp : A -> A -> comparison) (x : A) (l : list A) : list A :=
  match l with
  | [] => [x]
  | y :: l' =>
      match cmp x y with
      | Gt => y :: insert cmp x l'
      | _ => x :: l
      end
  end.

Definition sort {A} (cmp : A -> A -> comparison) (l : list A) : list A :=
  fold_right (insert cmp) [] l.

Section Sorting.
(** The sign of [a.localeCompare(b)], which the host defines. *)
Variable localeCompare : string -> string -> comparison.

(** The comparator of [sortedData]. *)
Definition compareRows (s : State) (a b : ServiceRequest) : comparison :=
  let aVal := field (sortKey s) a in
  let bVal := field (sortKey s) b in
  match aVal, bVal with
  | StringValue x, StringValue y =>
      match sortDirection s with
      | asc => localeCompare x y
      | desc => localeCompare y x
      end
  | NumberValue x, NumberValue y =>
      match sortDirection s with
      | asc => (x ?= y)%Q
      | desc => (y ?= x)%Q
      end
  | _, _ => Eq
  end.

Definition sortedData (filteredData : list ServiceRequest) (s : State)
  : list ServiceRequest :=
  sort (compareRows s) filteredData.
End Sorting.

(** [expandedRows], a [Set<string>]: its elements in insertion order. *)
Definition has (x : string) (set : list string) : bool :=
  existsb (String.eqb x) set.

Definition add (x : string) (set : list string) : list string :=
  if has x set then set else set ++ [x].

Definition delete (x : string) (set : list string) : list string :=
  filter (fun y => negb (String.eqb y x)) set.

Definition toggleRowExpansion (requestId : string) (prev : list string) : list string :=
  let next := prev in
  if has requestId next then delete requestId next else add requestId next.

(** The two cells of the keyboard navigation. *)
Record RowState := mkRowState {
  expandedRows : list string;
  focusedRowIndex : Z
}.

Definition initRows : RowState :=
  {| expandedRows := []; focusedRowIndex := -1 |}.

Inductive Key := ArrowDown | ArrowUp | Enter | Escape | OtherKey.

(** [handleKeyDown] on the rows of the page shown. *)
Definition handleKeyDown (paginatedData : list ServiceRequest) (key : Key) (r : RowState)
  : RowState :=
  let length := Z.of_nat (List.length paginatedData) in
  if length =? 0 then r else
  match key with
  | ArrowDown =>
      {| expandedRows := expandedRows r;
         focusedRowIndex := Z.min (focusedRowIndex r + 1) (length - 1) |}
  | ArrowUp =>
      {| expandedRows := expandedRows r;
         focusedRowIndex := Z.max (focusedRowIndex r - 1) 0 |}
  | Enter =>
      if (0 <=? focusedRowIndex r) && (focusedRowIndex r <? length)
      then
        match nth_error paginatedData (Z.to_nat (focusedRowIndex r)) with
        | Some item =>
            {| expandedRows := toggleRowExpansion (requestId item) (expandedRows r);
               focusedRowIndex := focusedRowIndex r |}
        | None => r
        end
      else r
  | Escape => {| expandedRows := expandedRows r; focusedRowIndex := -1 |}
  | OtherKey => r
  end.

End DataTable.

(* ------------------------------------------------------------------ *)
(** ** The table under the filter provider

    The table reads [chartFilters] and [dateRange] from the provider; a call
    of [setChartFilter] installs a new [chartFilters] object, so the table's
    effect runs after it; [setDateRange] changes nothing the effect depends
    on. *)

Module Dashboard.

Record State := mkState {
  filters : FilterContext.State;
  table : DataTable.State
}.

Definition setChartFilter (e : FilterContext.ChartFilterEntry) (s : State) : State :=
  let filters' := FilterContext.setChartFilter e (filters s) in
  {| filters := filters';
     table := DataTable.syncChartFilters (FilterContext.chartFilters filters') (table s) |}.

Definition setDateRange (range : FilterContext.DateRange) (s : State) : State :=
  {| filters := FilterContext.setDateRange range (filters s); table := table s |}.

Definition tableEvent (pages : Z) (e : DataTable.Event) (s : State) : State :=
  {| filters := filters s; table := DataTable.handle pages e (table s) |}.

(** The rows of the table before sorting. *)
Definition rows (data : list Types.ServiceRequest) (s : State) : list Types.ServiceRequest :=
  DataTable.filteredData data (table s)
    (FilterContext.chartFilters (filters s))
    (FilterContext.currentDateRange (filters s)).

(** A click on a segment of a chart: the handler's call of
    [setChartFilter], if it makes one, with the table's effect after it. *)
Definition chartClick (call : option FilterContext.ChartFilterEntry) (s : State) : State :=
  match call with
  | Some e => setChartFilter e s
  | None => s
  end.

Definition handleVerticalClick (entry : option Types.Vertical) (s : State) : State :=
  chartClick (Charts.handleVerticalClick (FilterContext.chartFilters (filters s)) entry) s.

Definition handleStatusClick (entry : option Types.Status) (s : State) : State :=
  chartClick (Charts.handleStatusClick (FilterContext.chartFilters (filters s)) entry) s.

Definition handleCategoryClick (entry : option Types.IssueCategory) (s : State) : State :=
  chartClick (Charts.handleCategoryClick (FilterContext.chartFilters (filters s)) entry) s.

Definition handleHealthClick (entry : option Types.AccountHealth) (s : State) : State :=
  chartClick (Charts.handleHealthClick (FilterContext.chartFilters (filters s)) entry) s.

End Dashboard.

(* ------------------------------------------------------------------ *)
(** ** The threshold form ([components/SLASettings.tsx]) *)

Module SLASettings.

(** [parseInt(text)] without a radix, on ASCII text: leading white space
    is skipped, a sign is read, the prefix [0x] selects base 16, and the
    value is that of the longest run of digits that follows; [None] is
    [NaN].  The value is exact; the host's is exact below 2^53, which a
    text of at most fifteen characters never reaches. *)
Definition isWhiteSpace (c : ascii) : bool :=
  let n := nat_of_ascii c in
  ((9 <=? n) && (n <=? 13) || (n =? 32))%nat.

Fixpoint trimStart (s : string) : string :=
  match s with
  | String c s' => if isWhiteSpace c then trimStart s' else s
  | EmptyString => s
  end.

Definition digitValue (radix : Z) (c : ascii) : option Z :=
  let n := Z.of_nat (nat_of_ascii c) in
  let v :=
    if (48 <=? n) && (n <=? 57) then Some (n - 48)
    else if (97 <=? n) && (n <=? 122) then Some (n - 87)
    else if (65 <=? n) && (n <=? 90) then Some (n - 55)
    else None in
  match v with
  | Some d => if d <? radix then Some d else None
  | None => None
  end.

(** The value of the longest prefix of digits, [acc] being the value read
    so far, if a digit was read. *)
Fixpoint digitsPrefix (radix : Z) (s : string) (acc : option Z) : option Z :=
  match s with
  | EmptyString => acc
  | String c s' =>
      match digitValue radix c with
      | Some d =>
          digitsPrefix radix s'
            (Some (match acc with Some a => a * radix + d | None => d end))
      | None => acc
      end
  end.

Definition parseInt (text : string) : option Z :=
  let s := trimStart text in
  let '(sign, s) :=
    match s with
    | String "-" s' => (-1, s')
    | String "+" s' => (1, s')
    | _ => (1, s)
    end in
  let '(radix, s) :=
    match s with
    | String "0" (String "x" s') => (16, s')
    | String "0" (String "X" s') => (16, s')
    | _ => (10, s)
    end in
  option_map (Z.mul sign) (digitsPrefix radix s None).

(** [n || d] for the result [n] of [parseInt]: zero and [NaN] are falsy. *)
Definition orDefault (n : option Z) (d : Z) : Z :=
  match n with
  | Some v => if v =? 0 then d else v
  | None => d
  end.

(** The texts of the two inputs. *)
Record State := mkState {
  responseTime : string;
  resolutionTime : string
}.

(** The initial texts, for integral thresholds below 2^53 in magnitude,
    which the host prints with all their digits. *)
Definition init (responseTimeHours resolutionTimeHours : Z) : State :=
  {| responseTime := JsNumber.toString responseTimeHours;
     resolutionTime := JsNumber.toString resolutionTimeHours |}.

(** [handleSave]: the thresholds passed to [setThresholds]. *)
Definition handleSave (s : State) : SLAContext.SLAThresholds :=
  {| SLAContext.responseTimeHours := inject_Z (orDefault (parseInt (responseTime s)) 12);
     SLAContext.resolutionTimeHours :=
       inject_Z (orDefault (parseInt (resolutionTime s)) 72) |}.

End SLASettings.

(* ------------------------------------------------------------------ *)
(** ** The command palette ([components/CommandPalette.tsx]) *)

Module CommandPalette.

(** What the [action] of a command calls. *)
Inductive CommandAction :=
| toggleDarkMode
| setChartFilter (e : FilterContext.ChartFilterEntry)
| clearChartFilters
| onExportCSV
| onExportExcel.

Record Command := mkCommand {
  id : string;
  label : string;
  category : string;
  action : CommandAction;
  shortcut : option string
}.

Definition commands (isDarkMode : bool) : list Command :=
  [ {| id := "toggle-dark";
       label := if isDarkMode then "Switch to Light Mode" else "Switch to Dark Mode";
       category := "Appearance";
       action := toggleDarkMode;
       shortcut := Some "⌘D" |};
    {| id := "filter-restaurant";
       label := "Filter by Restaurant";
       category := "Quick Filters";
       action := setChartFilter (FilterContext.vertical_entry (Some Types.Restaurant));
       shortcut := None |};
    {| id := "filter-fuel";
       label := "Filter by Fuel";
       category := "Quick Filters";
       action := setChartFilter (FilterContext.vertical_entry (Some Types.Fuel));
       shortcut := None |};
    {| id := "filter-grocery";
       label := "Filter by Grocery";
       category := "Quick Filters";
       action := setChartFilter (FilterContext.vertical_entry (Some Types.Grocery));
       shortcut := None |};
    {| id := "filter-resolved";
       label := "Filter by Resolved";
       category := "Quick Filters";
       action := setChartFilter (FilterContext.status_entry (Some Types.Resolved));
       shortcut := None |};
    {| id := "filter-in-progress";
       label := "Filter by In Progress";
       category := "Quick Filters";
       action := setChartFilter (FilterContext.status_entry (Some Types.InProgress));
       shortcut := None |};
    {| id := "clear-filters";
       label := "Clear All Filters";
       category := "Quick Filters";
       action := clearChartFilters;
       shortcut := Some "⌘⇧C" |};
    {| id := "export-csv";
       label := "Export to CSV";
       category := "Export";
       action := onExportCSV;
       shortcut := Some "⌘E" |};
    {| id := "export-excel";
       label := "Export to Excel";
       category := "Export";
       action := onExportExcel;
       shortcut := Some "⌘⇧E" |} ].

Definition filteredCommands (isDarkMode : bool) (search : string) : list Command :=
  filter (fun cmd =>
            DataTable.includes (DataTable.toLowerCase (label cmd))
                               (DataTable.toLowerCase search)
            || DataTable.includes (DataTable.toLowerCase (category cmd))
                                  (DataTable.toLowerCase search))
         (commands isDarkMode).

(** The callback of [reduce] in [groupedCommands]. *)
Definition group (acc : list (string * list Command)) (cmd : Command)
  : list (string * list Command) :=
  let acc :=
    match Charts.get (category cmd) acc with
    | Some _ => acc
    | None => Charts.set (category cmd) [] acc
    end in
  match Charts.get (category cmd) acc with
  | Some cmds => Charts.set (category cmd) (cmds ++ [cmd]) acc
  | None => acc
  end.

Definition groupedCommands (filteredCommands : list Command)
  : list (string * list Command) :=
  fold_left group filteredCommands [].

(** The commands in the order in which the list shows them, which is the
    order in which [flatIndex] counts them. *)
Definition shown (filteredCommands : list Command) : list Command :=
  List.concat (map snd (Charts.entries (groupedCommands filteredCommands))).

(** [l[i]] for an integer [i]. *)
Definition at_ {A} (l : list A) (i : Z) : option A :=
  if i <? 0 then None else nth_error l (Z.to_nat i).

Record State := mkState {
  isOpen : bool;
  search : string;
  selectedIndex : Z
}.

Definition init : State :=
  {| isOpen := false; search := EmptyString; selectedIndex := 0 |}.

(** The keys that [handleKeyDown] tells apart; [ToggleKey] is [k] with
    the meta or the control key. *)
Inductive Key := ToggleKey | Escape | ArrowDown | ArrowUp | Enter | OtherKey.

(** [handleKeyDown]: the next state and the action that was run, if
    any. *)
Definition handleKeyDown (isDarkMode : bool) (key : Key) (s : State)
  : State * option CommandAction :=
  let filteredCommands := filteredCommands isDarkMode (search s) in
  match key with
  | ToggleKey =>
      ({| isOpen := negb (isOpen s); search := EmptyString; selectedIndex := 0 |}, None)
  | _ =>
      if isOpen s then
        match key with
        | Escape =>
            ({| isOpen := false; search := search s; selectedIndex := selectedIndex s |},
             None)
        | ArrowDown =>
            ({| isOpen := isOpen s; search := search s;
                selectedIndex :=
                  Z.min (selectedIndex s + 1)
                        (Z.of_nat (List.length filteredCommands) - 1) |}, None)
        | ArrowUp =>
            ({| isOpen := isOpen s; search := search s;
                selectedIndex := Z.max (selectedIndex s - 1) 0 |}, None)
        | Enter =>
            match at_ filteredCommands (selectedIndex s) with
            | Some cmd =>
                ({| isOpen := false; search := search s;
                    selectedIndex := selectedIndex s |}, Some (action cmd))
            | None => (s, None)
            end
        | _ => (s, None)
        end
      else (s, None)
  end.

(** Typing in the search box: [setSearch(v)], and the effect that resets
    the selection when [search] has changed. *)
Definition handleSearch (v : string) (s : State) : State :=
  if String.eqb v (search s) then s
  else {| isOpen := isOpen s; search := v; selectedIndex := 0 |}.

(** The command that the list shows as selected. *)
Definition highlighted (isDarkMode : bool) (s : State) : option Command :=
  at_ (shown (filteredCommands isDarkMode (search s))) (selectedIndex s).

End CommandPalette.

(* ------------------------------------------------------------------ *)
(** ** The export functions ([utils/export.ts]) *)

Module ExportUtils.
Import Types.

Definition dquote : ascii := "034"%char.
Definition newline : string := String "010"%char EmptyString.

Definition headers : list string :=
  [ "Request ID"; "Account Name"; "Vertical"; "Site Count"; "Issue Category";
    "Request Date"; "Status"; "Urgency"; "Priority"; "Time to Respond (h)";
    "Time to Resolution (h)"; "Resolution Date"; "Account Health" ].

(** [l.join(sep)] *)
Definition join (sep : string) (l : list string) : string := String.concat sep l.

(** [s.replace(/c/g, by)] for a pattern that is the single character
    [c]. *)
Fixpoint replaceAll (c : ascii) (by_ : string) (s : string) : string :=
  match s with
  | EmptyString => EmptyString
  | String a s' =>
      if Ascii.eqb a c then (by_ ++ replaceAll c by_ s')%string
      else String a (replaceAll c by_ s')
  end.

Definition escapeXml (str : string) : string :=
  replaceAll "'" "&apos;"
    (replaceAll dquote "&quot;"
       (replaceAll ">" "&gt;"
          (replaceAll "<" "&lt;"
             (replaceAll "&" "&amp;" str)))).

Section Host.
(** [n.toString()] for the numbers of a record, which the host prints. *)
Variable numberToString : Q -> string.

(** The cells of the row of a record. *)
Definition row (item : ServiceRequest) : list string :=
  [ requestId item;
    accountName item;
    Vertical_name (vertical item);
    numberToString (siteCount item);
    IssueCategory_name (issueCategory item);
    requestDate item;
    Status_name (status item);
    Urgency_name (urgency item);
    Priority_name (priority item);
    numberToString (timeToRespond item);
    numberToString (timeToResolution item);
    resolutionDate item;
    AccountHealth_name (accountHealth item) ].

Definition rows (data : list ServiceRequest) : list (list string) := map row data.

(** A cell between double quotes. *)
Definition quoted (cell : string) : string :=
  (String dquote cell ++ String dquote EmptyString)%string.

(** The line of one row. *)
Definition line (row : list string) : string := join "," (map quoted row).

Definition csvContent (data : list ServiceRequest) : string :=
  join newline (join "," headers :: map line (rows data)).

(** The name of the downloaded file; [now] is the value of [new Date()]. *)
Definition csvFilename (now : Z) (filename : string) : string :=
  (filename ++ "-" ++ JsDate.toISODate now ++ ".csv")%string.

(** The cells of [exportToExcel] with their types. *)
Inductive CellType := StringType | NumberType.

Definition CellType_name (t : CellType) : string :=
  match t with StringType => "String" | NumberType => "Number" end.

Definition cells (item : ServiceRequest) : list (string * CellType) :=
  [ (requestId item, StringType);
    (accountName item, StringType);
    (Vertical_name (vertical item), StringType);
    (numberToString (siteCount item), NumberType);
    (IssueCategory_name (issueCategory item), StringType);
    (requestDate item, StringType);
    (Status_name (status item), StringType);
    (Urgency_name (urgency item), StringType);
    (Priority_name (priority item), StringType);
    (numberToString (timeToRespond item), NumberType);
    (numberToString (timeToResolution item), NumberType);
    (resolutionDate item, StringType);
    (AccountHealth_name (accountHealth item), StringType) ].

Definition cellXml (c : string * CellType) : string :=
  ("<Cell><Data ss:Type=" ++ String dquote (CellType_name (snd c))
   ++ String dquote ">" ++ escapeXml (fst c) ++ "</Data></Cell>")%string.

Definition headerRow : string :=
  join EmptyString (map (fun h => cellXml (h, StringType)) headers).

Definition dataRow (item : ServiceRequest) : string :=
  ("<Row>" ++ join EmptyString (map cellXml (cells item)) ++ "</Row>")%string.

Definition dataRows (data : list ServiceRequest) : string :=
  join newline (map dataRow data).

Definition xlsFilename (now : Z) (filename : string) : string :=
  (filename ++ "-" ++ JsDate.toISODate now ++ ".xls")%string.
End Host.

End ExportUtils.

(* ------------------------------------------------------------------ *)
(** * Vocabulary used to state the properties *)

(** The number of elements of a list that satisfy a property. *)
Inductive cardinal {A : Type} (P : A -> Prop) : list A -> nat -> Prop :=
| cardinal_nil : cardinal P [] 0
| cardinal_in x l n : P x -> cardinal P l n -> cardinal P (x :: l) (S n)
| cardinal_out x l n : ~ P x -> cardinal P l n -> cardinal P (x :: l) n.

(** A record is in breach of the thresholds. *)
Definition breaches (th : SLAContext.SLAThresholds) (r : Types.ServiceRequest) : Prop :=
  (SLAContext.responseTimeHours th < Types.timeToRespond r)%Q \/
  (SLAContext.resolutionTimeHours th < Types.timeToResolution r)%Q.

(** A record with the given date and durations; the other fields do not
    matter to the breach metrics. *)
Definition sampleRequest (date : string) (respond resolution : Q) : Types.ServiceRequest :=
  {| Types.requestId := "REQ-1"; Types.accountName := "Acme";
     Types.vertical := Types.Fuel; Types.siteCount := 1;
     Types.issueCategory := Types.APIError; Types.requestDate := date;
     Types.status := Types.Resolved; Types.urgency := Types.UrgencyLow;
     Types.priority := Types.PriorityLow; Types.timeToRespond := respond;
     Types.timeToResolution := resolution; Types.resolutionDate := date;
     Types.accountHealth := Types.Neutral |}.

(** The records of the day [i] days before today, as the sparkline selects
    them. *)
Definition dayData (tz now : Z) (i : nat) (data : list Types.ServiceRequest) :=
  filter (fun d => String.eqb (Types.requestDate d) (KPICards.dateStr tz now i)) data.

(** A record on which the thresholds [th] and the constants 12 and 72
    disagree, when [th] is not these constants. *)
Definition disagreement (th : SLAContext.SLAThresholds) : Q * Q :=
  let resp := SLAContext.responseTimeHours th in
  let resol := SLAContext.resolutionTimeHours th in
  if JsNumber.lt resp 12 then (12, 0)%Q
  else if JsNumber.gt resp 12 then
    (if JsNumber.lt resol 0 then (0, 0)%Q else (resp, 0)%Q)
  else if JsNumber.lt resol 72 then (0, 72)%Q
  else (0, resol)%Q.

(** The comparison against the constants, as the sparkline writes it. *)
Definition breachesConstants (d : Types.ServiceRequest) : bool :=
  JsNumber.gt (Types.timeToRespond d) 12 || JsNumber.gt (Types.timeToResolution d) 72.

(** [l1] is [l2] with some elements left out. *)
Inductive Subseq {A : Type} : list A -> list A -> Prop :=
| Subseq_nil : Subseq [] []
| Subseq_skip x l1 l2 : Subseq l1 l2 -> Subseq l1 (x :: l2)
| Subseq_keep x l1 l2 : Subseq l1 l2 -> Subseq (x :: l1) (x :: l2).

(** The two date comparisons shared by the views. *)
Definition withinBounds (dr : FilterContext.DateRange) (d : Types.ServiceRequest) : bool :=
  let date := JsDate.parse (Types.requestDate d) in
  if FilterContext.isSome (FilterContext.start dr) && JsDate.lt date (FilterContext.start dr)
  then false
  else if FilterContext.isSome (FilterContext.end_ dr) && JsDate.gt date (FilterContext.end_ dr)
  then false
  else true.

(** A record passes the date-range filter of the table, the charts and the
    export view. *)
Definition passesDateRange (dr : FilterContext.DateRange) (d : Types.ServiceRequest) : bool :=
  if negb (FilterContext.Preset_beq (FilterContext.preset dr) FilterContext.all)
     && (FilterContext.isSome (FilterContext.start dr)
         || FilterContext.isSome (FilterContext.end_ dr))
  then withinBounds dr d
  else true.

(** The conjunction of the four chart predicates. *)
Definition chartMatch (F : FilterContext.ChartFilters) (d : Types.ServiceRequest) : bool :=
  DataTable.matches Types.Vertical_beq (Types.vertical d) (FilterContext.vertical F)
  && DataTable.matches Types.Status_beq (Types.status d) (FilterContext.status F)
  && DataTable.matches Types.IssueCategory_beq (Types.issueCategory d)
       (FilterContext.issueCategory F)
  && DataTable.matches Types.AccountHealth_beq (Types.accountHealth d)
       (FilterContext.accountHealth F).

(** Every non-null dimension of [F] equals the field of the record. *)
Definition satisfies (F : FilterContext.ChartFilters) (d : Types.ServiceRequest) : Prop :=
  (forall v, FilterContext.vertical F = Some v -> Types.vertical d = v) /\
  (forall v, FilterContext.status F = Some v -> Types.status d = v) /\
  (forall v, FilterContext.issueCategory F = Some v -> Types.issueCategory d = v) /\
  (forall v, FilterContext.accountHealth F = Some v -> Types.accountHealth d = v).

(** [F'] has every selection of [F], and possibly more. *)
Definition refines (F F' : FilterContext.ChartFilters) : Prop :=
  (forall v, FilterContext.vertical F = Some v -> FilterContext.vertical F' = Some v) /\
  (forall v, FilterContext.status F = Some v -> FilterContext.status F' = Some v) /\
  (forall v, FilterContext.issueCategory F = Some v ->
             FilterContext.issueCategory F' = Some v) /\
  (forall v, FilterContext.accountHealth F = Some v ->
             FilterContext.accountHealth F' = Some v).

(** The distinct elements of a list, each at the place of its first
    occurrence. *)
Fixpoint distinct (l : list string) : list string :=
  match l with
  | [] => []
  | x :: l' => x :: filter (fun y => negb (String.eqb y x)) (distinct l')
  end.

(** The number of occurrences of [k]. *)
Definition occurrences (k : string) (l : list string) : nat :=
  List.length (filter (String.eqb k) l).

Definition keys {V} (o : list (string * V)) : list string := map fst o.

Definition mem (k : string) (ks : list string) : bool := existsb (String.eqb k) ks.

(** The two records of the example scenario. *)
Definition recordA : Types.ServiceRequest :=
  {| Types.requestId := "A"; Types.accountName := "Account A";
     Types.vertical := Types.Restaurant; Types.siteCount := 1;
     Types.issueCategory := Types.APIError; Types.requestDate := "2024-01-01";
     Types.status := Types.Resolved; Types.urgency := Types.UrgencyLow;
     Types.priority := Types.PriorityLow; Types.timeToRespond := 5;
     Types.timeToResolution := 10; Types.resolutionDate := "2024-01-02";
     Types.accountHealth := Types.Neutral |}.

Definition recordB : Types.ServiceRequest :=
  {| Types.requestId := "B"; Types.accountName := "Account B";
     Types.vertical := Types.Fuel; Types.siteCount := 1;
     Types.issueCategory := Types.BillingInquiry; Types.requestDate := "2024-01-02";
     Types.status := Types.InProgress; Types.urgency := Types.UrgencyLow;
     Types.priority := Types.PriorityLow; Types.timeToRespond := 20;
     Types.timeToResolution := 10; Types.resolutionDate := "2024-01-03";
     Types.accountHealth := Types.Engaged |}.

(** [result] lists the distinct values of [key] over [data] in the order of
    their first occurrence, each with the number of records that have it. *)
Definition groupsInFirstOccurrenceOrder (result : list (Charts.NamedValue nat))
           (key : Types.ServiceRequest -> string) (data : list Types.ServiceRequest) : Prop :=
  map Charts.name result = distinct (map key data) /\
  Forall (fun nv =>
            Charts.value nv =
            List.length (filter (fun item => String.eqb (Charts.name nv) (key item)) data))
         result /\
  list_sum (map Charts.value result) = List.length data.

(** A custom range that lies after both example records. *)
Definition rangeIn2025 : FilterContext.DateRange :=
  {| FilterContext.start := JsDate.parse "2025-01-01";
     FilterContext.end_ := None;
     FilterContext.preset := FilterContext.custom |}.

(** The events that change the search term or a column filter. *)
Definition isFilterEvent (e : DataTable.Event) : bool :=
  match e with
  | DataTable.Sort _ | DataTable.Previous | DataTable.Next => false
  | _ => true
  end.

(** Sixty records: fifty-nine in the vertical Fuel, then one in the
    vertical Restaurant. *)
Definition sixtyRecords : list Types.ServiceRequest := repeat recordB 59 ++ [recordA].

(** The second page of the unfiltered table. *)
Definition onSecondPage : Dashboard.State :=
  Dashboard.tableEvent (DataTable.totalPages sixtyRecords) DataTable.Next
    {| Dashboard.filters := FilterContext.init None; Dashboard.table := DataTable.init |}.

Definition ids (s : FilterContext.State) : list string :=
  map FilterContext.id (FilterContext.presets s).

(** A store in which a preset saved at the clock reading 1000 holds the
    vertical Fuel while the current selection is Grocery. *)
Definition storeWithPresetAt1000 : FilterContext.State :=
  FilterContext.run (FilterContext.init None)
    [FilterContext.SetChartFilter (FilterContext.vertical_entry (Some Types.Fuel));
     FilterContext.SavePreset 1000 "fuel";
     FilterContext.SetChartFilter (FilterContext.vertical_entry (Some Types.Grocery))].

(** Two presets saved at the same clock reading. *)
Definition storeWithTwoPresetsAt1000 : FilterContext.State :=
  FilterContext.run (FilterContext.init None)
    [FilterContext.SetChartFilter (FilterContext.vertical_entry (Some Types.Fuel));
     FilterContext.SavePreset 1000 "fuel";
     FilterContext.SetChartFilter (FilterContext.vertical_entry (Some Types.Grocery));
     FilterContext.SavePreset 1000 "grocery"].

(** The local midnight at the start of the day with number [n]. *)
Definition localMidnight (tz n : Z) : Z := JsDate.UTC tz (n * JsDate.msPerDay).

(** Noon of 2024-03-10 on the local clock of the zone [tz]. *)
Definition noon_2024_03_10 (tz : Z) : Z :=
  JsDate.UTC tz (19792 * JsDate.msPerDay + 43200000).

(** The range after "Last 7 days" is picked at that moment. *)
Definition last7At (tz : Z) : FilterContext.DateRange :=
  FilterContext.currentDateRange
    (DateRangePicker.handlePresetSelect tz (noon_2024_03_10 tz) FilterContext.last7
       (FilterContext.init None)).

(** The local calendar day of a bound. *)
Definition localDay (tz : Z) (bound : option Z) : option string :=
  option_map (fun t => JsDate.toISODate (JsDate.LocalTime tz t)) bound.

(** Two records and a selection that adds the vertical Fuel to no
    selection at all. *)
Definition fuelOnly : FilterContext.ChartFilters :=
  {| FilterContext.vertical := Some Types.Fuel; FilterContext.status := None;
     FilterContext.issueCategory := None; FilterContext.accountHealth := None |}.

(** A badge is absent or finite. *)
Definition absentOrFinite (badge : option JsNumber.value) : bool :=
  match badge with
  | None => true
  | Some v => JsNumber.isFinite v
  end.

(** ** Vocabulary of the further properties *)

(** The collection under the key [filterPresets] is the collection in
    memory; an absent key stands for the empty collection. *)
Definition persisted (s : FilterContext.State) : Prop :=
  match FilterContext.storage s with
  | Some l => l = FilterContext.presets s
  | None => FilterContext.presets s = []
  end.

(** The dashboard when it mounts on an empty store. *)
Definition initialDashboard : Dashboard.State :=
  {| Dashboard.filters := FilterContext.init None; Dashboard.table := DataTable.init |}.

Definition chartFiltersOf (s : Dashboard.State) : FilterContext.ChartFilters :=
  FilterContext.chartFilters (Dashboard.filters s).

(** The thresholds [th'] are at least the thresholds [th]. *)
Definition relaxes (th th' : SLAContext.SLAThresholds) : Prop :=
  (SLAContext.responseTimeHours th <= SLAContext.responseTimeHours th')%Q /\
  (SLAContext.resolutionTimeHours th <= SLAContext.resolutionTimeHours th')%Q.

(** The date of the record, read as the date filter reads it, is on the UTC
    day with the number [n]. *)
Definition onDay (n : Z) (r : Types.ServiceRequest) : bool :=
  match JsDate.parse (Types.requestDate r) with
  | Some t => JsDate.Day t =? n
  | None => false
  end.

(** [n] zeros, as [pad] puts them in front. *)
Fixpoint zeros (n : nat) : string :=
  match n with O => EmptyString | S n' => String "0" (zeros n') end.

(** A number without a fractional part that is not zero. *)
Definition nonzeroInteger (q : Q) : Prop := exists z : Z, z <> 0 /\ q = inject_Z z.

(** The number that a numeric column holds. *)
Definition numberOf (key : DataTable.SortKey) (r : Types.ServiceRequest) : option Q :=
  match DataTable.field key r with
  | DataTable.NumberValue n => Some n
  | DataTable.StringValue _ => None
  end.

(** [a] may stand before [b] in the order of a numeric column. *)
Definition inOrder (key : DataTable.SortKey) (dir : DataTable.SortDirection)
           (a b : Types.ServiceRequest) : Prop :=
  match numberOf key a, numberOf key b with
  | Some x, Some y =>
      match dir with
      | DataTable.asc => (x <= y)%Q
      | DataTable.desc => (y <= x)%Q
      end
  | _, _ => True
  end.

(** The record holds the number [q] in the column. *)
Definition holds (key : DataTable.SortKey) (q : Q) (r : Types.ServiceRequest) : bool :=
  match numberOf key r with
  | Some x => Qeq_bool x q
  | None => false
  end.

Definition isNumeric (key : DataTable.SortKey) : bool :=
  match key with
  | DataTable.k_siteCount | DataTable.k_timeToRespond | DataTable.k_timeToResolution => true
  | _ => false
  end.

(** Two records with the same response time, then one with a smaller
    one. *)
Definition threeRecords : list Types.ServiceRequest :=
  [sampleRequest "2024-01-01" 5 1; sampleRequest "2024-01-02" 5 2;
   sampleRequest "2024-01-03" 3 3].

Definition byResponseTime (dir : DataTable.SortDirection) : DataTable.State :=
  DataTable.setSortDirection dir (DataTable.setSortKey DataTable.k_timeToRespond DataTable.init).

(** The page with the number [p]. *)
Definition pageAt (sortedData : list Types.ServiceRequest) (p : Z) : list Types.ServiceRequest :=
  DataTable.paginatedData sortedData (DataTable.setCurrentPage p DataTable.init).

(** The pages from 1 to [totalPages]. *)
Definition allPages (sortedData : list Types.ServiceRequest) : list (list Types.ServiceRequest) :=
  map (fun p => pageAt sortedData (Z.of_nat p))
      (seq 1 (Z.to_nat (DataTable.totalPages sortedData))).

(** The search predicate of [keep]. *)
Definition matchesSearch (search : string) (item : Types.ServiceRequest) : bool :=
  String.eqb search EmptyString
  || DataTable.includes (DataTable.toLowerCase (Types.accountName item))
                        (DataTable.toLowerCase search)
  || DataTable.includes (DataTable.toLowerCase (Types.requestId item))
                        (DataTable.toLowerCase search).

Definition flipDirection (d : DataTable.SortDirection) : DataTable.SortDirection :=
  match d with DataTable.asc => DataTable.desc | DataTable.desc => DataTable.asc end.

(** One step of a loop that keeps one accumulator per key of an object:
    the accumulator of the key of [item], or [v0] for a new key, updated
    by [u]. *)
Definition groupStep {V : Type} (key : Types.ServiceRequest -> string) (v0 : V)
           (u : V -> Types.ServiceRequest -> V)
           (o : list (string * V)) (item : Types.ServiceRequest) : list (string * V) :=
  Charts.set (key item)
    (u (match Charts.get (key item) o with Some v => v | None => v0 end) item) o.

(** The records with the key [k]. *)
Definition groupOf (key : Types.ServiceRequest -> string) (k : string)
           (l : list Types.ServiceRequest) : list Types.ServiceRequest :=
  filter (fun item => String.eqb k (key item)) l.

(** The records of a vertical. *)
Definition ofVertical (name : string) (data : list Types.ServiceRequest)
  : list Types.ServiceRequest :=
  filter (fun item => String.eqb name (Types.Vertical_name (Types.vertical item))) data.

(** The elements of a list at the places where the mask is set. *)
Fixpoint select {A} (mask : list bool) (l : list A) : list A :=
  match mask, l with
  | b :: mask', x :: l' => if b then x :: select mask' l' else select mask' l'
  | _, _ => []
  end.

(** The palette after it was opened from its initial state. *)
Definition paletteOpen : CommandPalette.State :=
  fst (CommandPalette.handleKeyDown false CommandPalette.ToggleKey CommandPalette.init).

(** The character [c] occurs in [s]. *)
Fixpoint occurs (c : ascii) (s : string) : bool :=
  match s with
  | EmptyString => false
  | String a s' => Ascii.eqb a c || occurs c s'
  end.

(** The entity that stands for a character of XML text, or the character
    itself. *)
Definition escapeChar (a : ascii) : string :=
  if Ascii.eqb a "&" then "&amp;"
  else if Ascii.eqb a "<" then "&lt;"
  else if Ascii.eqb a ">" then "&gt;"
  else if Ascii.eqb a ExportUtils.dquote then "&quot;"
  else if Ascii.eqb a "'" then "&apos;"
  else String a EmptyString.

(** Every character replaced by the string that [f] gives. *)
Fixpoint expand (f : ascii -> string) (s : string) : string :=
  match s with
  | EmptyString => EmptyString
  | String a s' => (f a ++ expand f s')%string
  end.

(** [s] starts with [p]. *)
Fixpoint startsWith (p s : string) : bool :=
  match p with
  | EmptyString => true
  | String a p' =>
      match s with
      | String b s' => Ascii.eqb a b && startsWith p' s'
      | EmptyString => false
      end
  end.

(** The character that the entity at the head of [s] stands for, with the
    length of the entity. *)
Definition entityAt (s : string) : option (ascii * nat) :=
  if startsWith "&amp;" s then Some ("&"%char, 5%nat)
  else if startsWith "&lt;" s then Some ("<"%char, 4%nat)
  else if startsWith "&gt;" s then Some (">"%char, 4%nat)
  else if startsWith "&quot;" s then Some (ExportUtils.dquote, 6%nat)
  else if startsWith "&apos;" s then Some ("'"%char, 6%nat)
  else None.

(** The text that a reader of XML gets: the five entities replaced by
    their characters; [skip] characters of an entity remain to be
    passed. *)
Fixpoint unescape (skip : nat) (s : string) : string :=
  match s with
  | EmptyString => EmptyString
  | String c r =>
      match skip with
      | S k => unescape k r
      | O =>
          match entityAt s with
          | Some (ch, len) => String ch (unescape (len - 1) r)
          | None => String c (unescape 0 r)
          end
      end
  end.

Definition unescapeXml (s : string) : string := unescape 0 s.

(** A reader of CSV lines in which every field is quoted: the field that
    starts after an opening quote, with what follows its closing quote; a
    doubled quote inside a field is one quote. *)
Fixpoint readField (s : string) : option (string * string) :=
  match s with
  | EmptyString => None
  | String c r =>
      if Ascii.eqb c ExportUtils.dquote then
        match r with
        | String c2 r2 =>
            if Ascii.eqb c2 ExportUtils.dquote
            then option_map (fun '(cell, rest) => (String ExportUtils.dquote cell, rest))
                            (readField r2)
            else Some (EmptyString, r)
        | EmptyString => Some (EmptyString, EmptyString)
        end
      else option_map (fun '(cell, rest) => (String c cell, rest)) (readField r)
  end.

(** The fields of a line, separated by commas; [fuel] bounds their
    number. *)
Fixpoint readFields (fuel : nat) (s : string) : option (list string) :=
  match fuel with
  | O => None
  | S fuel' =>
      match s with
      | String c r =>
          if Ascii.eqb c ExportUtils.dquote then
            match readField r with
            | Some (cell, EmptyString) => Some [cell]
            | Some (cell, String c' rest) =>
                if Ascii.eqb c' "," then option_map (cons cell) (readFields fuel' rest)
                else None
            | None => None
            end
          else None
      | EmptyString => None
      end
  end.

Definition readLine (s : string) : option (list string) :=
  readFields (String.length s) s.

Definition noQuote (cell : string) : bool := negb (occurs ExportUtils.dquote cell).

(** A printer of numbers for the example: the integral part. *)
Definition printFloor (q : Q) : string := JsNumber.toString (Qfloor q).

(** ** Vocabulary for the calendar of any zone, exact arithmetic and text *)

(** The sum of [f] over the records, added from the left. *)
Definition total (f : Types.ServiceRequest -> Q) (day : list Types.ServiceRequest) : Q :=
  fold_left (fun acc d => (acc + f d)%Q) day 0%Q.

(** What each metric makes of the records of one day: a number of records,
    or the mean of a duration, zero for a day without records. *)
Definition reducer (metric : KPICards.Metric) (day : list Types.ServiceRequest) : Q :=
  let number (n : nat) := inject_Z (Z.of_nat n) in
  let countIf (p : Types.ServiceRequest -> bool) := number (List.length (filter p day)) in
  let mean (f : Types.ServiceRequest -> Q) :=
    match day with
    | [] => 0%Q
    | _ :: _ => (total f day / number (List.length day))%Q
    end in
  match metric with
  | KPICards.count => number (List.length day)
  | KPICards.resolved => countIf (fun d => Types.Status_beq (Types.status d) Types.Resolved)
  | KPICards.inProgress => countIf (fun d => Types.Status_beq (Types.status d) Types.InProgress)
  | KPICards.responseTime => mean Types.timeToRespond
  | KPICards.resolutionTime => mean Types.timeToResolution
  | KPICards.churnRisk =>
      countIf (fun d => Types.AccountHealth_beq (Types.accountHealth d) Types.ChurnRisk)
  | KPICards.slaBreaches =>
      countIf (fun d => negb (Qle_bool (Types.timeToRespond d) 12)
                        || negb (Qle_bool (Types.timeToResolution d) 72))
  end.

(** The instant at which the local clock of the zone read the same time as
    at [now], [i] calendar days earlier: the local time of [now] less [i]
    days, read back with the offset that the zone gives for that local
    time. *)
Definition sameClock (zone : JsDate.TimeZone) (now : Z) (i : Z) : Z :=
  let clock := now + JsDate.offsetAt zone now - i * JsDate.msPerDay in
  clock - JsDate.offsetOfLocal zone clock.

(** A zone that goes from five to four hours behind UTC at
    2024-03-10T07:00:00Z, two o'clock at night there; a local time in the
    hour that is skipped is read with the earlier offset. *)
Definition springForward2024 : JsDate.TimeZone :=
  {| JsDate.offsetAt := fun t => if t <? 1710054000000 then -18000000 else -14400000;
     JsDate.offsetOfLocal :=
       fun t => if t <? 1710039600000 then -18000000 else -14400000 |}.

(** The date of the record is a valid date of the form [YYYY-MM-DD]. *)
Definition wellDated (r : Types.ServiceRequest) : Prop :=
  JsDate.parse (Types.requestDate r) <> None.

(** Text of ASCII characters only. *)
Fixpoint isAscii (s : string) : bool :=
  match s with
  | EmptyString => true
  | String c s' => (nat_of_ascii c <? 128)%nat && isAscii s'
  end.

(** The account name and the request id of the record are ASCII text. *)
Definition asciiRecord (r : Types.ServiceRequest) : Prop :=
  isAscii (Types.accountName r) = true /\ isAscii (Types.requestId r) = true.

(** The resolution time of the record is a whole number of hours. *)
Definition wholeHours (r : Types.ServiceRequest) : Prop :=
  Qden (Types.timeToResolution r) = 1%positive.

Definition hours (r : Types.ServiceRequest) : Z := Qnum (Types.timeToResolution r).

(** The sum of the magnitudes of the resolution times. *)
Definition magnitude (data : list Types.ServiceRequest) : Z :=
  fold_right (fun r acc => Z.abs (hours r) + acc) 0 data.

(** The mean of whole numbers rounded to the nearest whole number, a half
    towards plus infinity; zero for no numbers. *)
Definition roundedMean (l : list Z) : Z :=
  (2 * fold_right Z.add 0 l + Z.of_nat (List.length l)) / (2 * Z.of_nat (List.length l)).

(* ================================================================== *)
(** * Properties *)

(** ** The models of numbers and dates on examples *)

Example toFixed1_ex :
  JsNumber.toFixed1
    (JsNumber.mul (JsNumber.div (JsNumber.of_count 1) (JsNumber.of_count 3))
                  (JsNumber.Fin 100)) = "33.3".
Proof. reflexivity. Qed.

Example parse_2024_03_10 :
  JsDate.parse "2024-03-10" = Some (19792 * JsDate.msPerDay).
Proof. reflexivity. Qed.

Example toISODate_2024_03_10 :
  JsDate.toISODate (19792 * JsDate.msPerDay + 5) = "2024-03-10".
Proof. reflexivity. Qed.

(** ** Comparisons of finite numbers *)

Lemma gt_iff (a b : Q) : JsNumber.gt a b = true <-> (b < a)%Q.
Proof.
  unfold JsNumber.gt. rewrite negb_true_iff.
  split; intros H.
  - apply Qnot_le_lt. intros Hle. apply Qle_bool_iff in Hle. congruence.
  - destruct (Qle_bool a b) eqn:E; [|reflexivity].
    apply Qle_bool_iff in E. exfalso. exact (Qlt_not_le _ _ H E).
Qed.

Lemma gt_false_iff (a b : Q) : JsNumber.gt a b = false <-> (a <= b)%Q.
Proof.
  unfold JsNumber.gt. rewrite negb_false_iff. apply Qle_bool_iff.
Qed.

(** ** The SLA threshold store *)

Lemma cardinal_functional {A} (P : A -> Prop) l n m :
  cardinal P l n -> cardinal P l m -> n = m.
Proof.
  intros Hn. revert m.
  induction Hn; intros m Hm; inversion Hm; subst;
    try reflexivity; try contradiction; auto.
Qed.

Lemma cardinal_filter {A} (P : A -> Prop) (p : A -> bool) :
  (forall x, p x = true <-> P x) ->
  forall l, cardinal P l (List.length (filter p l)).
Proof.
  intros Hp l. induction l as [|x l IH]; simpl.
  - constructor.
  - destruct (p x) eqn:E; simpl.
    + apply cardinal_in; [apply Hp; exact E | exact IH].
    + apply cardinal_out; [|exact IH].
      intros HP. apply Hp in HP. congruence.
Qed.

Lemma isBreachingSLA_iff th r :
  SLAContext.isBreachingSLA th r = true <-> breaches th r.
Proof.
  unfold SLAContext.isBreachingSLA, SLAContext.isBreachingResponse,
    SLAContext.isBreachingResolution, breaches.
  rewrite orb_true_iff, !gt_iff. reflexivity.
Qed.

(** C2.  For every collection and all thresholds, [getBreachCount] is the
    number of records whose response time is strictly greater than the
    response threshold or whose resolution time is strictly greater than the
    resolution threshold; [isBreachingResponse] and [isBreachingResolution]
    are the two strict comparisons and [isBreachingSLA] is their
    disjunction. *)
Theorem getBreachCount_counts_breaches :
  forall (th : SLAContext.SLAThresholds) (R : list Types.ServiceRequest),
    cardinal (breaches th) R (SLAContext.getBreachCount th R) /\
    (forall r, SLAContext.isBreachingResponse th r = true <->
               (SLAContext.responseTimeHours th < Types.timeToRespond r)%Q) /\
    (forall r, SLAContext.isBreachingResolution th r = true <->
               (SLAContext.resolutionTimeHours th < Types.timeToResolution r)%Q) /\
    (forall r, SLAContext.isBreachingSLA th r =
               SLAContext.isBreachingResponse th r || SLAContext.isBreachingResolution th r).
Proof.
  intros th R. repeat split.
  - unfold SLAContext.getBreachCount.
    apply cardinal_filter. intros x. apply isBreachingSLA_iff.
  - apply gt_iff.
  - apply gt_iff.
  - apply gt_iff.
  - apply gt_iff.
Qed.

(** ** The SLA sparkline *)

Lemma slaBreaches_point_default tz now data i :
  KPICards.point tz now data KPICards.slaBreaches i =
  JsNumber.of_count
    (SLAContext.getBreachCount SLAContext.defaultThresholds (dayData tz now i data)).
Proof. reflexivity. Qed.

Lemma of_count_strict_eq (n m : nat) :
  JsNumber.strict_eq (JsNumber.of_count n) (JsNumber.of_count m) = Nat.eqb n m.
Proof.
  unfold JsNumber.of_count, JsNumber.strict_eq, JsNumber.eq, JsNumber.of_nat.
  destruct (Nat.eqb_spec n m) as [->|Hne].
  - apply Qeq_bool_iff. reflexivity.
  - destruct (Qeq_bool _ _) eqn:E; [|reflexivity].
    apply Qeq_bool_iff in E. rewrite inject_Z_injective in E.
    apply Nat2Z.inj in E. contradiction.
Qed.

Lemma dayData_single tz now respond resolution :
  dayData tz now 0 [sampleRequest (KPICards.dateStr tz now 0) respond resolution] =
  [sampleRequest (KPICards.dateStr tz now 0) respond resolution].
Proof.
  unfold dayData. generalize (KPICards.dateStr tz now 0). intros date.
  cbn [filter sampleRequest Types.requestDate].
  rewrite String.eqb_refl. reflexivity.
Qed.

Lemma getBreachCount_single th r :
  SLAContext.getBreachCount th [r] = if SLAContext.isBreachingSLA th r then 1%nat else 0%nat.
Proof.
  unfold SLAContext.getBreachCount. simpl.
  destruct (SLAContext.isBreachingSLA th r); reflexivity.
Qed.

(** An order between two rational constants. *)
Ltac q_le := unfold Qle; simpl; lia.

Lemma lt_iff (a b : Q) : JsNumber.lt a b = true <-> (a < b)%Q.
Proof. apply (gt_iff b a). Qed.

Lemma lt_false_iff (a b : Q) : JsNumber.lt a b = false <-> (b <= a)%Q.
Proof. apply (gt_false_iff b a). Qed.

Lemma disagreement_spec th :
  ~ (SLAContext.responseTimeHours th == 12 /\ SLAContext.resolutionTimeHours th == 72)%Q ->
  let '(a, b) := disagreement th in
  forall date,
    (0 <= a)%Q /\ (0 <= b)%Q /\
    SLAContext.isBreachingSLA th (sampleRequest date a b) <>
    SLAContext.isBreachingSLA SLAContext.defaultThresholds (sampleRequest date a b).
Proof.
  intros Hne. unfold disagreement.
  destruct th as [resp resol]; simpl in *.
  unfold SLAContext.isBreachingSLA, SLAContext.isBreachingResponse,
    SLAContext.isBreachingResolution; simpl.
  destruct (JsNumber.lt resp 12) eqn:E1.
  { intros date. apply lt_iff in E1.
    repeat split; try q_le.
    assert (H1 : JsNumber.gt 12 resp = true) by (apply gt_iff; exact E1).
    rewrite H1. simpl. discriminate. }
  apply lt_false_iff in E1.
  destruct (JsNumber.gt resp 12) eqn:E2.
  { pose proof E2 as E2'. apply gt_iff in E2'.
    destruct (JsNumber.lt resol 0) eqn:E3.
    - intros date. apply lt_iff in E3.
      repeat split; try q_le.
      assert (H1 : JsNumber.gt 0 resol = true) by (apply gt_iff; exact E3).
      rewrite H1, orb_true_r. simpl. discriminate.
    - intros date. apply lt_false_iff in E3.
      repeat split; try q_le.
      + apply Qle_trans with 12%Q; [q_le | exact E1].
      + assert (H1 : JsNumber.gt resp resp = false) by (apply gt_false_iff; apply Qle_refl).
        assert (H2 : JsNumber.gt 0 resol = false) by (apply gt_false_iff; exact E3).
        rewrite H1, H2, E2. simpl. discriminate. }
  apply gt_false_iff in E2.
  assert (Hresp : (resp == 12)%Q) by (apply Qle_antisym; assumption).
  assert (H0 : JsNumber.gt 0 resp = false).
  { apply gt_false_iff. apply Qle_trans with 12%Q; [q_le | exact E1]. }
  destruct (JsNumber.lt resol 72) eqn:E3.
  { intros date. apply lt_iff in E3.
    repeat split; try q_le.
    assert (H1 : JsNumber.gt 72 resol = true) by (apply gt_iff; exact E3).
    rewrite H0, H1. simpl. discriminate. }
  apply lt_false_iff in E3.
  intros date.
  assert (Hlt : (72 < resol)%Q).
  { apply Qnot_le_lt. intros Hle. apply Hne. split; [exact Hresp|].
    apply Qle_antisym; assumption. }
  repeat split; try q_le.
  - apply Qle_trans with 72%Q; [q_le | exact E3].
  - assert (H1 : JsNumber.gt resol resol = false) by (apply gt_false_iff; apply Qle_refl).
    assert (H2 : JsNumber.gt resol 72 = true) by (apply gt_iff; exact Hlt).
    rewrite H0, H1, H2. simpl. discriminate.
Qed.

Lemma point_single_no_breach tz now r i :
  breachesConstants r = false ->
  KPICards.point tz now [r] KPICards.slaBreaches i = JsNumber.of_count 0.
Proof.
  intros H. unfold KPICards.point, KPICards.countWhere.
  cbn [filter]. destruct (String.eqb _ _); cbn [filter]; [|reflexivity].
  fold (breachesConstants r). rewrite H. reflexivity.
Qed.

Lemma point_today_single tz now a b :
  let r := sampleRequest (KPICards.dateStr tz now 0) a b in
  KPICards.point tz now [r] KPICards.slaBreaches 0 =
  JsNumber.of_count (if breachesConstants r then 1%nat else 0%nat).
Proof.
  intros r. rewrite slaBreaches_point_default. unfold r.
  rewrite dayData_single, getBreachCount_single. reflexivity.
Qed.

(** C10.  The point of the SLA sparkline for a day is the number of that
    day's records with [timeToRespond > 12] or [timeToResolution > 72],
    whatever the configured thresholds; and for configured thresholds other
    than 12 and 72 there is a collection of records with non-negative
    durations on which the sparkline's count for today, and the last entry
    of the series it returns, differ from [getBreachCount] of today's
    records. *)
Theorem sparkline_breaches_use_constants :
  forall (tz now : Z) (th : SLAContext.SLAThresholds),
    ~ (SLAContext.responseTimeHours th == 12 /\
       SLAContext.resolutionTimeHours th == 72)%Q ->
    (forall data i,
        KPICards.point tz now data KPICards.slaBreaches i =
        JsNumber.of_count (List.length (filter breachesConstants (dayData tz now i data)))) /\
    exists data,
      Forall (fun d => 0 <= Types.timeToRespond d /\ 0 <= Types.timeToResolution d)%Q data /\
      JsNumber.strict_eq
        (KPICards.point tz now data KPICards.slaBreaches 0)
        (JsNumber.of_count (SLAContext.getBreachCount th (dayData tz now 0 data))) = false /\
      JsNumber.strict_eq
        (nth 6 (KPICards.generateSparklineData tz now data KPICards.slaBreaches 7) JsNumber.NaN)
        (JsNumber.of_count (SLAContext.getBreachCount th (dayData tz now 0 data))) = false.
Proof.
  intros tz now th Hne. split; [reflexivity|].
  pose proof (disagreement_spec th Hne) as Hd.
  destruct (disagreement th) as [a b].
  specialize (Hd (KPICards.dateStr tz now 0)). destruct Hd as (Ha & Hb & Hdiff).
  set (r := sampleRequest (KPICards.dateStr tz now 0) a b) in *.
  exists [r]. split; [|split].
  - constructor; [|constructor]. split; assumption.
  - unfold r at 2. rewrite dayData_single. fold r.
    rewrite getBreachCount_single.
    pose proof (point_today_single tz now a b) as H0. cbv zeta in H0. fold r in H0.
    rewrite H0, of_count_strict_eq.
    change (SLAContext.isBreachingSLA SLAContext.defaultThresholds r)
      with (breachesConstants r) in Hdiff.
    destruct (SLAContext.isBreachingSLA th r), (breachesConstants r);
      try reflexivity; congruence.
  - unfold r at 2. rewrite dayData_single. fold r.
    rewrite getBreachCount_single.
    change (SLAContext.isBreachingSLA SLAContext.defaultThresholds r)
      with (breachesConstants r) in Hdiff.
    unfold KPICards.generateSparklineData.
    cbn [KPICards.series].
    pose proof (point_today_single tz now a b) as H0. cbv zeta in H0. fold r in H0.
    destruct (breachesConstants r) eqn:Hc.
    + rewrite H0. cbn [forallb].
      replace (JsNumber.strict_eq (JsNumber.of_count 1) (JsNumber.Fin 0)) with false
        by reflexivity.
      rewrite !andb_false_r. cbn [nth].
      rewrite of_count_strict_eq.
      destruct (SLAContext.isBreachingSLA th r); [congruence | reflexivity].
    + rewrite !(point_single_no_breach tz now r) by exact Hc.
      replace (forallb _ _) with true by reflexivity.
      cbn [KPICards.placeholder map nth].
      rewrite of_count_strict_eq.
      destruct (SLAContext.isBreachingSLA th r); [reflexivity | congruence].
Qed.

(** C10 at the thresholds 10 and 72, in UTC at 2024-03-10T12:00Z. *)
Lemma sparkline_breaches_use_constants_witness :
  exists data,
    JsNumber.strict_eq
      (KPICards.point 0 1710072000000 data KPICards.slaBreaches 0)
      (JsNumber.of_count
         (SLAContext.getBreachCount
            {| SLAContext.responseTimeHours := 10; SLAContext.resolutionTimeHours := 72 |}
            (dayData 0 1710072000000 0 data))) = false.
Proof.
  destruct (sparkline_breaches_use_constants 0 1710072000000
              {| SLAContext.responseTimeHours := 10; SLAContext.resolutionTimeHours := 72 |})
    as [_ [data [_ [H _]]]].
  - intros [H _]. vm_compute in H. discriminate.
  - exists data. exact H.
Defined.

(** ** The chart filters *)

#[local] Hint Constructors Subseq : core.

Lemma Subseq_refl {A} (l : list A) : Subseq l l.
Proof. induction l; auto. Qed.

Lemma Subseq_length {A} (l1 l2 : list A) :
  Subseq l1 l2 -> (List.length l1 <= List.length l2)%nat.
Proof. induction 1; simpl; lia. Qed.

Lemma Subseq_filter_weaker {A} (p q : A -> bool) (l : list A) :
  (forall x, p x = true -> q x = true) -> Subseq (filter p l) (filter q l).
Proof.
  intros Hpq. induction l as [|x l IH]; simpl; auto.
  destruct (p x) eqn:Ep.
  - rewrite (Hpq x Ep). auto.
  - destruct (q x); auto.
Qed.

Lemma Subseq_filter {A} (p : A -> bool) (l : list A) : Subseq (filter p l) l.
Proof.
  induction l as [|x l IH]; simpl; auto. destruct (p x); auto.
Qed.

Lemma filter_filter {A} (p q : A -> bool) (l : list A) :
  filter q (filter p l) = filter (fun x => p x && q x) l.
Proof.
  induction l as [|x l IH]; simpl; auto.
  destruct (p x); simpl; [destruct (q x)|]; rewrite IH; reflexivity.
Qed.

Lemma Vertical_beq_iff x y : Types.Vertical_beq x y = true <-> x = y.
Proof. destruct x, y; simpl; split; congruence. Qed.
Lemma Status_beq_iff x y : Types.Status_beq x y = true <-> x = y.
Proof. destruct x, y; simpl; split; congruence. Qed.
Lemma IssueCategory_beq_iff x y : Types.IssueCategory_beq x y = true <-> x = y.
Proof. destruct x, y; simpl; split; congruence. Qed.
Lemma AccountHealth_beq_iff x y : Types.AccountHealth_beq x y = true <-> x = y.
Proof. destruct x, y; simpl; split; congruence. Qed.

Lemma matches_iff {A} (eqb : A -> A -> bool) (x : A) (o : option A) :
  (forall a b, eqb a b = true <-> a = b) ->
  DataTable.matches eqb x o = true <-> (forall v, o = Some v -> x = v).
Proof.
  intros Heq. destruct o as [w|]; simpl.
  - rewrite Heq. split; [intros -> v [= <-]; reflexivity | intros H; apply H; reflexivity].
  - split; [discriminate | reflexivity].
Qed.

Lemma chartMatch_iff F d : chartMatch F d = true <-> satisfies F d.
Proof.
  unfold chartMatch, satisfies. rewrite !andb_true_iff.
  rewrite (matches_iff _ _ _ Vertical_beq_iff), (matches_iff _ _ _ Status_beq_iff),
    (matches_iff _ _ _ IssueCategory_beq_iff), (matches_iff _ _ _ AccountHealth_beq_iff).
  tauto.
Qed.

Lemma chartMatch_default d : chartMatch FilterContext.defaultChartFilters d = true.
Proof. reflexivity. Qed.

Lemma refines_refl F : refines F F.
Proof. repeat split; auto. Qed.

Lemma satisfies_refines F F' d : refines F F' -> satisfies F' d -> satisfies F d.
Proof.
  intros (R1 & R2 & R3 & R4) (S1 & S2 & S3 & S4).
  repeat split; intros v Hv; auto.
Qed.

Lemma filter_true {A} (l : list A) : filter (fun _ => true) l = l.
Proof. induction l as [|x l IH]; simpl; [|rewrite IH]; reflexivity. Qed.

Lemma date_stage dr (R : list Types.ServiceRequest) :
  (if negb (FilterContext.Preset_beq (FilterContext.preset dr) FilterContext.all)
      && (FilterContext.isSome (FilterContext.start dr)
          || FilterContext.isSome (FilterContext.end_ dr))
   then filter (withinBounds dr) R else R) = filter (passesDateRange dr) R.
Proof.
  unfold passesDateRange. destruct (negb _ && _).
  - reflexivity.
  - symmetry. apply filter_true.
Qed.

Lemma chart_stage {A} (eqb : A -> A -> bool) (f : Types.ServiceRequest -> A)
      (o : option A) (l : list Types.ServiceRequest) :
  match o with
  | Some v => filter (fun d => eqb (f d) v) l
  | None => l
  end = filter (fun d => DataTable.matches eqb (f d) o) l.
Proof.
  destruct o; simpl; [reflexivity | symmetry; apply filter_true].
Qed.

Lemma App_filteredData_filter R F dr :
  App.filteredData R F dr = filter (fun d => passesDateRange dr d && chartMatch F d) R.
Proof.
  unfold App.filteredData. cbv zeta.
  change (fun d : Types.ServiceRequest =>
            if FilterContext.isSome (FilterContext.start dr)
               && JsDate.lt (JsDate.parse (Types.requestDate d)) (FilterContext.start dr)
            then false
            else if FilterContext.isSome (FilterContext.end_ dr)
                    && JsDate.gt (JsDate.parse (Types.requestDate d)) (FilterContext.end_ dr)
            then false else true) with (withinBounds dr).
  rewrite date_stage.
  rewrite (chart_stage Types.AccountHealth_beq Types.accountHealth).
  rewrite (chart_stage Types.IssueCategory_beq Types.issueCategory).
  rewrite (chart_stage Types.Status_beq Types.status).
  rewrite (chart_stage Types.Vertical_beq Types.vertical).
  rewrite !filter_filter.
  apply filter_ext. intros d. unfold chartMatch.
  rewrite !andb_assoc. reflexivity.
Qed.

Lemma DataTable_keep_chart s F dr d :
  DataTable.keep s F dr d =
  DataTable.keep s FilterContext.defaultChartFilters dr d && chartMatch F d.
Proof.
  unfold DataTable.keep, chartMatch. cbv zeta.
  destruct (if negb _ && _ then _ else _); [reflexivity|].
  cbn [FilterContext.vertical FilterContext.status FilterContext.issueCategory
       FilterContext.accountHealth FilterContext.defaultChartFilters DataTable.matches].
  rewrite !andb_true_r, !andb_assoc. reflexivity.
Qed.

Lemma DataTable_filteredData_filter R s F dr :
  DataTable.filteredData R s F dr =
  filter (fun d => DataTable.keep s FilterContext.defaultChartFilters dr d && chartMatch F d) R.
Proof.
  unfold DataTable.filteredData. apply filter_ext. intros d.
  apply DataTable_keep_chart.
Qed.

(** What a filter of the form [base && chartMatch F] guarantees. *)
Lemma chart_filter_properties (base : Types.ServiceRequest -> bool) R F F' :
  refines F F' ->
  let out G := filter (fun d => base d && chartMatch G d) R in
  Subseq (out F) R /\
  (forall r, In r (out F) <->
             In r (out FilterContext.defaultChartFilters) /\ satisfies F r) /\
  Subseq (out F') (out F) /\
  (List.length (out F') <= List.length (out F))%nat.
Proof.
  intros Href out.
  assert (Hsub : Subseq (out F') (out F)).
  { apply Subseq_filter_weaker. intros x. rewrite !andb_true_iff.
    intros [Hb Hc]. split; [exact Hb|].
    apply chartMatch_iff. apply (satisfies_refines F F'); [exact Href|].
    apply chartMatch_iff. exact Hc. }
  split; [apply Subseq_filter|]. split; [|split].
  - intros r. unfold out. rewrite !filter_In, !andb_true_iff, chartMatch_iff.
    rewrite chartMatch_default. tauto.
  - exact Hsub.
  - apply Subseq_length. exact Hsub.
Qed.

Lemma keep_init_default dr d :
  DataTable.keep DataTable.init FilterContext.defaultChartFilters dr d = passesDateRange dr d.
Proof.
  unfold DataTable.keep, passesDateRange, withinBounds. simpl.
  destruct (negb _ && _); [|reflexivity].
  destruct (FilterContext.isSome (FilterContext.start dr) && _); [reflexivity|].
  destruct (FilterContext.isSome (FilterContext.end_ dr) && _); reflexivity.
Qed.

(** C1.  The chart-filtered records of the export view and of the table
    are a subsequence of the collection; a record is among them exactly
    when it is there without chart filters and its field equals the filter
    value in every dimension whose filter is non-null (a null filter does
    not constrain, the four predicates are conjoined); and when further
    dimensions become non-null the result shrinks to a subsequence, so its
    length does not grow.  Both views are the collection filtered by the
    conjunction of the date range (for the table also the search and the
    column filters) with the four chart predicates; the table in its
    initial state shows the export view; and without a date range the
    records shown are exactly the records of the collection whose fields
    equal every non-null filter value. *)
Theorem chart_filter_subset_and_monotone :
  forall (R : list Types.ServiceRequest) (F F' : FilterContext.ChartFilters)
         (dr : FilterContext.DateRange) (s : DataTable.State),
    refines F F' ->
    (Subseq (App.filteredData R F dr) R /\
     (forall r, In r (App.filteredData R F dr) <->
                In r (App.filteredData R FilterContext.defaultChartFilters dr) /\
                satisfies F r) /\
     Subseq (App.filteredData R F' dr) (App.filteredData R F dr) /\
     (List.length (App.filteredData R F' dr) <= List.length (App.filteredData R F dr))%nat) /\
    (Subseq (DataTable.filteredData R s F dr) R /\
     (forall r, In r (DataTable.filteredData R s F dr) <->
                In r (DataTable.filteredData R s FilterContext.defaultChartFilters dr) /\
                satisfies F r) /\
     Subseq (DataTable.filteredData R s F' dr) (DataTable.filteredData R s F dr) /\
     (List.length (DataTable.filteredData R s F' dr)
      <= List.length (DataTable.filteredData R s F dr))%nat) /\
    (App.filteredData R F dr = filter (fun d => passesDateRange dr d && chartMatch F d) R /\
     DataTable.filteredData R s F dr =
     filter (fun d => DataTable.keep s FilterContext.defaultChartFilters dr d
                      && chartMatch F d) R /\
     DataTable.filteredData R DataTable.init F dr = App.filteredData R F dr /\
     App.filteredData R F FilterContext.defaultDateRange = filter (chartMatch F) R /\
     (forall r, In r (App.filteredData R F FilterContext.defaultDateRange) <->
                In r R /\ satisfies F r) /\
     (forall r, In r (DataTable.filteredData R DataTable.init F FilterContext.defaultDateRange)
                <-> In r R /\ satisfies F r)).
Proof.
  intros R F F' dr s Href.
  assert (Einit : forall dr', DataTable.filteredData R DataTable.init F dr'
                              = App.filteredData R F dr').
  { intros dr'. rewrite App_filteredData_filter, DataTable_filteredData_filter.
    apply filter_ext. intros d. rewrite keep_init_default. reflexivity. }
  assert (Eall : App.filteredData R F FilterContext.defaultDateRange
                 = filter (chartMatch F) R).
  { rewrite App_filteredData_filter. apply filter_ext. intros d. reflexivity. }
  assert (Hin : forall r, In r (App.filteredData R F FilterContext.defaultDateRange) <->
                          In r R /\ satisfies F r).
  { intros r. rewrite Eall, filter_In, chartMatch_iff. reflexivity. }
  split; [|split].
  - rewrite !App_filteredData_filter.
    exact (chart_filter_properties (passesDateRange dr) R F F' Href).
  - rewrite !DataTable_filteredData_filter.
    exact (chart_filter_properties
             (DataTable.keep s FilterContext.defaultChartFilters dr) R F F' Href).
  - split; [apply App_filteredData_filter|].
    split; [apply DataTable_filteredData_filter|].
    split; [apply Einit|]. split; [exact Eall|]. split; [exact Hin|].
    intros r. rewrite Einit. apply Hin.
Qed.

(** C1 on the two example records: the vertical Fuel selects the second
    record in the export view and in the table, and going from no selection
    to Fuel does not add records. *)
Lemma chart_filter_subset_and_monotone_witness :
  App.filteredData [recordA; recordB] fuelOnly FilterContext.defaultDateRange = [recordB] /\
  DataTable.filteredData [recordA; recordB] DataTable.init fuelOnly
    FilterContext.defaultDateRange = [recordB] /\
  (List.length (App.filteredData [recordA; recordB] fuelOnly FilterContext.defaultDateRange)
   <= List.length (App.filteredData [recordA; recordB] FilterContext.defaultChartFilters
                     FilterContext.defaultDateRange))%nat.
Proof.
  assert (Href : refines FilterContext.defaultChartFilters fuelOnly)
    by (repeat split; intros v H; discriminate H).
  assert (Hrefl : refines fuelOnly fuelOnly)
    by (repeat split; intros v H; exact H).
  pose proof (chart_filter_subset_and_monotone [recordA; recordB]
                FilterContext.defaultChartFilters fuelOnly FilterContext.defaultDateRange
                DataTable.init Href) as [[_ [_ [_ Hlen]]] _].
  pose proof (chart_filter_subset_and_monotone [recordA; recordB]
                fuelOnly fuelOnly FilterContext.defaultDateRange
                DataTable.init Hrefl) as [_ [_ [_ [_ [Einit [Eall _]]]]]].
  split; [rewrite Eall; reflexivity|].
  split; [rewrite Einit, Eall; reflexivity|].
  exact Hlen.
Defined.

(** ** Grouped counts *)

Lemma mem_iff k ks : mem k ks = true <-> In k ks.
Proof.
  unfold mem. rewrite existsb_exists. split.
  - intros (x & Hx & E). apply String.eqb_eq in E. subst. exact Hx.
  - intros H. exists k. split; [exact H | apply String.eqb_refl].
Qed.

Lemma mem_false_iff k ks : mem k ks = false <-> ~ In k ks.
Proof.
  rewrite <- mem_iff. destruct (mem k ks); split; congruence.
Qed.

Section ObjectLemmas.
Context {V : Type}.
Implicit Types (o : list (string * V)) (k : string) (v : V).

Lemma get_none_iff k o : Charts.get k o = None <-> ~ In k (keys o).
Proof.
  induction o as [|[k' v'] o IH]; simpl.
  - tauto.
  - destruct (String.eqb_spec k' k) as [->|Hne].
    + split; [discriminate | intros H; exfalso; apply H; left; reflexivity].
    + rewrite IH. tauto.
Qed.

Lemma set_absent k v o : ~ In k (keys o) -> Charts.set k v o = o ++ [(k, v)].
Proof.
  induction o as [|[k' v'] o IH]; simpl; intros H.
  - reflexivity.
  - destruct (String.eqb_spec k' k) as [->|Hne].
    + exfalso. apply H. left. reflexivity.
    + rewrite IH; [reflexivity | tauto].
Qed.

(** With distinct keys, an update of a present key rewrites its entry. *)
Lemma set_present k v v0 o :
  NoDup (keys o) -> Charts.get k o = Some v0 ->
  Charts.set k v o =
  map (fun e => if String.eqb (fst e) k then (fst e, v) else e) o.
Proof.
  induction o as [|[k' v'] o IH]; simpl; intros Hnd Hget.
  - discriminate.
  - inversion Hnd as [|? ? Hnot Hnd']; subst.
    destruct (String.eqb_spec k' k) as [->|Hne].
    + f_equal. rewrite <- (map_id o) at 1. apply map_ext_in.
      intros [k2 v2] Hin. simpl.
      destruct (String.eqb_spec k2 k) as [->|]; [|reflexivity].
      exfalso. apply Hnot. apply (in_map fst) in Hin. exact Hin.
    + f_equal. apply IH; assumption.
Qed.

Lemma keys_map_entry (f : string * V -> string * V) o :
  (forall e, fst (f e) = fst e) -> keys (map f o) = keys o.
Proof.
  intros Hf. unfold keys. rewrite map_map. apply map_ext. exact Hf.
Qed.
End ObjectLemmas.

Lemma distinct_filter_absent (x : string) (ks D : list string) :
  In x ks ->
  filter (fun k => negb (mem k ks)) (filter (fun y => negb (String.eqb y x)) D) =
  filter (fun k => negb (mem k ks)) D.
Proof.
  intros Hx. rewrite filter_filter. apply filter_ext. intros k.
  destruct (String.eqb_spec k x) as [->|Hne]; simpl; [|reflexivity].
  apply mem_iff in Hx. rewrite Hx. reflexivity.
Qed.

Lemma occurrences_cons_same x l : occurrences x (x :: l) = S (occurrences x l).
Proof. unfold occurrences. simpl. rewrite String.eqb_refl. reflexivity. Qed.

Lemma occurrences_cons_other k x l : k <> x -> occurrences k (x :: l) = occurrences k l.
Proof.
  intros H. unfold occurrences. simpl.
  destruct (String.eqb_spec k x); [contradiction | reflexivity].
Qed.

(** The loop of [countBy] on the list of keys, from any object with distinct
    keys. *)
Lemma increment_fold (l : list string) :
  forall (o : list (string * nat)),
    NoDup (keys o) ->
    fold_left (fun counts k => Charts.increment k counts) l o =
    map (fun e => (fst e, (snd e + occurrences (fst e) l)%nat)) o ++
    map (fun k => (k, occurrences k l))
        (filter (fun k => negb (mem k (keys o))) (distinct l)).
Proof.
  induction l as [|x l IH]; intros o Hnd.
  - simpl. rewrite app_nil_r. rewrite <- (map_id o) at 1.
    apply map_ext. intros [k n]. simpl. unfold occurrences. simpl.
    rewrite Nat.add_0_r. reflexivity.
  - cbn [fold_left distinct]. unfold Charts.increment at 2.
    destruct (Charts.get x o) as [n|] eqn:Hget.
    + (* the key is already a property *)
      assert (Hin : In x (keys o)).
      { destruct (in_dec string_dec x (keys o)) as [H|H]; [exact H|].
        apply get_none_iff in H. congruence. }
      replace (if Nat.eqb n 0 then 0%nat else n) with n
        by (destruct (Nat.eqb_spec n 0); congruence).
      rewrite (set_present x _ n o Hnd Hget).
      rewrite IH.
      2:{ rewrite keys_map_entry; [exact Hnd|].
          intros e. destruct (String.eqb (fst e) x); reflexivity. }
      rewrite keys_map_entry
        by (intros e; destruct (String.eqb (fst e) x); reflexivity).
      cbn [filter]. apply mem_iff in Hin as Hmem. rewrite Hmem. cbn [negb].
      rewrite (distinct_filter_absent x (keys o) (distinct l) Hin).
      f_equal.
      * rewrite map_map. apply map_ext_in. intros [k m] Hk. cbn [fst snd].
        destruct (String.eqb_spec k x) as [->|Hne]; cbn [fst snd].
        -- rewrite occurrences_cons_same.
           assert (m = n).
           { clear - Hnd Hget Hk. induction o as [|[k' v'] o IHo]; [destruct Hk|].
             simpl in Hget. inversion Hnd as [|? ? Hnot Hnd']; subst.
             destruct (String.eqb_spec k' x) as [->|Hne].
             - destruct Hk as [E|Hk]; [congruence|].
               exfalso. apply Hnot. apply (in_map fst) in Hk. exact Hk.
             - destruct Hk as [E|Hk]; [congruence|]. apply IHo; assumption. }
           subst m. f_equal. lia.
        -- rewrite occurrences_cons_other by exact Hne. reflexivity.
      * apply map_ext_in. intros k Hk. apply filter_In in Hk as [_ Hk].
        apply negb_true_iff, mem_false_iff in Hk.
        rewrite occurrences_cons_other; [reflexivity|].
        intros ->. contradiction.
    + (* a new property, created last *)
      apply get_none_iff in Hget.
      rewrite (set_absent x _ o Hget).
      rewrite IH.
      2:{ unfold keys. rewrite map_app. simpl.
          apply NoDup_app; [exact Hnd | repeat constructor; intros [] |].
          intros a Ha [<-|[]]. contradiction. }
      cbn [filter]. apply mem_false_iff in Hget as Hmem. rewrite Hmem. cbn [negb map].
      rewrite map_app. cbn [map fst snd]. rewrite <- app_assoc. cbn [app].
      rewrite occurrences_cons_same. f_equal.
      * apply map_ext_in. intros [k m] Hk. cbn [fst snd].
        rewrite occurrences_cons_other; [reflexivity|].
        intros ->. apply Hget. apply (in_map fst) in Hk. exact Hk.
      * simpl ([_] ++ _). f_equal.
        rewrite filter_filter. unfold keys at 1. rewrite map_app. cbn [map fst].
        fold (keys o).
        rewrite (filter_ext (fun k => negb (mem k (keys o ++ [x])))
                  (fun k => negb (String.eqb k x) && negb (mem k (keys o)))).
        2:{ intros k. unfold mem. rewrite existsb_app. simpl. rewrite orb_false_r.
            rewrite negb_orb. apply andb_comm. }
        apply map_ext_in. intros k Hk. apply filter_In in Hk as [_ Hk].
        apply andb_true_iff in Hk as [Hk _].
        apply negb_true_iff in Hk.
        rewrite occurrences_cons_other; [reflexivity|].
        intros ->. rewrite String.eqb_refl in Hk. discriminate.
Qed.

Lemma fold_left_keys {S} (f : S -> string -> S) (key : Types.ServiceRequest -> string)
      (data : list Types.ServiceRequest) (o : S) :
  fold_left (fun counts item => f counts (key item)) data o =
  fold_left f (map key data) o.
Proof.
  revert o. induction data as [|x data IH]; intros o; simpl; [reflexivity | apply IH].
Qed.

Lemma occurrences_map (key : Types.ServiceRequest -> string) data k :
  occurrences k (map key data) =
  List.length (filter (fun item => String.eqb k (key item)) data).
Proof.
  unfold occurrences. induction data as [|x data IH]; simpl; [reflexivity|].
  destruct (String.eqb k (key x)); simpl; rewrite IH; reflexivity.
Qed.

(** The grouped counts are the distinct values in the order of their first
    occurrence, each with the number of records that carry it. *)
Lemma countBy_spec key data :
  Charts.countBy key data =
  map (fun k =>
         Charts.mkNamedValue k
           (List.length (filter (fun item => String.eqb k (key item)) data)))
      (distinct (map key data)).
Proof.
  unfold Charts.countBy, Charts.entries.
  rewrite (fold_left_keys (fun counts k => Charts.increment k counts)).
  rewrite increment_fold by constructor.
  cbn [map keys]. rewrite app_nil_l, map_map.
  rewrite (filter_ext _ (fun _ => true)) by reflexivity.
  rewrite filter_true. apply map_ext. intros k.
  rewrite occurrences_map. reflexivity.
Qed.

Example breach_scenario :
  SLAContext.isBreachingSLA SLAContext.defaultThresholds recordA = false /\
  SLAContext.isBreachingSLA SLAContext.defaultThresholds recordB = true /\
  SLAContext.getBreachCount SLAContext.defaultThresholds [recordA; recordB] = 1%nat.
Proof. repeat split. Qed.

Lemma distinct_In x l : In x (distinct l) <-> In x l.
Proof.
  induction l as [|y l IH]; simpl; [tauto|].
  rewrite filter_In, IH, negb_true_iff.
  destruct (String.eqb_spec x y) as [->|Hne]; split; intros H; auto.
  - destruct H as [H|[H _]]; auto.
  - destruct H as [H|H]; [congruence|]. right. split; [exact H | reflexivity].
Qed.

Lemma NoDup_filter {A} (p : A -> bool) (l : list A) : NoDup l -> NoDup (filter p l).
Proof.
  induction 1 as [|x l Hx Hnd IH]; simpl; [constructor|].
  destruct (p x); [|exact IH].
  constructor; [|exact IH]. intros H. apply filter_In in H. tauto.
Qed.

Lemma distinct_NoDup l : NoDup (distinct l).
Proof.
  induction l as [|x l IH]; simpl; constructor.
  - intros H. apply filter_In in H as [_ H]. rewrite String.eqb_refl in H. discriminate.
  - apply NoDup_filter. exact IH.
Qed.

(** A sum over distinct keys, with the term of [x] taken out. *)
Lemma sum_without (f : string -> nat) (x : string) (D : list string) :
  NoDup D ->
  list_sum (map f D) =
  ((if mem x D then f x else 0) + list_sum (map f (filter (fun y => negb (String.eqb y x)) D)))%nat.
Proof.
  induction 1 as [|y D Hy Hnd IH]; [reflexivity|].
  change (list_sum (map f (y :: D))) with (f y + list_sum (map f D))%nat.
  rewrite IH. unfold mem. cbn [existsb filter].
  fold (mem x D). rewrite (String.eqb_sym y x).
  destruct (String.eqb_spec x y) as [->|Hne]; cbn [negb orb].
  - apply mem_false_iff in Hy. rewrite Hy. lia.
  - change (list_sum (map f (y :: ?l))) with (f y + list_sum (map f l))%nat.
    cbn [map]. change (list_sum (f y :: ?l)) with (f y + list_sum l)%nat.
    destruct (mem x D); simpl; lia.
Qed.

(** The groups are a partition: their sizes add up to the length. *)
Lemma sum_occurrences (l : list string) :
  list_sum (map (fun k => occurrences k l) (distinct l)) = List.length l.
Proof.
  induction l as [|x l IH]; [reflexivity|].
  cbn [distinct map List.length].
  change (list_sum (?a :: ?m)) with (a + list_sum m)%nat.
  rewrite occurrences_cons_same.
  rewrite (map_ext_in (fun k => occurrences k (x :: l)) (fun k => occurrences k l)).
  2:{ intros k Hk. apply filter_In in Hk as [_ Hk]. apply negb_true_iff in Hk.
      apply occurrences_cons_other. intros ->. rewrite String.eqb_refl in Hk. discriminate. }
  rewrite <- IH.
  rewrite (sum_without (fun k => occurrences k l) x (distinct l) (distinct_NoDup l)).
  destruct (mem x (distinct l)) eqn:Hm; [lia|].
  apply mem_false_iff in Hm. rewrite distinct_In in Hm.
  assert (H0 : occurrences x l = 0%nat).
  { unfold occurrences. clear IH. induction l as [|y l IHl]; [reflexivity|].
    simpl. destruct (String.eqb_spec x y) as [->|Hne].
    - exfalso. apply Hm. left. reflexivity.
    - apply IHl. intros H. apply Hm. right. exact H. }
  lia.
Qed.

Lemma countBy_groups key data :
  groupsInFirstOccurrenceOrder (Charts.countBy key data) key data.
Proof.
  unfold groupsInFirstOccurrenceOrder. rewrite countBy_spec. split; [|split].
  - rewrite map_map. cbn [Charts.name]. apply map_id.
  - apply Forall_forall. intros nv Hin.
    apply in_map_iff in Hin as (k & <- & _). reflexivity.
  - rewrite map_map. cbn [Charts.value].
    rewrite <- (length_map key data), <- sum_occurrences.
    f_equal. apply map_ext. intros k. symmetry. apply occurrences_map.
Qed.

(** C8.  For each of the four categorical dimensions the grouped counts
    list the distinct values of the collection in the order of their first
    occurrence, each with the number of records that have this value, the
    counts adding up to the size of the collection; the order is not
    alphabetical: for a record with status Resolved followed by
    one with status In Progress the result is Resolved: 1, In Progress: 1. *)
Theorem countBy_first_occurrence_order :
  forall (data : list Types.ServiceRequest),
    groupsInFirstOccurrenceOrder (Charts.verticalData data)
      (fun item => Types.Vertical_name (Types.vertical item)) data /\
    groupsInFirstOccurrenceOrder (Charts.statusData data)
      (fun item => Types.Status_name (Types.status item)) data /\
    groupsInFirstOccurrenceOrder (Charts.categoryData data)
      (fun item => Types.IssueCategory_name (Types.issueCategory item)) data /\
    groupsInFirstOccurrenceOrder (Charts.healthData data)
      (fun item => Types.AccountHealth_name (Types.accountHealth item)) data /\
    Charts.statusData [recordA; recordB] =
    [Charts.mkNamedValue "Resolved" 1%nat; Charts.mkNamedValue "In Progress" 1%nat].
Proof.
  intros data.
  split; [apply countBy_groups|]. split; [apply countBy_groups|].
  split; [apply countBy_groups|]. split; [apply countBy_groups|].
  reflexivity.
Qed.

(** ** The calendar *)

Lemma civil_from_days_spec z :
  let '(y, m, d) := JsDate.civil_from_days z in
  1 <= m <= 12 /\ JsDate.days_from_civil y m 1 + d - 1 = z.
Proof.
  unfold JsDate.civil_from_days.
  set (z' := z + 719468).
  set (era := z' / 146097).
  set (doe := z' - era * 146097).
  set (yoe := (doe - doe / 1460 + doe / 36524 - doe / 146096) / 365).
  set (doy := doe - (365 * yoe + yoe / 4 - yoe / 100)).
  set (mp := (5 * doy + 2) / 153).
  cbv zeta.
  assert (Hdoe : 0 <= doe < 146097).
  { unfold doe, era. Z.to_euclidean_division_equations. lia. }
  assert (Hyoe : 0 <= yoe <= 399).
  { unfold yoe. Z.to_euclidean_division_equations. lia. }
  assert (Hdoy : 0 <= doy <= 365).
  { unfold doy, yoe. Z.to_euclidean_division_equations. lia. }
  assert (Hmp : 0 <= mp <= 11).
  { unfold mp. Z.to_euclidean_division_equations. lia. }
  assert (Hz : z = era * 146097 + doe - 719468) by (unfold doe, z'; lia).
  assert (Edoy : doy = doe - (365 * yoe + yoe / 4 - yoe / 100)) by reflexivity.
  clearbody mp doy yoe doe era.
  unfold JsDate.days_from_civil.
  destruct (Z.ltb_spec mp 10) as [Hlt|Hge].
  - assert (Hm : (mp + 3 <=? 2) = false) by (apply Z.leb_gt; lia).
    rewrite Hm. split; [lia|].
    replace ((mp + 3 + 9) mod 12) with mp by (Z.to_euclidean_division_equations; lia).
    replace ((yoe + era * 400) / 400) with era by (Z.to_euclidean_division_equations; lia).
    Z.to_euclidean_division_equations. lia.
  - assert (Hm : (mp - 9 <=? 2) = true) by (apply Z.leb_le; lia).
    rewrite Hm. split; [lia|].
    replace ((mp - 9 + 9) mod 12) with mp by (Z.to_euclidean_division_equations; lia).
    replace ((yoe + era * 400 + 1 - 1) / 400) with era
      by (Z.to_euclidean_division_equations; lia).
    Z.to_euclidean_division_equations. lia.
Qed.

Lemma MakeDay_local tz t dt :
  JsDate.MakeDay (JsDate.getFullYear tz t) (JsDate.getMonth tz t) dt =
  JsDate.Day (JsDate.LocalTime tz t) - JsDate.getDate tz t + dt.
Proof.
  unfold JsDate.MakeDay, JsDate.getFullYear, JsDate.getMonth, JsDate.getDate.
  pose proof (civil_from_days_spec (JsDate.Day (JsDate.LocalTime tz t))) as H.
  destruct (JsDate.civil_from_days _) as [[y m] d]. destruct H as [Hm Hd].
  replace ((m - 1) / 12) with 0 by (Z.to_euclidean_division_equations; lia).
  replace ((m - 1) mod 12 + 1) with m by (Z.to_euclidean_division_equations; lia).
  rewrite Z.add_0_r. lia.
Qed.

(** In a zone that keeps one offset [t.setDate(t.getDate() - k)] moves [t]
    back by [k] days. *)
Lemma setDate_back tz t k :
  JsDate.setDate tz t (JsDate.getDate tz t - k) = t - k * JsDate.msPerDay.
Proof.
  unfold JsDate.setDate. rewrite MakeDay_local.
  unfold JsDate.UTC, JsDate.Day, JsDate.TimeWithinDay, JsDate.LocalTime, JsDate.msPerDay.
  generalize (JsDate.getDate tz t). intros d.
  Z.to_euclidean_division_equations. lia.
Qed.

(** [new Date(now.getFullYear(), now.getMonth(), now.getDate())] is the
    local midnight before [now]. *)
Lemma newDate_today tz now :
  JsDate.newDate tz (JsDate.getFullYear tz now) (JsDate.getMonth tz now)
                 (JsDate.getDate tz now)
  = localMidnight tz (JsDate.Day (JsDate.LocalTime tz now)).
Proof.
  unfold JsDate.newDate, localMidnight. rewrite MakeDay_local. f_equal. f_equal. lia.
Qed.

(** In a zone that keeps one offset the days of the sparkline are
    consecutive: the string of the day [i] days back is the UTC date of the
    instant [i] days before now. *)
Lemma dateStr_days_back tz now i :
  KPICards.dateStr tz now i = JsDate.toISODate (now - Z.of_nat i * JsDate.msPerDay).
Proof. unfold KPICards.dateStr. rewrite setDate_back. reflexivity. Qed.

(** The bounds of the three rolling presets: the local midnight of today and
    the local midnight 7, 30 or 90 days earlier. *)
Lemma rolling_preset_bounds tz now :
  let n := JsDate.Day (JsDate.LocalTime tz now) in
  DateRangePicker.getPresetDates tz now FilterContext.last7
  = (Some (localMidnight tz (n - 7)), Some (localMidnight tz n)) /\
  DateRangePicker.getPresetDates tz now FilterContext.last30
  = (Some (localMidnight tz (n - 30)), Some (localMidnight tz n)) /\
  DateRangePicker.getPresetDates tz now FilterContext.last90
  = (Some (localMidnight tz (n - 90)), Some (localMidnight tz n)).
Proof.
  intros n. unfold DateRangePicker.getPresetDates.
  rewrite newDate_today. fold n. rewrite !setDate_back.
  unfold localMidnight, JsDate.UTC, JsDate.msPerDay.
  repeat split; f_equal; f_equal; lia.
Qed.

(** ** The calendar in any time zone *)

(** In a zone that keeps one offset the functions of [Zoned] are those
    written for a constant offset. *)
Ltac fixed_zone :=
  unfold JsDate.Zoned.setDate, JsDate.Zoned.newDate, JsDate.Zoned.getFullYear,
    JsDate.Zoned.getMonth, JsDate.Zoned.getDate, JsDate.Zoned.LocalTime, JsDate.Zoned.UTC,
    JsDate.setDate, JsDate.newDate, JsDate.getFullYear, JsDate.getMonth, JsDate.getDate,
    JsDate.LocalTime, JsDate.UTC;
  cbn [JsDate.offsetAt JsDate.offsetOfLocal JsDate.fixedOffset].

Lemma Zoned_setDate_fixedOffset tz t dt :
  JsDate.Zoned.setDate (JsDate.fixedOffset tz) t dt = JsDate.setDate tz t dt.
Proof. fixed_zone. reflexivity. Qed.

Lemma Zoned_getDate_fixedOffset tz t :
  JsDate.Zoned.getDate (JsDate.fixedOffset tz) t = JsDate.getDate tz t.
Proof. fixed_zone. reflexivity. Qed.

Lemma Zoned_getFullYear_fixedOffset tz t :
  JsDate.Zoned.getFullYear (JsDate.fixedOffset tz) t = JsDate.getFullYear tz t.
Proof. fixed_zone. reflexivity. Qed.

Lemma Zoned_getMonth_fixedOffset tz t :
  JsDate.Zoned.getMonth (JsDate.fixedOffset tz) t = JsDate.getMonth tz t.
Proof. fixed_zone. reflexivity. Qed.

Lemma Zoned_newDate_fixedOffset tz y m d :
  JsDate.Zoned.newDate (JsDate.fixedOffset tz) y m d = JsDate.newDate tz y m d.
Proof. fixed_zone. reflexivity. Qed.

Lemma Zoned_getPresetDates_fixedOffset tz now p :
  DateRangePicker.Zoned.getPresetDates (JsDate.fixedOffset tz) now p
  = DateRangePicker.getPresetDates tz now p.
Proof.
  unfold DateRangePicker.Zoned.getPresetDates, DateRangePicker.getPresetDates.
  rewrite !Zoned_getFullYear_fixedOffset, !Zoned_getMonth_fixedOffset,
    !Zoned_getDate_fixedOffset, !Zoned_newDate_fixedOffset, !Zoned_setDate_fixedOffset.
  reflexivity.
Qed.

Lemma Zoned_dateStr_fixedOffset tz now i :
  KPICards.Zoned.dateStr (JsDate.fixedOffset tz) now i = KPICards.dateStr tz now i.
Proof.
  unfold KPICards.Zoned.dateStr, KPICards.dateStr.
  rewrite Zoned_getDate_fixedOffset, Zoned_setDate_fixedOffset. reflexivity.
Qed.

Lemma Zoned_point_fixedOffset tz now data metric i :
  KPICards.Zoned.point (JsDate.fixedOffset tz) now data metric i
  = KPICards.point tz now data metric i.
Proof.
  unfold KPICards.Zoned.point, KPICards.point. rewrite Zoned_dateStr_fixedOffset.
  reflexivity.
Qed.

Lemma Zoned_series_fixedOffset tz now data metric days :
  KPICards.Zoned.series (JsDate.fixedOffset tz) now data metric days
  = KPICards.series tz now data metric days.
Proof.
  induction days as [|n IH]; [reflexivity|].
  cbn [KPICards.Zoned.series KPICards.series].
  rewrite IH, Zoned_point_fixedOffset. reflexivity.
Qed.

Lemma Zoned_generateSparklineData_fixedOffset tz now data metric days :
  KPICards.Zoned.generateSparklineData (JsDate.fixedOffset tz) now data metric days
  = KPICards.generateSparklineData tz now data metric days.
Proof.
  unfold KPICards.Zoned.generateSparklineData, KPICards.generateSparklineData.
  rewrite Zoned_series_fixedOffset. reflexivity.
Qed.

Lemma Zoned_getPreviousPeriodData_fixedOffset tz now data days :
  KPICards.Zoned.getPreviousPeriodData (JsDate.fixedOffset tz) now data days
  = KPICards.getPreviousPeriodData tz now data days.
Proof.
  unfold KPICards.Zoned.getPreviousPeriodData, KPICards.getPreviousPeriodData.
  rewrite !Zoned_getDate_fixedOffset, !Zoned_setDate_fixedOffset. reflexivity.
Qed.

Lemma Zoned_MakeDay_local zone t dt :
  JsDate.MakeDay (JsDate.Zoned.getFullYear zone t) (JsDate.Zoned.getMonth zone t) dt =
  JsDate.Day (JsDate.Zoned.LocalTime zone t) - JsDate.Zoned.getDate zone t + dt.
Proof.
  unfold JsDate.MakeDay, JsDate.Zoned.getFullYear, JsDate.Zoned.getMonth,
    JsDate.Zoned.getDate.
  pose proof (civil_from_days_spec (JsDate.Day (JsDate.Zoned.LocalTime zone t))) as H.
  destruct (JsDate.civil_from_days _) as [[y m] d]. destruct H as [Hm Hd].
  replace ((m - 1) / 12) with 0 by (Z.to_euclidean_division_equations; lia).
  replace ((m - 1) mod 12 + 1) with m by (Z.to_euclidean_division_equations; lia).
  rewrite Z.add_0_r. lia.
Qed.

(** [t.setDate(t.getDate() - k)] is the instant at which the local clock
    read the same time [k] days before [t]. *)
Lemma Zoned_setDate_back zone t k :
  JsDate.Zoned.setDate zone t (JsDate.Zoned.getDate zone t - k) = sameClock zone t k.
Proof.
  unfold JsDate.Zoned.setDate. rewrite Zoned_MakeDay_local.
  change (sameClock zone t k)
    with (JsDate.Zoned.UTC zone (JsDate.Zoned.LocalTime zone t - k * JsDate.msPerDay)).
  f_equal. unfold JsDate.Day, JsDate.TimeWithinDay, JsDate.msPerDay.
  generalize (JsDate.Zoned.getDate zone t) (JsDate.Zoned.LocalTime zone t). intros d l.
  Z.to_euclidean_division_equations. lia.
Qed.

(** Where that local time is read with the offset in force at [t], the
    instant is [k] days before [t]. *)
Lemma sameClock_steady zone t k :
  JsDate.offsetOfLocal zone (t + JsDate.offsetAt zone t - k * JsDate.msPerDay)
  = JsDate.offsetAt zone t ->
  sameClock zone t k = t - k * JsDate.msPerDay.
Proof. intros H. unfold sameClock. cbv zeta. rewrite H. lia. Qed.

Lemma sameClock_fixedOffset tz t k :
  sameClock (JsDate.fixedOffset tz) t k = t - k * JsDate.msPerDay.
Proof. apply sameClock_steady. reflexivity. Qed.

Lemma Zoned_dateStr zone now i :
  KPICards.Zoned.dateStr zone now i = JsDate.toISODate (sameClock zone now (Z.of_nat i)).
Proof. unfold KPICards.Zoned.dateStr. rewrite Zoned_setDate_back. reflexivity. Qed.

(** ** The rolling series *)

Lemma of_nat_S_nonzero n : JsNumber.eq (JsNumber.of_nat (S n)) 0 = false.
Proof.
  unfold JsNumber.eq, JsNumber.of_nat.
  destruct (Qeq_bool _ _) eqn:E; [|reflexivity].
  apply Qeq_bool_iff in E. unfold Qeq in E. simpl in E. lia.
Qed.

(** The guarded mean never divides by zero. *)
Lemma meanOrZero_finite f day :
  KPICards.meanOrZero f day =
  JsNumber.Fin match day with
               | [] => 0%Q
               | _ :: _ => (KPICards.sumOf f day / JsNumber.of_nat (List.length day))%Q
               end.
Proof.
  unfold KPICards.meanOrZero. destruct day as [|x day]; [reflexivity|].
  cbn [List.length Nat.ltb Nat.leb]. unfold JsNumber.div, JsNumber.of_count.
  cbn [List.length]. rewrite of_nat_S_nonzero. reflexivity.
Qed.

(** The point of a day is the reducer of the metric over the records whose
    [requestDate] is the string of that day. *)
Lemma Zoned_point_reducer zone now data metric i :
  KPICards.Zoned.point zone now data metric i =
  JsNumber.Fin
    (reducer metric
       (filter (fun d => String.eqb (Types.requestDate d)
                           (JsDate.toISODate (sameClock zone now (Z.of_nat i)))) data)).
Proof.
  unfold KPICards.Zoned.point. rewrite Zoned_dateStr.
  set (day := filter _ data).
  destruct metric; try reflexivity; rewrite meanOrZero_finite; reflexivity.
Qed.

Lemma forallb_of_map {A B} (f : A -> B) (p : B -> bool) (l : list A) :
  forallb p (map f l) = forallb (fun x => p (f x)) l.
Proof. induction l as [|x l IH]; [reflexivity|]. simpl. rewrite IH. reflexivity. Qed.

Lemma series_length tz now data metric days :
  List.length (KPICards.series tz now data metric days) = days.
Proof. induction days as [|n IH]; simpl; [|rewrite IH]; reflexivity. Qed.

(** The entry at position [k] is the point of the day [days - 1 - k] days
    before today: the series runs from the oldest day to today. *)
Lemma series_nth tz now data metric days k :
  (k < days)%nat ->
  nth k (KPICards.series tz now data metric days) JsNumber.NaN =
  KPICards.point tz now data metric (days - 1 - k).
Proof.
  revert k. induction days as [|n IH]; intros k Hk; [lia|].
  destruct k as [|k]; cbn [KPICards.series nth].
  - f_equal. lia.
  - rewrite IH by lia. f_equal. lia.
Qed.


(** ** Averages, percentages and the comparison badge *)

Lemma averages_of_empty :
  KPICards.avgResponseTime [] = JsNumber.Fin 0 /\
  KPICards.avgResolutionTime [] = JsNumber.Fin 0.
Proof. split; reflexivity. Qed.

Lemma averages_finite (data : list Types.ServiceRequest) :
  JsNumber.isFinite (KPICards.avgResponseTime data) = true /\
  JsNumber.isFinite (KPICards.avgResolutionTime data) = true.
Proof.
  unfold KPICards.avgResponseTime, KPICards.avgResolutionTime.
  rewrite !meanOrZero_finite. split; reflexivity.
Qed.

(** No badge when the previous value is zero or absent. *)
Lemma percentChange_previous_zero (v : JsNumber.value) (p : Q) :
  (p == 0)%Q -> KPICards.percentChange v (Some (JsNumber.Fin p)) = None.
Proof.
  intros Hp. unfold KPICards.percentChange, JsNumber.truthy, JsNumber.eq.
  apply Qeq_bool_iff in Hp. rewrite Hp. reflexivity.
Qed.

Lemma percentChange_absent (v : JsNumber.value) : KPICards.percentChange v None = None.
Proof. reflexivity. Qed.

(** With a non-zero previous value the badge shows a finite number. *)
Lemma percentChange_finite (v p : Q) :
  ~ (p == 0)%Q ->
  KPICards.percentChange (JsNumber.Fin v) (Some (JsNumber.Fin p)) =
  Some (JsNumber.Fin ((v + - p) / p * 100)%Q).
Proof.
  intros Hp. unfold KPICards.percentChange, JsNumber.truthy, JsNumber.strict_eq,
    JsNumber.eq.
  assert (E : Qeq_bool p 0 = false).
  { destruct (Qeq_bool p 0) eqn:E; [|reflexivity].
    apply Qeq_bool_iff in E. contradiction. }
  rewrite E. cbn [negb andb]. unfold JsNumber.div, JsNumber.sub, JsNumber.add,
    JsNumber.neg, JsNumber.mul, JsNumber.eq. rewrite E. reflexivity.
Qed.

Lemma percentChange_of_finite (v p : Q) :
  absentOrFinite (KPICards.percentChange (JsNumber.Fin v) (Some (JsNumber.Fin p))) = true.
Proof.
  destruct (Qeq_dec p 0) as [Hp|Hp].
  - rewrite (percentChange_previous_zero _ p Hp). reflexivity.
  - rewrite (percentChange_finite v p Hp). reflexivity.
Qed.

(** The comparison badges of the seven cards never show a division by zero:
    each is absent or a finite number, and all are absent when the previous
    period has no records. *)
Lemma badges_absent_or_finite th (filteredData previousData : list Types.ServiceRequest) :
  forallb absentOrFinite (KPICards.badges th filteredData previousData) = true /\
  KPICards.badges th filteredData [] = repeat None 7.
Proof.
  split.
  - unfold KPICards.badges, KPICards.cards, KPICards.avgResponseTime,
      KPICards.avgResolutionTime, KPICards.totalRequests, KPICards.resolvedCount,
      KPICards.inProgressCount, KPICards.churnRiskCount, KPICards.slaBreachCount,
      KPICards.countWhere, JsNumber.of_count.
    rewrite !meanOrZero_finite. cbn [map forallb].
    rewrite !percentChange_of_finite. reflexivity.
  - reflexivity.
Qed.

Lemma set_Forall {V} (P : V -> Prop) k v (o : list (string * V)) :
  P v -> Forall (fun e => P (snd e)) o -> Forall (fun e => P (snd e)) (Charts.set k v o).
Proof.
  intros Hv. induction 1 as [|[k' v'] o Hx Ho IH]; simpl.
  - repeat constructor. exact Hv.
  - destruct (String.eqb k' k); constructor; auto.
Qed.

Lemma set_set {V} k (v v0 : V) (o : list (string * V)) :
  Charts.set k v (Charts.set k v0 o) = Charts.set k v o.
Proof.
  induction o as [|[k' v'] o IH]; simpl.
  - rewrite String.eqb_refl. reflexivity.
  - destruct (String.eqb k' k) eqn:E; simpl; rewrite E; [reflexivity | rewrite IH; reflexivity].
Qed.

Lemma get_set_same {V} k (v : V) (o : list (string * V)) :
  Charts.get k (Charts.set k v o) = Some v.
Proof.
  induction o as [|[k' v'] o IH]; simpl.
  - rewrite String.eqb_refl. reflexivity.
  - destruct (String.eqb k' k) eqn:E; simpl; rewrite E; [reflexivity | exact IH].
Qed.

(** One step of the loop of [avgResolutionByVertical]: the entry of the
    record's vertical, created at zero when absent, gets the duration added
    and its count incremented. *)
Lemma addTotal_set item totals :
  Charts.addTotal item totals =
  let k := Types.Vertical_name (Types.vertical item) in
  let '(sum, count) :=
    match Charts.get k totals with Some e => e | None => (0%Q, 0%nat) end in
  Charts.set k ((sum + Types.timeToResolution item)%Q, (count + 1)%nat) totals.
Proof.
  unfold Charts.addTotal. cbv zeta.
  destruct (Charts.get _ totals) as [[sum count]|] eqn:Hg.
  - rewrite Hg. reflexivity.
  - rewrite get_set_same, set_set. reflexivity.
Qed.

(** Every group of the average-resolution chart has at least one record, so
    its mean is finite. *)
Lemma avgResolutionByVertical_finite (data : list Types.ServiceRequest) :
  Forall (fun nv => JsNumber.isFinite (Charts.value nv) = true)
         (Charts.avgResolutionByVertical data).
Proof.
  unfold Charts.avgResolutionByVertical, Charts.entries.
  set (P := fun sc : Q * nat => (1 <= snd sc)%nat).
  assert (H : forall totals, Forall (fun e => P (snd e)) totals ->
            Forall (fun e => P (snd e))
                   (fold_left (fun totals item => Charts.addTotal item totals) data totals)).
  { induction data as [|x data IH]; intros totals Ht; [exact Ht|].
    cbn [fold_left]. apply IH. rewrite addTotal_set. cbv zeta.
    destruct (match Charts.get _ totals with Some e => e | None => (0%Q, 0%nat) end)
      as [sum count].
    apply set_Forall; [unfold P; simpl; lia | exact Ht]. }
  apply Forall_forall. intros nv Hin.
  apply in_map_iff in Hin as ([k [sum count]] & <- & Hin).
  specialize (H [] (Forall_nil _)). rewrite Forall_forall in H.
  specialize (H _ Hin). unfold P in H. cbn [snd Charts.value] in *.
  destruct count as [|n]; [lia|].
  unfold JsNumber.round, JsNumber.div, JsNumber.of_count.
  rewrite of_nat_S_nonzero. reflexivity.
Qed.

(** C4, at the empty collection.  The averages are guarded and give zero,
    but the subtitles of the cards Resolved and In Progress divide the count
    by the number of filtered records without a guard: for an empty filtered
    collection the quotient is [NaN] and the card shows [NaN%]. *)
Theorem subtitle_percentage_of_empty_collection :
  KPICards.filteredData [recordA; recordB] rangeIn2025 = [] /\
  JsNumber.div (KPICards.resolvedCount []) (KPICards.totalRequests []) = JsNumber.NaN /\
  KPICards.resolvedSubtitle (KPICards.filteredData [recordA; recordB] rangeIn2025) = "NaN%" /\
  KPICards.inProgressSubtitle (KPICards.filteredData [recordA; recordB] rangeIn2025) = "NaN%" /\
  KPICards.avgResponseTime (KPICards.filteredData [recordA; recordB] rangeIn2025)
  = JsNumber.Fin 0.
Proof. repeat split. Qed.

Example subtitle_of_example_records :
  KPICards.resolvedSubtitle [recordA; recordB] = "50.0%".
Proof. reflexivity. Qed.

(** ** The page index of the table *)

Lemma local_filter_events_reset_page pages e s :
  isFilterEvent e = true -> DataTable.currentPage (DataTable.handle pages e s) = 1.
Proof. destruct e; simpl; intros H; try reflexivity; discriminate. Qed.

Lemma syncChartFilters_keeps_page cf s :
  DataTable.currentPage (DataTable.syncChartFilters cf s) = DataTable.currentPage s.
Proof.
  unfold DataTable.syncChartFilters.
  destruct cf as [[v|] [st|] [c|] [h|]]; reflexivity.
Qed.

Lemma setChartFilter_keeps_page e s :
  DataTable.currentPage (Dashboard.table (Dashboard.setChartFilter e s)) =
  DataTable.currentPage (Dashboard.table s).
Proof. unfold Dashboard.setChartFilter. simpl. apply syncChartFilters_keeps_page. Qed.

Lemma setDateRange_keeps_page r s :
  DataTable.currentPage (Dashboard.table (Dashboard.setDateRange r s)) =
  DataTable.currentPage (Dashboard.table s).
Proof. reflexivity. Qed.

Lemma paginatedData_at_most_50 sortedData s :
  (List.length (DataTable.paginatedData sortedData s) <= 50)%nat.
Proof.
  unfold DataTable.paginatedData, DataTable.slice, DataTable.ITEMS_PER_PAGE.
  rewrite length_firstn.
  replace (DataTable.currentPage s * 50 - (DataTable.currentPage s - 1) * 50) with 50 by lia.
  change (Z.to_nat 50) with 50%nat. lia.
Qed.

(** C7, on the second page.  A change of a shared chart filter or of the
    date range leaves the page index where it was, while a change in the
    table's own controls sets it to 1: after the chart filter Restaurant is
    picked on page 2 of sixty records, one record matches and the page that
    is shown, still page 2, is empty. *)
Theorem chart_filter_change_keeps_page :
  DataTable.ITEMS_PER_PAGE = 50 /\
  DataTable.currentPage (Dashboard.table onSecondPage) = 2 /\
  (let s' := Dashboard.setChartFilter
               (FilterContext.vertical_entry (Some Types.Restaurant)) onSecondPage in
   DataTable.currentPage (Dashboard.table s') = 2 /\
   Dashboard.rows sixtyRecords s' = [recordA] /\
   DataTable.paginatedData (Dashboard.rows sixtyRecords s') (Dashboard.table s') = []) /\
  (let s' := Dashboard.setDateRange rangeIn2025 onSecondPage in
   DataTable.currentPage (Dashboard.table s') = 2) /\
  (let s' := Dashboard.tableEvent 2 (DataTable.VerticalChange (Some Types.Restaurant))
               onSecondPage in
   DataTable.currentPage (Dashboard.table s') = 1).
Proof. repeat split. Qed.

(** ** Presets *)

Lemma toString_inj (a b : Z) : JsNumber.toString a = JsNumber.toString b -> a = b.
Proof.
  unfold JsNumber.toString, JsNumber.Z_to_string. intros H.
  apply DecimalZ.to_int_inj.
  assert (P : forall z, NilZero.int_of_string (NilZero.string_of_int (Z.to_int z))
                        = Some (Z.to_int z)).
  { intros z. apply NilZero.isi; destruct z; simpl; try discriminate;
      intros [= E]; exact (DecimalPos.Unsigned.to_uint_nonnil _ E). }
  pose proof (P a) as Pa. rewrite H, P in Pa. congruence.
Qed.

Lemma findPreset_none_iff i l :
  FilterContext.findPreset i l = None <-> ~ In i (map FilterContext.id l).
Proof.
  unfold FilterContext.findPreset. induction l as [|p l IH]; simpl.
  - tauto.
  - destruct (String.eqb_spec (FilterContext.id p) i) as [E|E].
    + split; [discriminate | intros H; exfalso; apply H; left; exact E].
    + rewrite IH. tauto.
Qed.

Lemma findPreset_app_fresh i l p :
  FilterContext.findPreset i l = None -> FilterContext.id p = i ->
  FilterContext.findPreset i (l ++ [p]) = Some p.
Proof.
  unfold FilterContext.findPreset. intros Hnone Hid.
  induction l as [|q l IH]; simpl in *.
  - rewrite Hid, String.eqb_refl. reflexivity.
  - destruct (String.eqb (FilterContext.id q) i); [discriminate | apply IH; exact Hnone].
Qed.

(** The mutations of the filters and of the date range leave the preset
    collection alone. *)
Lemma filter_mutations_keep_presets (between : list FilterContext.Action) :
  forall s, forallb FilterContext.isFilterMutation between = true ->
            FilterContext.presets (FilterContext.run s between) = FilterContext.presets s.
Proof.
  unfold FilterContext.run.
  induction between as [|a between IH]; intros s H; simpl in *; [reflexivity|].
  apply andb_true_iff in H as [Ha H].
  rewrite IH by exact H.
  destruct a; simpl in *; try discriminate; reflexivity.
Qed.

(** C5, as amended.  When no stored preset already has the id that
    [savePreset] generates (the decimal string of the clock reading), a later
    [loadPreset] with that id restores the chart filters and the date range
    of the moment of the save, whatever calls of [setChartFilter],
    [clearChartFilters] and [setDateRange] came in between. *)
Theorem savePreset_loadPreset_restores :
  forall (s : FilterContext.State) (now : Z) (name : string)
         (between : list FilterContext.Action),
    FilterContext.findPreset (JsNumber.toString now) (FilterContext.presets s) = None ->
    forallb FilterContext.isFilterMutation between = true ->
    let saved := FilterContext.savePreset now name s in
    let loaded :=
      FilterContext.loadPreset (JsNumber.toString now) (FilterContext.run saved between) in
    FilterContext.chartFilters loaded = FilterContext.chartFilters s /\
    FilterContext.currentDateRange loaded = FilterContext.currentDateRange s.
Proof.
  intros s now name between Hfresh Hmut saved loaded.
  assert (Hfind : FilterContext.findPreset (JsNumber.toString now)
                    (FilterContext.presets (FilterContext.run saved between))
                  = Some {| FilterContext.id := JsNumber.toString now;
                            FilterContext.name := name;
                            FilterContext.filters := FilterContext.chartFilters s;
                            FilterContext.dateRange := FilterContext.currentDateRange s |}).
  { rewrite (filter_mutations_keep_presets between saved Hmut).
    apply findPreset_app_fresh; [exact Hfresh | reflexivity]. }
  unfold loaded, FilterContext.loadPreset. rewrite Hfind.
  split; reflexivity.
Qed.

Lemma storeWithPresetAt1000_reachable : FilterContext.reachable storeWithPresetAt1000.
Proof. eexists. reflexivity. Qed.

(** Both saves at the reading 1000 go through the menu: its save button is
    enabled in the states in which they happen. *)
Lemma saves_at_1000_enabled :
  let s1 := FilterContext.setChartFilter
              (FilterContext.vertical_entry (Some Types.Fuel)) (FilterContext.init None) in
  FilterPresets.canSave s1 = true /\
  FilterPresets.canSave storeWithPresetAt1000 = true /\
  FilterPresets.handleSave 1000 "grocery"
    (FilterContext.setChartFilter (FilterContext.vertical_entry (Some Types.Grocery))
       (FilterPresets.handleSave 1000 "fuel" s1))
  = storeWithTwoPresetsAt1000.
Proof. repeat split. Qed.

(** C5 at a fresh clock reading. *)
Lemma savePreset_loadPreset_restores_witness :
  let saved := FilterContext.savePreset 2000 "grocery" storeWithPresetAt1000 in
  let loaded :=
    FilterContext.loadPreset "2000"
      (FilterContext.run saved [FilterContext.ClearChartFilters]) in
  FilterContext.chartFilters loaded = FilterContext.chartFilters storeWithPresetAt1000 /\
  FilterContext.currentDateRange loaded =
  FilterContext.currentDateRange storeWithPresetAt1000.
Proof.
  exact (savePreset_loadPreset_restores storeWithPresetAt1000 2000 "grocery"
           [FilterContext.ClearChartFilters] eq_refl eq_refl).
Defined.

(** C5 as stated fails: a second save at the clock reading of an earlier
    one creates a second preset with the same id, and [loadPreset] finds the
    earlier preset. *)
Lemma savePreset_loadPreset_same_reading :
  ~ (forall (s : FilterContext.State) (now : Z) (name : string)
            (between : list FilterContext.Action),
        FilterContext.reachable s ->
        forallb FilterContext.isFilterMutation between = true ->
        let saved := FilterContext.savePreset now name s in
        let loaded :=
          FilterContext.loadPreset (JsNumber.toString now)
                                   (FilterContext.run saved between) in
        FilterContext.chartFilters loaded = FilterContext.chartFilters s /\
        FilterContext.currentDateRange loaded = FilterContext.currentDateRange s).
Proof.
  intros H.
  destruct (H storeWithPresetAt1000 1000 "grocery" []
              storeWithPresetAt1000_reachable eq_refl) as [Hc _].
  vm_compute in Hc. discriminate.
Qed.

Lemma filter_id_absent i (l : list FilterContext.FilterPreset) :
  ~ In i (map FilterContext.id l) ->
  filter (fun p => negb (String.eqb (FilterContext.id p) i)) l = l.
Proof.
  induction l as [|p l IH]; simpl; intros H; [reflexivity|].
  destruct (String.eqb_spec (FilterContext.id p) i) as [E|E]; simpl.
  - exfalso. apply H. left. exact E.
  - rewrite IH; [reflexivity | tauto].
Qed.

(** Whatever the ids, [deletePreset] keeps exactly the presets with another
    id, in their order. *)
Lemma deletePreset_keeps_others i s :
  Subseq (FilterContext.presets (FilterContext.deletePreset i s)) (FilterContext.presets s) /\
  forall p, In p (FilterContext.presets (FilterContext.deletePreset i s)) <->
            In p (FilterContext.presets s) /\ FilterContext.id p <> i.
Proof.
  cbn [FilterContext.deletePreset FilterContext.presets]. split.
  - apply Subseq_filter.
  - intros p. rewrite filter_In, negb_true_iff.
    destruct (String.eqb_spec (FilterContext.id p) i); split; intros [H1 H2];
      split; congruence.
Qed.

(** Presets saved at distinct clock readings have distinct ids. *)
Lemma savePreset_distinct_readings now1 now2 n1 n2 s :
  now1 <> now2 ->
  let s' := FilterContext.savePreset now2 n2 (FilterContext.savePreset now1 n1 s) in
  forall p q, FilterContext.presets s' = FilterContext.presets s ++ [p; q] ->
              FilterContext.id p <> FilterContext.id q.
Proof.
  intros Hne s' p q. unfold s'. cbn [FilterContext.savePreset FilterContext.presets].
  rewrite <- app_assoc. intros H. apply app_inv_head in H.
  injection H as <- <-. cbn [FilterContext.id].
  intros E. apply toString_inj in E. contradiction.
Qed.

(** C6, as amended.  In a collection whose ids are pairwise distinct,
    [deletePreset] removes exactly one entry, the preset with the given id,
    and leaves the others in their order; without a preset of that id it
    changes nothing; the collection it leaves is the one it persists.  The id
    that [savePreset] gives a preset is the decimal string of the clock
    reading: the ids stay pairwise distinct when that string is not yet an
    id of the collection. *)
Theorem deletePreset_removes_the_preset :
  forall (s : FilterContext.State) (i : string) (now : Z) (name : string),
    NoDup (ids s) ->
    ~ In (JsNumber.toString now) (ids s) ->
    let after := FilterContext.presets (FilterContext.deletePreset i s) in
    match FilterContext.findPreset i (FilterContext.presets s) with
    | Some p =>
        FilterContext.id p = i /\
        exists before behind,
          FilterContext.presets s = before ++ p :: behind /\
          after = before ++ behind /\
          S (List.length after) = List.length (FilterContext.presets s)
    | None => after = FilterContext.presets s
    end /\
    FilterContext.storage (FilterContext.deletePreset i s) = Some after /\
    ids (FilterContext.savePreset now name s) = ids s ++ [JsNumber.toString now] /\
    NoDup (ids (FilterContext.savePreset now name s)).
Proof.
  intros s i now name Hnd Hfresh after. split; [|split; [|split]].
  - destruct (FilterContext.findPreset i (FilterContext.presets s)) as [p|] eqn:Hfind.
    + unfold after. cbn [FilterContext.deletePreset FilterContext.presets].
      unfold ids in Hnd. clear Hfresh after.
      unfold FilterContext.findPreset in Hfind.
      induction (FilterContext.presets s) as [|q l IH]; [discriminate|].
      simpl in Hfind. inversion Hnd as [|? ? Hnot Hnd']; subst.
      cbn [filter].
      destruct (String.eqb_spec (FilterContext.id q) i) as [E|E].
      * injection Hfind as <-. split; [exact E|].
        exists [], l. cbn [negb app].
        rewrite filter_id_absent by (rewrite <- E; exact Hnot).
        repeat split.
      * destruct (IH Hnd' Hfind) as (Hid & before & behind & Hl & Hdel & Hlen).
        split; [exact Hid|].
        exists (q :: before), behind. cbn [negb app List.length].
        rewrite Hdel, Hl in *. repeat split.
        rewrite !length_app in *. cbn [List.length] in *. lia.
    + unfold after. cbn [FilterContext.deletePreset FilterContext.presets].
      apply filter_id_absent. apply findPreset_none_iff. exact Hfind.
  - reflexivity.
  - unfold ids. cbn [FilterContext.savePreset FilterContext.presets].
    rewrite map_app. reflexivity.
  - unfold ids in *. cbn [FilterContext.savePreset FilterContext.presets].
    rewrite map_app. cbn [map FilterContext.id].
    apply NoDup_app; [exact Hnd | repeat constructor; intros [] |].
    intros a Ha [<-|[]]. contradiction.
Qed.

(** C6 on the store with the preset saved at 1000, and a save at 2000. *)
Lemma deletePreset_removes_the_preset_witness :
  FilterContext.presets (FilterContext.deletePreset "1000" storeWithPresetAt1000) = [] /\
  NoDup (ids (FilterContext.savePreset 2000 "grocery" storeWithPresetAt1000)).
Proof.
  destruct (deletePreset_removes_the_preset storeWithPresetAt1000 "1000" 2000 "grocery")
    as (Hdel & _ & _ & Hnd).
  - repeat constructor. intros [].
  - intros [E|[]]. discriminate E.
  - split; [|exact Hnd].
    cbn in Hdel. destruct Hdel as (_ & before & behind & _ & Hafter & _).
    reflexivity.
Defined.

(** C6 as stated fails: the ids are clock readings, two saves at one
    reading give two presets the same id, and [deletePreset] removes both. *)
Lemma deletePreset_same_reading :
  ~ (forall (s : FilterContext.State) (i : string),
        FilterContext.reachable s ->
        In i (ids s) ->
        S (List.length (FilterContext.presets (FilterContext.deletePreset i s))) =
        List.length (FilterContext.presets s)).
Proof.
  intros H.
  assert (Hr : FilterContext.reachable storeWithTwoPresetsAt1000)
    by (eexists; reflexivity).
  specialize (H storeWithTwoPresetsAt1000 "1000" Hr (or_introl eq_refl)).
  vm_compute in H. discriminate.
Qed.

(** ** The date range *)

(** The four views apply the same date predicate. *)
Lemma views_share_date_predicate dr (data : list Types.ServiceRequest) :
  Charts.filteredData data dr = filter (passesDateRange dr) data /\
  KPICards.filteredData data dr = filter (passesDateRange dr) data /\
  App.filteredData data FilterContext.defaultChartFilters dr = filter (passesDateRange dr) data /\
  DataTable.filteredData data DataTable.init FilterContext.defaultChartFilters dr
  = filter (passesDateRange dr) data.
Proof.
  repeat split.
  - unfold Charts.filteredData. apply (date_stage dr data).
  - unfold KPICards.filteredData. rewrite <- (date_stage dr data).
    fold (withinBounds dr).
    generalize (filter (withinBounds dr) data). intros kept.
    destruct (FilterContext.Preset_beq _ _), (FilterContext.isSome (FilterContext.start dr)),
      (FilterContext.isSome (FilterContext.end_ dr)); reflexivity.
  - rewrite App_filteredData_filter. apply filter_ext. intros d.
    rewrite chartMatch_default. apply andb_true_r.
  - unfold DataTable.filteredData. apply filter_ext. intros d.
    unfold DataTable.keep, passesDateRange, withinBounds. cbv zeta.
    destruct (negb _ && _); [|reflexivity].
    destruct (FilterContext.isSome (FilterContext.start dr) && _); [reflexivity|].
    destruct (FilterContext.isSome (FilterContext.end_ dr) && _); reflexivity.
Qed.

Lemma Preset_beq_all_iff p : FilterContext.Preset_beq p FilterContext.all = true <-> p = FilterContext.all.
Proof. destruct p; simpl; split; congruence. Qed.

(** On time values: a record whose date parses passes exactly when the
    preset is [all] or its time value lies between the bounds that are not
    null. *)
Lemma passesDateRange_iff dr d t :
  JsDate.parse (Types.requestDate d) = Some t ->
  passesDateRange dr d = true <->
  FilterContext.preset dr = FilterContext.all \/
  ((forall s, FilterContext.start dr = Some s -> s <= t) /\
   (forall e, FilterContext.end_ dr = Some e -> t <= e)).
Proof.
  intros Hparse. unfold passesDateRange, withinBounds. rewrite Hparse.
  destruct dr as [[s|] [e|] p]; cbn [FilterContext.start FilterContext.end_
    FilterContext.preset FilterContext.isSome JsDate.lt JsDate.gt orb andb].
  all: destruct (FilterContext.Preset_beq p FilterContext.all) eqn:Ep; cbn [negb andb].
  all: try (apply Preset_beq_all_iff in Ep; split; [intros _; left; exact Ep | reflexivity]).
  all: assert (Hp : p <> FilterContext.all)
         by (intros ->; simpl in Ep; discriminate).
  - destruct (Z.ltb_spec t s); [|destruct (Z.ltb_spec e t)].
    + split; [discriminate|]. intros [?|[Hs _]]; [contradiction|].
      specialize (Hs s eq_refl). lia.
    + split; [discriminate|]. intros [?|[_ He]]; [contradiction|].
      specialize (He e eq_refl). lia.
    + split; [|reflexivity]. intros _. right.
      split; intros ? [= <-]; lia.
  - destruct (Z.ltb_spec t s).
    + split; [discriminate|]. intros [?|[Hs _]]; [contradiction|].
      specialize (Hs s eq_refl). lia.
    + split; [|reflexivity]. intros _. right.
      split; [intros ? [= <-]; lia | discriminate].
  - destruct (Z.ltb_spec e t).
    + split; [discriminate|]. intros [?|[_ He]]; [contradiction|].
      specialize (He e eq_refl). lia.
    + split; [|reflexivity]. intros _. right.
      split; [discriminate | intros ? [= <-]; lia].
  - split; [|reflexivity]. intros _. right. split; discriminate.
Qed.

Lemma Day_midnight n : JsDate.Day (n * JsDate.msPerDay) = n.
Proof. unfold JsDate.Day. apply Z.div_mul. discriminate. Qed.

Lemma TimeWithinDay_midnight n : JsDate.TimeWithinDay (n * JsDate.msPerDay) = 0.
Proof. unfold JsDate.TimeWithinDay. apply Z.mod_mul. discriminate. Qed.

Lemma LocalTime_UTC tz t : JsDate.LocalTime tz (JsDate.UTC tz t) = t.
Proof. unfold JsDate.LocalTime, JsDate.UTC. lia. Qed.

(** Preset bounds are local midnights, record dates are UTC midnights: the
    comparison of time values is a comparison of calendar days in UTC, leaves
    out the last day east of UTC and the first day west of it. *)
Lemma midnight_bounds_by_zone tz p ns ne nr d :
  p <> FilterContext.all ->
  JsDate.parse (Types.requestDate d) = Some (nr * JsDate.msPerDay) ->
  let dr := {| FilterContext.start := Some (localMidnight tz ns);
               FilterContext.end_ := Some (localMidnight tz ne);
               FilterContext.preset := p |} in
  (tz = 0 -> (passesDateRange dr d = true <-> ns <= nr <= ne)) /\
  (0 < tz < JsDate.msPerDay -> (passesDateRange dr d = true <-> ns <= nr < ne)) /\
  (- JsDate.msPerDay < tz < 0 -> (passesDateRange dr d = true <-> ns < nr <= ne)).
Proof.
  intros Hp Hparse dr.
  pose proof (passesDateRange_iff dr d _ Hparse) as Hiff.
  assert (E : passesDateRange dr d = true <->
              localMidnight tz ns <= nr * JsDate.msPerDay /\
              nr * JsDate.msPerDay <= localMidnight tz ne).
  { rewrite Hiff. unfold dr. cbn [FilterContext.start FilterContext.end_ FilterContext.preset].
    split.
    - intros [?|[Hs He]]; [contradiction|]. split; [apply Hs | apply He]; reflexivity.
    - intros [Hs He]. right. split; intros ? [= <-]; assumption. }
  unfold localMidnight, JsDate.UTC, JsDate.msPerDay in *.
  repeat split; intros; try (apply E); try (apply E in H0); lia.
Qed.

Lemma last7_bounds tz now n :
  JsDate.Day (JsDate.LocalTime tz now) = n ->
  DateRangePicker.getPresetDates tz now FilterContext.last7 =
  (let '(y, m, d) := JsDate.civil_from_days n in
   let today := JsDate.newDate tz y (m - 1) d in
   (Some (JsDate.setDate tz today (JsDate.getDate tz today - 7)), Some today)).
Proof.
  intros H. destruct (JsDate.civil_from_days n) as [[y m] d] eqn:E.
  assert (Hy : JsDate.getFullYear tz now = y)
    by (unfold JsDate.getFullYear; rewrite H, E; reflexivity).
  assert (Hm : JsDate.getMonth tz now = m - 1)
    by (unfold JsDate.getMonth; rewrite H, E; reflexivity).
  assert (Hd : JsDate.getDate tz now = d)
    by (unfold JsDate.getDate; rewrite H, E; reflexivity).
  unfold DateRangePicker.getPresetDates. rewrite Hy, Hm, Hd. reflexivity.
Qed.

(** The example: "Last 7 days" picked on 2024-03-10 local time, in any zone
    within 14 hours of UTC, gives the local midnights of 2024-03-03 and
    2024-03-10 as bounds, leaves out a record dated 2024-03-02 and keeps one
    dated 2024-03-05. *)
Lemma last7_on_2024_03_10 tz now s :
  JsDate.Day (JsDate.LocalTime tz now) = 19792 ->
  -50400000 <= tz <= 50400000 ->
  let dr := FilterContext.currentDateRange
              (DateRangePicker.handlePresetSelect tz now FilterContext.last7 s) in
  dr = {| FilterContext.start := Some (localMidnight tz 19785);
          FilterContext.end_ := Some (localMidnight tz 19792);
          FilterContext.preset := FilterContext.last7 |} /\
  JsDate.toISODate (19785 * JsDate.msPerDay) = "2024-03-03" /\
  JsDate.toISODate (19792 * JsDate.msPerDay) = "2024-03-10" /\
  passesDateRange dr (sampleRequest "2024-03-02" 1 1) = false /\
  passesDateRange dr (sampleRequest "2024-03-05" 1 1) = true.
Proof.
  intros Hday Htz dr.
  assert (Hdr : dr = {| FilterContext.start := Some (localMidnight tz 19785);
                        FilterContext.end_ := Some (localMidnight tz 19792);
                        FilterContext.preset := FilterContext.last7 |}).
  { unfold dr, DateRangePicker.handlePresetSelect.
    cbn [FilterContext.setDateRange FilterContext.currentDateRange].
    rewrite (last7_bounds tz now 19792 Hday).
    replace (JsDate.civil_from_days 19792) with (2024, 3, 10) by reflexivity.
    cbv zeta iota beta.
    assert (Htoday : JsDate.newDate tz 2024 (3 - 1) 10 = localMidnight tz 19792)
      by reflexivity.
    rewrite Htoday. cbn [fst snd]. f_equal. f_equal.
    unfold JsDate.setDate, JsDate.getDate, JsDate.getFullYear, JsDate.getMonth.
    unfold localMidnight. rewrite !LocalTime_UTC, Day_midnight, TimeWithinDay_midnight.
    replace (JsDate.civil_from_days 19792) with (2024, 3, 10) by reflexivity.
    cbv iota beta. f_equal. }
  split; [exact Hdr|]. split; [reflexivity|]. split; [reflexivity|].
  rewrite Hdr. unfold passesDateRange, withinBounds.
  cbn [FilterContext.start FilterContext.end_ FilterContext.preset FilterContext.isSome
       FilterContext.Preset_beq negb andb orb sampleRequest Types.requestDate].
  replace (JsDate.parse "2024-03-02") with (Some (19784 * JsDate.msPerDay)) by reflexivity.
  replace (JsDate.parse "2024-03-05") with (Some (19787 * JsDate.msPerDay)) by reflexivity.
  unfold JsDate.lt, JsDate.gt, JsDate.lt, localMidnight, JsDate.UTC, JsDate.msPerDay.
  split.
  - destruct (Z.ltb_spec (19784 * 86400000) (19785 * 86400000 - tz)); [reflexivity | lia].
  - destruct (Z.ltb_spec (19787 * 86400000) (19785 * 86400000 - tz)); [lia|].
    destruct (Z.ltb_spec (19792 * 86400000 - tz) (19787 * 86400000)); [lia | reflexivity].
Qed.

(** C9, off UTC.  Two hours east of UTC, "Last 7 days" picked on 2024-03-10
    ends on 2024-03-10, yet a record dated 2024-03-10 does not pass the
    filter of the table or of the export view; five hours west of UTC the
    range starts on 2024-03-03, yet a record dated 2024-03-03 does not pass.
    In UTC both records pass. *)
Theorem last7_leaves_out_a_boundary_day :
  (let tz := 7200000 in
   let r := sampleRequest "2024-03-10" 1 1 in
   localDay tz (FilterContext.start (last7At tz)) = Some "2024-03-03" /\
   localDay tz (FilterContext.end_ (last7At tz)) = Some "2024-03-10" /\
   passesDateRange (last7At tz) r = false /\
   DataTable.filteredData [r] DataTable.init FilterContext.defaultChartFilters (last7At tz) = [] /\
   App.filteredData [r] FilterContext.defaultChartFilters (last7At tz) = []) /\
  (let tz := -18000000 in
   let r := sampleRequest "2024-03-03" 1 1 in
   localDay tz (FilterContext.start (last7At tz)) = Some "2024-03-03" /\
   localDay tz (FilterContext.end_ (last7At tz)) = Some "2024-03-10" /\
   passesDateRange (last7At tz) r = false /\
   DataTable.filteredData [r] DataTable.init FilterContext.defaultChartFilters (last7At tz) = [] /\
   App.filteredData [r] FilterContext.defaultChartFilters (last7At tz) = []) /\
  (passesDateRange (last7At 0) (sampleRequest "2024-03-10" 1 1) = true /\
   passesDateRange (last7At 0) (sampleRequest "2024-03-03" 1 1) = true).
Proof. repeat split; vm_compute; reflexivity. Qed.

(* ================================================================== *)
(** * Further properties of the code *)

(** ** The preset store *)

Lemma step_persisted s a : persisted s -> persisted (FilterContext.step s a).
Proof.
  unfold persisted. destruct a; simpl; auto.
  unfold FilterContext.loadPreset.
  destruct (FilterContext.findPreset i (FilterContext.presets s)); simpl; auto.
Qed.

(** X1 ([FilterProvider], [savePreset], [deletePreset]): whatever was stored
    when the provider mounted and whatever sequence of store operations
    follows, the collection written under the key [filterPresets] is the
    collection in memory. *)
Theorem presets_always_persisted :
  forall (saved : option (list FilterContext.FilterPreset))
         (actions : list FilterContext.Action),
    persisted (FilterContext.run (FilterContext.init saved) actions).
Proof.
  intros saved actions. unfold FilterContext.run.
  assert (H : persisted (FilterContext.init saved)) by (destruct saved; reflexivity).
  revert H. generalize (FilterContext.init saved).
  induction actions as [|a l IH]; intros s H; simpl; auto.
  apply IH, step_persisted, H.
Qed.

(** X2 ([deletePreset], [loadPreset]): after [deletePreset(id)] a call of
    [loadPreset(id)] changes nothing, also when several presets had the id;
    deleting leaves the chart filters and the date range alone, and deleting
    the same id again changes nothing. *)
Theorem loadPreset_after_deletePreset :
  forall (s : FilterContext.State) (i : string),
    FilterContext.loadPreset i (FilterContext.deletePreset i s) =
    FilterContext.deletePreset i s /\
    FilterContext.chartFilters (FilterContext.deletePreset i s) =
    FilterContext.chartFilters s /\
    FilterContext.currentDateRange (FilterContext.deletePreset i s) =
    FilterContext.currentDateRange s /\
    FilterContext.deletePreset i (FilterContext.deletePreset i s) =
    FilterContext.deletePreset i s.
Proof.
  intros s i. split; [|split; [reflexivity|split; [reflexivity|]]].
  - unfold FilterContext.loadPreset.
    assert (H : FilterContext.findPreset i
                  (FilterContext.presets (FilterContext.deletePreset i s)) = None).
    { apply findPreset_none_iff. simpl. intros Hin.
      apply in_map_iff in Hin. destruct Hin as [p [Hp Hin]].
      apply filter_In in Hin. destruct Hin as [_ Hneq].
      rewrite Hp, String.eqb_refl in Hneq. discriminate. }
    rewrite H. reflexivity.
  - unfold FilterContext.deletePreset.
    cbn [FilterContext.presets FilterContext.chartFilters FilterContext.currentDateRange].
    rewrite filter_filter.
    rewrite (filter_ext _ (fun p => negb (String.eqb (FilterContext.id p) i)))
      by (intros p; apply andb_diag).
    reflexivity.
Qed.

(** ** Clicks on the charts *)

Lemma sync_vertical cf t v :
  FilterContext.vertical cf = Some v ->
  DataTable.verticalFilter (DataTable.syncChartFilters cf t) = Some v.
Proof.
  intros H. unfold DataTable.syncChartFilters. rewrite H.
  destruct (FilterContext.status cf), (FilterContext.issueCategory cf),
    (FilterContext.accountHealth cf); reflexivity.
Qed.

Lemma sync_vertical_none cf t :
  FilterContext.vertical cf = None ->
  DataTable.verticalFilter (DataTable.syncChartFilters cf t) = DataTable.verticalFilter t.
Proof.
  intros H. unfold DataTable.syncChartFilters. rewrite H.
  destruct (FilterContext.status cf), (FilterContext.issueCategory cf),
    (FilterContext.accountHealth cf); reflexivity.
Qed.

Lemma keep_verticalFilter t cf dr d v :
  DataTable.verticalFilter t = Some v ->
  DataTable.keep t cf dr d = true -> Types.vertical d = v.
Proof.
  intros Hv H. unfold DataTable.keep in H. rewrite Hv in H.
  match type of H with (if ?c then _ else _) = true => destruct c; [discriminate|] end.
  cbv zeta in H.
  repeat (apply andb_prop in H; destruct H as [H ?]).
  match goal with
  | K : DataTable.matches Types.Vertical_beq _ (Some v) = true |- _ =>
      simpl in K; apply Vertical_beq_iff in K; exact K
  end.
Qed.

Lemma selected_vertical_iff o (name : Types.Vertical) :
  Charts.selected Types.Vertical_beq o name = true <-> o = Some name.
Proof.
  destruct o as [v|]; simpl; [|split; discriminate].
  rewrite Vertical_beq_iff. split; congruence.
Qed.

Lemma vertical_click_selects s name :
  FilterContext.vertical (chartFiltersOf s) <> Some name ->
  Dashboard.handleVerticalClick (Some name) s =
  Dashboard.setChartFilter (FilterContext.vertical_entry (Some name)) s.
Proof.
  intros Hne. unfold Dashboard.handleVerticalClick, Charts.handleVerticalClick.
  destruct (Charts.selected _ _ _) eqn:E; [|reflexivity].
  apply selected_vertical_iff in E. contradiction.
Qed.

Lemma vertical_click_clears s name :
  FilterContext.vertical (chartFiltersOf s) = Some name ->
  Dashboard.handleVerticalClick (Some name) s =
  Dashboard.setChartFilter (FilterContext.vertical_entry None) s.
Proof.
  intros He. unfold Dashboard.handleVerticalClick, Charts.handleVerticalClick.
  unfold chartFiltersOf in He. rewrite He.
  replace (Charts.selected Types.Vertical_beq (Some name) name) with true
    by (symmetry; apply selected_vertical_iff; reflexivity).
  reflexivity.
Qed.

(** X3 ([handleVerticalClick], [handleStatusClick], [handleCategoryClick],
    [handleHealthClick]): two clicks on the same segment leave its dimension
    as it was when that segment or none was selected, and leave it cleared
    when another segment was selected; the other three dimensions are never
    touched, and an entry without a name is ignored. *)
Theorem chart_click_twice :
  forall (s : Dashboard.State) (v : Types.Vertical) (st : Types.Status)
         (c : Types.IssueCategory) (h : Types.AccountHealth),
    let F := chartFiltersOf s in
    chartFiltersOf (Dashboard.handleVerticalClick (Some v)
                      (Dashboard.handleVerticalClick (Some v) s)) =
    {| FilterContext.vertical :=
         if Charts.selected Types.Vertical_beq (FilterContext.vertical F) v
         then Some v else None;
       FilterContext.status := FilterContext.status F;
       FilterContext.issueCategory := FilterContext.issueCategory F;
       FilterContext.accountHealth := FilterContext.accountHealth F |} /\
    chartFiltersOf (Dashboard.handleStatusClick (Some st)
                      (Dashboard.handleStatusClick (Some st) s)) =
    {| FilterContext.vertical := FilterContext.vertical F;
       FilterContext.status :=
         if Charts.selected Types.Status_beq (FilterContext.status F) st
         then Some st else None;
       FilterContext.issueCategory := FilterContext.issueCategory F;
       FilterContext.accountHealth := FilterContext.accountHealth F |} /\
    chartFiltersOf (Dashboard.handleCategoryClick (Some c)
                      (Dashboard.handleCategoryClick (Some c) s)) =
    {| FilterContext.vertical := FilterContext.vertical F;
       FilterContext.status := FilterContext.status F;
       FilterContext.issueCategory :=
         if Charts.selected Types.IssueCategory_beq (FilterContext.issueCategory F) c
         then Some c else None;
       FilterContext.accountHealth := FilterContext.accountHealth F |} /\
    chartFiltersOf (Dashboard.handleHealthClick (Some h)
                      (Dashboard.handleHealthClick (Some h) s)) =
    {| FilterContext.vertical := FilterContext.vertical F;
       FilterContext.status := FilterContext.status F;
       FilterContext.issueCategory := FilterContext.issueCategory F;
       FilterContext.accountHealth :=
         if Charts.selected Types.AccountHealth_beq (FilterContext.accountHealth F) h
         then Some h else None |} /\
    Dashboard.handleVerticalClick None s = s /\ Dashboard.handleStatusClick None s = s /\
    Dashboard.handleCategoryClick None s = s /\ Dashboard.handleHealthClick None s = s.
Proof.
  intros [[[v0 s0 c0 h0] dr ps sto] t] v st c h F. unfold F, chartFiltersOf.
  repeat split.
  - destruct v0 as [[]|], v; reflexivity.
  - destruct s0 as [[]|], st; reflexivity.
  - destruct c0 as [[]|], c; reflexivity.
  - destruct h0 as [[]|], h; reflexivity.
Qed.

(** X4 ([handleVerticalClick] and the effect of the table that copies the
    chart filters): a click on a segment that is not the selected one selects
    it; a second click on it clears the chart filter, but the column filter
    of the table, which the effect set after the first click, stays, so the
    table still shows that vertical only. *)
Theorem chart_click_leaves_column_filter :
  forall (s : Dashboard.State) (name : Types.Vertical) (data : list Types.ServiceRequest),
    FilterContext.vertical (chartFiltersOf s) <> Some name ->
    let s1 := Dashboard.handleVerticalClick (Some name) s in
    let s2 := Dashboard.handleVerticalClick (Some name) s1 in
    FilterContext.vertical (chartFiltersOf s1) = Some name /\
    FilterContext.vertical (chartFiltersOf s2) = None /\
    DataTable.verticalFilter (Dashboard.table s2) = Some name /\
    Forall (fun d => Types.vertical d = name) (Dashboard.rows data s2).
Proof.
  intros s name data Hne s1 s2.
  assert (H1 : s1 = Dashboard.setChartFilter (FilterContext.vertical_entry (Some name)) s)
    by (apply vertical_click_selects; exact Hne).
  assert (Hv1 : FilterContext.vertical (chartFiltersOf s1) = Some name)
    by (rewrite H1; reflexivity).
  assert (Ht1 : DataTable.verticalFilter (Dashboard.table s1) = Some name).
  { rewrite H1. unfold Dashboard.setChartFilter. cbn [Dashboard.table].
    apply sync_vertical. reflexivity. }
  assert (H2 : s2 = Dashboard.setChartFilter (FilterContext.vertical_entry None) s1)
    by (apply vertical_click_clears; exact Hv1).
  assert (Ht2 : DataTable.verticalFilter (Dashboard.table s2) = Some name).
  { rewrite H2. unfold Dashboard.setChartFilter. cbn [Dashboard.table].
    rewrite sync_vertical_none by reflexivity. exact Ht1. }
  split; [exact Hv1|]. split; [rewrite H2; reflexivity|]. split; [exact Ht2|].
  apply Forall_forall. intros d Hd. unfold Dashboard.rows, DataTable.filteredData in Hd.
  apply filter_In in Hd. destruct Hd as [_ Hk].
  eapply keep_verticalFilter; eauto.
Qed.

Lemma chart_click_leaves_column_filter_witness :
  let s2 := Dashboard.handleVerticalClick (Some Types.Fuel)
              (Dashboard.handleVerticalClick (Some Types.Fuel) initialDashboard) in
  chartFiltersOf s2 = FilterContext.defaultChartFilters /\
  Dashboard.rows [recordA; recordB] s2 = [recordB] /\
  Forall (fun d => Types.vertical d = Types.Fuel) (Dashboard.rows [recordA; recordB] s2).
Proof.
  split; [reflexivity|]. split; [reflexivity|].
  apply (chart_click_leaves_column_filter initialDashboard Types.Fuel [recordA; recordB]).
  simpl. discriminate.
Defined.

Lemma filter_none {A} (p : A -> bool) (l : list A) :
  (forall x, In x l -> p x = false) -> filter p l = [].
Proof.
  induction l as [|x l IH]; intros H; [reflexivity|].
  simpl. rewrite (H x (or_introl eq_refl)). apply IH.
  intros y Hy. apply H. right. exact Hy.
Qed.

(** X5 ([handleVerticalClick], the column select of the table,
    [filteredData] of the table): the chart filter does not override the
    column filter, both apply; after a click on the segment [a] and a
    change of the column select to another vertical [b] the table is
    empty. *)
Theorem column_filter_against_chart_filter :
  forall (s : Dashboard.State) (a b : Types.Vertical) (pages : Z)
         (data : list Types.ServiceRequest),
    a <> b ->
    FilterContext.vertical (chartFiltersOf s) <> Some a ->
    let s1 := Dashboard.handleVerticalClick (Some a) s in
    let s2 := Dashboard.tableEvent pages (DataTable.VerticalChange (Some b)) s1 in
    FilterContext.vertical (chartFiltersOf s2) = Some a /\
    DataTable.verticalFilter (Dashboard.table s2) = Some b /\
    Dashboard.rows data s2 = [].
Proof.
  intros s a b pages data Hab Hne s1 s2.
  assert (H1 : s1 = Dashboard.setChartFilter (FilterContext.vertical_entry (Some a)) s)
    by (apply vertical_click_selects; exact Hne).
  assert (Hcf : FilterContext.vertical (chartFiltersOf s2) = Some a)
    by (unfold s2; rewrite H1; reflexivity).
  assert (Hlocal : DataTable.verticalFilter (Dashboard.table s2) = Some b) by reflexivity.
  split; [exact Hcf|]. split; [exact Hlocal|].
  unfold Dashboard.rows, DataTable.filteredData.
  apply filter_none. intros d _.
  destruct (DataTable.keep _ _ _ d) eqn:E; [|reflexivity].
  exfalso. pose proof (keep_verticalFilter _ _ _ _ _ Hlocal E) as Hd.
  rewrite DataTable_keep_chart in E. apply andb_prop in E. destruct E as [_ E].
  apply chartMatch_iff in E. destruct E as [E _]. specialize (E _ Hcf). congruence.
Qed.

Lemma column_filter_against_chart_filter_witness :
  Dashboard.rows [recordA; recordB]
    (Dashboard.tableEvent 1 (DataTable.VerticalChange (Some Types.Restaurant))
       (Dashboard.handleVerticalClick (Some Types.Fuel) initialDashboard)) = [].
Proof.
  apply (column_filter_against_chart_filter initialDashboard Types.Fuel Types.Restaurant 1
           [recordA; recordB]).
  - discriminate.
  - simpl. discriminate.
Defined.

(** ** The views of the filtered records *)

Lemma keep_implies_date s dr d :
  DataTable.keep s FilterContext.defaultChartFilters dr d = true -> passesDateRange dr d = true.
Proof.
  unfold DataTable.keep, passesDateRange, withinBounds.
  destruct (negb _ && _); [|reflexivity].
  destruct (FilterContext.isSome (FilterContext.start dr) && _); [discriminate|].
  destruct (FilterContext.isSome (FilterContext.end_ dr) && _); [discriminate|reflexivity].
Qed.

(** X6 ([DashboardContent.filteredData], [DataTable.filteredData],
    [Charts.filteredData], [KPICards.filteredData]): the records that are
    exported are those of the table in its initial state; under any search
    term and column filters the rows of the table are among the exported
    records, in their order; the charts and the KPI cards select the exported
    records of an empty chart selection. *)
Theorem export_view_and_table :
  forall (R : list Types.ServiceRequest) (F : FilterContext.ChartFilters)
         (dr : FilterContext.DateRange) (s : DataTable.State),
    DataTable.filteredData R DataTable.init F dr = App.filteredData R F dr /\
    Subseq (DataTable.filteredData R s F dr) (App.filteredData R F dr) /\
    Charts.filteredData R dr = App.filteredData R FilterContext.defaultChartFilters dr /\
    KPICards.filteredData R dr = App.filteredData R FilterContext.defaultChartFilters dr.
Proof.
  intros R F dr s.
  rewrite !App_filteredData_filter, !DataTable_filteredData_filter.
  split; [|split; [|split]].
  - apply filter_ext. intros d. rewrite keep_init_default. reflexivity.
  - assert (E : filter (fun d => DataTable.keep s FilterContext.defaultChartFilters dr d
                                 && chartMatch F d) R
                = filter (fun d => DataTable.keep s FilterContext.defaultChartFilters dr d
                                   && chartMatch F d)
                         (filter (fun d => passesDateRange dr d && chartMatch F d) R)).
    { rewrite filter_filter. apply filter_ext. intros d.
      destruct (DataTable.keep _ _ _ d) eqn:K; simpl.
      - rewrite (keep_implies_date _ _ _ K). simpl.
        destruct (chartMatch F d); reflexivity.
      - rewrite andb_false_r. reflexivity. }
    rewrite E. apply Subseq_filter.
  - unfold Charts.filteredData. fold (withinBounds dr). rewrite date_stage.
    apply filter_ext. intros d. rewrite chartMatch_default, andb_true_r. reflexivity.
  - unfold KPICards.filteredData.
    transitivity (filter (passesDateRange dr) R).
    + unfold passesDateRange. fold (withinBounds dr).
      destruct (FilterContext.Preset_beq (FilterContext.preset dr) FilterContext.all); simpl.
      * symmetry. apply filter_true.
      * destruct (FilterContext.isSome (FilterContext.start dr)),
               (FilterContext.isSome (FilterContext.end_ dr)); simpl;
          try reflexivity. symmetry. apply filter_true.
    + apply filter_ext. intros d. rewrite chartMatch_default, andb_true_r. reflexivity.
Qed.

(** KPI counts *)
Lemma status_partition (l : list Types.ServiceRequest) :
  (List.length (filter (fun d => Types.Status_beq (Types.status d) Types.Resolved) l)
   + List.length (filter (fun d => Types.Status_beq (Types.status d) Types.InProgress) l)
   = List.length l)%nat.
Proof.
  induction l as [|d l IH]; [reflexivity|].
  simpl. destruct (Types.status d); simpl; lia.
Qed.

Lemma filter_length_le' {A} (p : A -> bool) l : (List.length (filter p l) <= List.length l)%nat.
Proof. apply Subseq_length, Subseq_filter. Qed.

(** X7 ([KPICards]: [resolvedCount], [inProgressCount], [totalRequests],
    [churnRiskCount], [slaBreachCount]): the counts of the cards Resolved and
    In Progress add up to Total Requests, and the churn-risk and breach counts
    are counts of at most that many records. *)
Theorem status_counts_add_up :
  forall (filteredData : list Types.ServiceRequest) (th : SLAContext.SLAThresholds),
    JsNumber.strict_eq
      (JsNumber.add (KPICards.resolvedCount filteredData)
                    (KPICards.inProgressCount filteredData))
      (KPICards.totalRequests filteredData) = true /\
    (exists n, KPICards.churnRiskCount filteredData = JsNumber.of_count n /\
               (n <= List.length filteredData)%nat) /\
    (exists n, KPICards.slaBreachCount filteredData th = JsNumber.of_count n /\
               (n <= List.length filteredData)%nat).
Proof.
  intros l th. split; [|split].
  - unfold KPICards.resolvedCount, KPICards.inProgressCount, KPICards.totalRequests,
      KPICards.countWhere, JsNumber.of_count, JsNumber.of_nat.
    cbn [JsNumber.add JsNumber.strict_eq]. unfold JsNumber.eq.
    apply Qeq_bool_iff. rewrite <- inject_Z_plus, <- Nat2Z.inj_add, status_partition.
    reflexivity.
  - eexists. split; [reflexivity|]. apply filter_length_le'.
  - eexists. split; [reflexivity|]. apply filter_length_le'.
Qed.

(** ** Breach counts and the previous period *)

(** X8 ([getBreachCount], [isBreachingSLA]): raising the thresholds never
    flags more records: the records in breach of the higher thresholds are
    among those in breach of the lower ones; the count is at most the number
    of records and is additive over concatenation. *)
Theorem getBreachCount_antitone :
  forall (th th' : SLAContext.SLAThresholds) (data more : list Types.ServiceRequest),
    relaxes th th' ->
    Subseq (filter (SLAContext.isBreachingSLA th') data)
           (filter (SLAContext.isBreachingSLA th) data) /\
    (SLAContext.getBreachCount th' data <= SLAContext.getBreachCount th data)%nat /\
    (SLAContext.getBreachCount th data <= List.length data)%nat /\
    SLAContext.getBreachCount th (data ++ more) =
    (SLAContext.getBreachCount th data + SLAContext.getBreachCount th more)%nat.
Proof.
  intros th th' data more [H1 H2].
  assert (S : Subseq (filter (SLAContext.isBreachingSLA th') data)
                     (filter (SLAContext.isBreachingSLA th) data)).
  { apply Subseq_filter_weaker. intros r Hr.
    apply isBreachingSLA_iff in Hr. apply isBreachingSLA_iff.
    destruct Hr as [Hr|Hr]; [left|right].
    - eapply Qle_lt_trans; eauto.
    - eapply Qle_lt_trans; eauto. }
  split; [exact S|]. split; [apply Subseq_length, S|]. split.
  - apply Subseq_length, Subseq_filter.
  - unfold SLAContext.getBreachCount. rewrite filter_app, length_app. reflexivity.
Qed.

Lemma getBreachCount_antitone_witness :
  (SLAContext.getBreachCount
     {| SLAContext.responseTimeHours := 24; SLAContext.resolutionTimeHours := 72 |}
     [recordA; recordB]
   <= SLAContext.getBreachCount SLAContext.defaultThresholds [recordA; recordB])%nat.
Proof.
  apply (getBreachCount_antitone SLAContext.defaultThresholds
           {| SLAContext.responseTimeHours := 24; SLAContext.resolutionTimeHours := 72 |}
           [recordA; recordB] []).
  split; simpl; q_le.
Defined.

(** X9 ([getPreviousPeriodData]): in every time zone, for records whose
    dates are valid dates of the form [YYYY-MM-DD], the previous period
    holds exactly the records whose date lies in the half-open interval
    between the two instants at which the local clock read the same time
    [2 * days] and [days] calendar days before now; in a zone that keeps one
    offset these are [2 * days] and [days] whole days before now, to the
    millisecond. *)
Theorem getPreviousPeriodData_window :
  forall (zone : JsDate.TimeZone) (tz now : Z) (data : list Types.ServiceRequest)
         (days : Z) (r : Types.ServiceRequest),
    Forall wellDated data ->
    (In r (KPICards.Zoned.getPreviousPeriodData zone now data days) <->
     In r data /\
     exists t, JsDate.parse (Types.requestDate r) = Some t /\
               sameClock zone now (days * 2) <= t < sameClock zone now days) /\
    (In r (KPICards.Zoned.getPreviousPeriodData (JsDate.fixedOffset tz) now data days) <->
     In r data /\
     exists t, JsDate.parse (Types.requestDate r) = Some t /\
               now - 2 * days * JsDate.msPerDay <= t < now - days * JsDate.msPerDay).
Proof.
  intros zone tz now data days r _.
  assert (G : forall z,
    In r (KPICards.Zoned.getPreviousPeriodData z now data days) <->
    In r data /\
    exists t, JsDate.parse (Types.requestDate r) = Some t /\
              sameClock z now (days * 2) <= t < sameClock z now days).
  { intros z. unfold KPICards.Zoned.getPreviousPeriodData.
    rewrite !Zoned_setDate_back. rewrite filter_In.
    split; intros [Hin H]; (split; [exact Hin|]).
    - destruct (JsDate.parse (Types.requestDate r)) as [t|]; [|discriminate].
      exists t. split; [reflexivity|]. simpl in H.
      apply andb_prop in H. destruct H as [Ha Hb].
      apply Z.leb_le in Ha. apply Z.ltb_lt in Hb. lia.
    - destruct H as [t [Hp [Ha Hb]]]. rewrite Hp. simpl.
      apply andb_true_intro. split; [apply Z.leb_le|apply Z.ltb_lt]; lia. }
  split; [apply G|].
  rewrite G, !sameClock_fixedOffset.
  replace (days * 2 * JsDate.msPerDay) with (2 * days * JsDate.msPerDay) by lia.
  reflexivity.
Qed.

(** X9 at 2024-03-10T23:30:00Z in a zone that changed its offset that
    morning: seventy days back the local clock read that time at half past
    midnight UTC of the first of January, so the record of that day is
    before the period, and the record of the second of January is in it. *)
Lemma getPreviousPeriodData_window_witness :
  In recordB (KPICards.Zoned.getPreviousPeriodData springForward2024 1710113400000
                [recordA; recordB] 35) /\
  ~ In recordA (KPICards.Zoned.getPreviousPeriodData springForward2024 1710113400000
                  [recordA; recordB] 35).
Proof.
  assert (W : Forall wellDated [recordA; recordB])
    by (repeat constructor; discriminate).
  split.
  - apply (proj1 (getPreviousPeriodData_window springForward2024 0 1710113400000
                    [recordA; recordB] 35 recordB W)).
    split; [right; left; reflexivity|].
    exists 1704153600000. split; [reflexivity|]. vm_compute.
    split; [discriminate|reflexivity].
  - intros H.
    destruct (proj1 (proj1 (getPreviousPeriodData_window springForward2024 0
                              1710113400000 [recordA; recordB] 35 recordA W)) H)
      as [_ [t [Hp [Ha _]]]].
    vm_compute in Hp. injection Hp as <-. vm_compute in Ha. apply Ha. reflexivity.
Defined.

(** ** The sparkline *)

Lemma point_of_empty tz now metric i :
  KPICards.point tz now [] metric i = JsNumber.Fin 0.
Proof. destruct metric; reflexivity. Qed.

Lemma series_of_empty tz now metric days :
  forallb (fun v => JsNumber.strict_eq v (JsNumber.Fin 0))
          (KPICards.series tz now [] metric days) = true.
Proof.
  induction days as [|n IH]; [reflexivity|].
  cbn [KPICards.series forallb]. rewrite point_of_empty, IH. reflexivity.
Qed.

Lemma not_all_zero (l : list JsNumber.value) :
  forallb (fun v => JsNumber.strict_eq v (JsNumber.Fin 0)) l = false ->
  existsb (fun v => negb (JsNumber.strict_eq v (JsNumber.Fin 0))) l = true.
Proof.
  induction l as [|v l IH]; [discriminate|].
  simpl. destruct (JsNumber.strict_eq v (JsNumber.Fin 0)); simpl; auto.
Qed.

(** X10 ([generateSparklineData]): the result is never all zero; it is the
    computed series, of length [days], or the placeholder of seven entries,
    whatever [days] is; for zero days and for no records it is the
    placeholder. *)
Theorem generateSparklineData_never_flat :
  forall (tz now : Z) (data : list Types.ServiceRequest) (metric : KPICards.Metric)
         (days : nat),
    let result := KPICards.generateSparklineData tz now data metric days in
    existsb (fun v => negb (JsNumber.strict_eq v (JsNumber.Fin 0))) result = true /\
    (result = KPICards.series tz now data metric days /\ List.length result = days \/
     result = KPICards.placeholder /\ List.length result = 7%nat) /\
    KPICards.generateSparklineData tz now data metric 0 = KPICards.placeholder /\
    KPICards.generateSparklineData tz now [] metric days = KPICards.placeholder.
Proof.
  intros tz now data metric days result. unfold result, KPICards.generateSparklineData.
  split; [|split; [|split]].
  - destruct (forallb _ (KPICards.series tz now data metric days)) eqn:E.
    + reflexivity.
    + apply not_all_zero, E.
  - destruct (forallb _ (KPICards.series tz now data metric days)).
    + right. split; reflexivity.
    + left. split; [reflexivity|apply series_length].
  - reflexivity.
  - rewrite series_of_empty. reflexivity.
Qed.

(** ** The calendar *)

Lemma yoe_of_doe (yoe doy : Z) :
  0 <= yoe <= 399 -> 0 <= doy ->
  doy <= 364 \/ (doy = 365 /\ ((yoe + 1) mod 4 = 0 /\ ((yoe + 1) mod 100 <> 0 \/ yoe = 399))) ->
  let doe := yoe * 365 + yoe / 4 - yoe / 100 + doy in
  0 <= doe < 146097 /\
  (doe - doe / 1460 + doe / 36524 - doe / 146096) / 365 = yoe.
Proof.
  intros Hy Hd Hleap doe. unfold doe.
  split.
  - Z.to_euclidean_division_equations. lia.
  - Z.to_euclidean_division_equations. lia.
Qed.

Lemma isLeap_iff y :
  JsDate.isLeap y = true <-> (y mod 4 = 0 /\ (y mod 100 <> 0 \/ y mod 400 = 0)).
Proof.
  unfold JsDate.isLeap.
  rewrite orb_true_iff, andb_true_iff, negb_true_iff, !Z.eqb_eq, Z.eqb_neq.
  split.
  - intros [[H1 H2]|H]; [tauto|]. split; [|tauto].
    Z.to_euclidean_division_equations. lia.
  - intros [H1 [H2|H2]]; tauto.
Qed.

Lemma month_cases y m :
  1 <= m <= 12 ->
  (m = 1 /\ (m + 9) mod 12 = 10 /\ JsDate.daysInMonth y m = 31) \/
  (m = 2 /\ (m + 9) mod 12 = 11 /\
   JsDate.daysInMonth y m = if JsDate.isLeap y then 29 else 28) \/
  (m = 3 /\ (m + 9) mod 12 = 0 /\ JsDate.daysInMonth y m = 31) \/
  (m = 4 /\ (m + 9) mod 12 = 1 /\ JsDate.daysInMonth y m = 30) \/
  (m = 5 /\ (m + 9) mod 12 = 2 /\ JsDate.daysInMonth y m = 31) \/
  (m = 6 /\ (m + 9) mod 12 = 3 /\ JsDate.daysInMonth y m = 30) \/
  (m = 7 /\ (m + 9) mod 12 = 4 /\ JsDate.daysInMonth y m = 31) \/
  (m = 8 /\ (m + 9) mod 12 = 5 /\ JsDate.daysInMonth y m = 31) \/
  (m = 9 /\ (m + 9) mod 12 = 6 /\ JsDate.daysInMonth y m = 30) \/
  (m = 10 /\ (m + 9) mod 12 = 7 /\ JsDate.daysInMonth y m = 31) \/
  (m = 11 /\ (m + 9) mod 12 = 8 /\ JsDate.daysInMonth y m = 30) \/
  (m = 12 /\ (m + 9) mod 12 = 9 /\ JsDate.daysInMonth y m = 31).
Proof.
  intros Hm.
  assert (Hc : m = 1 \/ m = 2 \/ m = 3 \/ m = 4 \/ m = 5 \/ m = 6 \/ m = 7 \/ m = 8
               \/ m = 9 \/ m = 10 \/ m = 11 \/ m = 12) by lia.
  destruct Hc as [->|[->|[->|[->|[->|[->|[->|[->|[->|[->|[->| ->]]]]]]]]]]];
    [left|right;left|do 2 right;left|do 3 right;left|do 4 right;left|do 5 right;left
     |do 6 right;left|do 7 right;left|do 8 right;left|do 9 right;left|do 10 right;left
     |do 11 right];
    repeat split; reflexivity.
Qed.

(** The day number of a calendar date gives the date back. *)
Lemma civil_from_days_from_civil y m d :
  1 <= m <= 12 -> 1 <= d <= JsDate.daysInMonth y m ->
  JsDate.civil_from_days (JsDate.days_from_civil y m d) = (y, m, d).
Proof.
  intros Hm Hd.
  unfold JsDate.days_from_civil.
  set (y' := if m <=? 2 then y - 1 else y).
  set (era := y' / 400).
  set (yoe := y' - era * 400).
  set (mp := (m + 9) mod 12).
  set (doy := (153 * mp + 2) / 5 + d - 1).
  cbv zeta.
  assert (Hyoe : 0 <= yoe <= 399).
  { unfold yoe, era. generalize y'. intros y0.
    Z.to_euclidean_division_equations. lia. }
  assert (Hy' : m <= 2 /\ y' = y - 1 \/ 3 <= m /\ y' = y).
  { unfold y'. destruct (Z.leb_spec m 2); [left|right]; lia. }
  assert (Hleap : JsDate.isLeap y = true ->
                  m <= 2 -> (yoe + 1) mod 4 = 0 /\ ((yoe + 1) mod 100 <> 0 \/ yoe = 399)).
  { intros HL Hle. apply isLeap_iff in HL.
    assert (E : y = era * 400 + yoe + 1) by (unfold yoe; lia).
    clearbody yoe era. subst y.
    Z.to_euclidean_division_equations. lia. }
  assert (Hmonth :
            0 <= mp <= 11 /\ mp = (if m <=? 2 then m + 9 else m - 3) /\
            0 <= doy /\
            (doy <= 364 \/
             (doy = 365 /\
              ((yoe + 1) mod 4 = 0 /\ ((yoe + 1) mod 100 <> 0 \/ yoe = 399)))) /\
            (5 * doy + 2) / 153 = mp /\ doy - (153 * mp + 2) / 5 + 1 = d).
  { unfold doy. fold mp.
    destruct (month_cases y m Hm)
      as [[-> [E D]]|[[-> [E D]]|[[-> [E D]]|[[-> [E D]]|[[-> [E D]]|[[-> [E D]]|
          [[-> [E D]]|[[-> [E D]]|[[-> [E D]]|[[-> [E D]]|[[-> [E D]]|[-> [E D]]]]]]]]]]]]];
      fold mp in E; rewrite E; rewrite D in Hd; clear D E;
      change (1 <=? 2) with true; change (2 <=? 2) with true;
      try change (3 <=? 2) with false; try change (4 <=? 2) with false;
      try change (5 <=? 2) with false; try change (6 <=? 2) with false;
      try change (7 <=? 2) with false; try change (8 <=? 2) with false;
      try change (9 <=? 2) with false; try change (10 <=? 2) with false;
      try change (11 <=? 2) with false; try change (12 <=? 2) with false;
      cbv iota.
    2: { destruct (JsDate.isLeap y) eqn:HL;
           [specialize (Hleap eq_refl ltac:(lia))|clear Hleap];
           repeat split; try lia; try (Z.to_euclidean_division_equations; lia). }
    all: clear Hleap; repeat split; try lia; try (Z.to_euclidean_division_equations; lia);
      left; Z.to_euclidean_division_equations; lia. }
  destruct Hmonth as [Hmp0 [Hmp [Hdoy0 [Hdoy [E1 E2]]]]].
  destruct (yoe_of_doe yoe doy Hyoe Hdoy0 Hdoy) as [Hdoe Hrec].
  set (doe := yoe * 365 + yoe / 4 - yoe / 100 + doy) in *.
  unfold JsDate.civil_from_days.
  replace (era * 146097 + doe - 719468 + 719468) with (doe + era * 146097) by lia.
  rewrite Z.div_add by lia. rewrite (Z.div_small doe) by lia.
  cbn [Z.add].
  replace (doe + era * 146097 - era * 146097) with doe by lia.
  rewrite Hrec.
  replace (doe - (365 * yoe + yoe / 4 - yoe / 100)) with doy by (unfold doe; lia).
  rewrite E1, E2.
  rewrite Hmp. unfold yoe.
  destruct Hy' as [[Hle Ey]|[Hgt Ey]]; rewrite Ey.
  - assert (E4 : (m <=? 2) = true) by (apply Z.leb_le; lia). rewrite E4.
    assert (E3 : (m + 9 <? 10) = false) by (apply Z.ltb_ge; lia). rewrite E3.
    replace (m + 9 - 9) with m by lia. rewrite E4.
    repeat f_equal; lia.
  - assert (E4 : (m <=? 2) = false) by (apply Z.leb_gt; lia). rewrite E4.
    assert (E3 : (m - 3 <? 10) = true) by (apply Z.ltb_lt; lia). rewrite E3.
    replace (m - 3 + 3) with m by lia. rewrite E4.
    repeat f_equal; lia.
Qed.

(** calendar *)
Lemma civil_from_days_day z :
  let '(y, m, d) := JsDate.civil_from_days z in
  1 <= m <= 12 /\ 1 <= d <= 31 /\ JsDate.days_from_civil y m 1 + d - 1 = z /\
  JsDate.days_from_civil y 1 1 <= JsDate.days_from_civil y m 1.
Proof.
  pose proof (civil_from_days_spec z) as H.
  unfold JsDate.civil_from_days in *.
  set (z' := z + 719468) in *.
  set (era := z' / 146097) in *.
  set (doe := z' - era * 146097) in *.
  set (yoe := (doe - doe / 1460 + doe / 36524 - doe / 146096) / 365) in *.
  set (doy := doe - (365 * yoe + yoe / 4 - yoe / 100)) in *.
  set (mp := (5 * doy + 2) / 153) in *.
  cbv zeta in *.
  assert (Hdoe : 0 <= doe < 146097).
  { unfold doe, era. Z.to_euclidean_division_equations. lia. }
  assert (Hyoe : 0 <= yoe <= 399).
  { unfold yoe. Z.to_euclidean_division_equations. lia. }
  assert (Hdoy : 0 <= doy <= 365).
  { unfold doy, yoe. Z.to_euclidean_division_equations. lia. }
  assert (Hmp : 0 <= mp <= 11).
  { unfold mp. Z.to_euclidean_division_equations. lia. }
  assert (Hd : 1 <= doy - (153 * mp + 2) / 5 + 1 <= 31).
  { unfold mp. Z.to_euclidean_division_equations. lia. }
  destruct H as [Hm Hz].
  split; [exact Hm|]. split; [exact Hd|]. split; [exact Hz|].
  clear Hz Hd. clearbody mp doy yoe doe era.
  set (y := yoe + era * 400) in *.
  unfold JsDate.days_from_civil.
  destruct (Z.ltb_spec mp 10) as [Hlt|Hge].
  - assert (Hm' : (mp + 3 <=? 2) = false) by (apply Z.leb_gt; lia).
    rewrite Hm'. cbn [Z.leb]. 
    change (1 <=? 2) with true. cbv iota.
    replace ((mp + 3 + 9) mod 12) with mp by (Z.to_euclidean_division_equations; lia).
    change ((1 + 9) mod 12) with 10.
    Z.to_euclidean_division_equations. lia.
  - assert (Hm' : (mp - 9 <=? 2) = true) by (apply Z.leb_le; lia).
    rewrite Hm'. change (1 <=? 2) with true. cbv iota.
    replace ((mp - 9 + 9) mod 12) with mp by (Z.to_euclidean_division_equations; lia).
    change ((1 + 9) mod 12) with 10.
    Z.to_euclidean_division_equations. lia.
Qed.

(** The date of a day number is a date of the calendar. *)
Lemma civil_from_days_valid z :
  let '(y, m, d) := JsDate.civil_from_days z in
  1 <= m <= 12 /\ 1 <= d <= JsDate.daysInMonth y m /\ JsDate.days_from_civil y m d = z.
Proof.
  pose proof (civil_from_days_spec z) as H.
  unfold JsDate.civil_from_days in *.
  set (z' := z + 719468) in *.
  set (era := z' / 146097) in *.
  set (doe := z' - era * 146097) in *.
  set (yoe := (doe - doe / 1460 + doe / 36524 - doe / 146096) / 365) in *.
  set (doy := doe - (365 * yoe + yoe / 4 - yoe / 100)) in *.
  set (mp := (5 * doy + 2) / 153) in *.
  cbv zeta in *.
  assert (Hdoe : 0 <= doe < 146097).
  { unfold doe, era. Z.to_euclidean_division_equations. lia. }
  assert (Hyoe : 0 <= yoe <= 399).
  { unfold yoe. Z.to_euclidean_division_equations. lia. }
  assert (Hdoy : 0 <= doy <= 365).
  { unfold doy, yoe. Z.to_euclidean_division_equations. lia. }
  assert (Hleap : doy = 365 -> (yoe + 1) mod 4 = 0 /\ ((yoe + 1) mod 100 <> 0 \/ yoe = 399)).
  { unfold doy, yoe. Z.to_euclidean_division_equations. lia. }
  assert (Hmp : 0 <= mp <= 11).
  { unfold mp. Z.to_euclidean_division_equations. lia. }
  set (d := doy - (153 * mp + 2) / 5 + 1) in *.
  set (m := if mp <? 10 then mp + 3 else mp - 9) in *.
  set (y := if m <=? 2 then yoe + era * 400 + 1 else yoe + era * 400) in *.
  destruct H as [Hm Hz]. split; [exact Hm|].
  assert (Hy : JsDate.isLeap y = true <->
               (m <= 2 /\ (yoe + 1) mod 4 = 0 /\ ((yoe + 1) mod 100 <> 0 \/ yoe = 399)) \/
               (3 <= m /\ yoe mod 4 = 0 /\ (yoe mod 100 <> 0 \/ yoe = 0))).
  { rewrite isLeap_iff. unfold y. clearbody yoe era m.
    destruct (Z.leb_spec m 2); Z.to_euclidean_division_equations; lia. }
  assert (Hd : 1 <= d <= JsDate.daysInMonth y m).
  { assert (Hcase : (mp = 0 /\ m = 3) \/ (mp = 1 /\ m = 4) \/ (mp = 2 /\ m = 5) \/
                    (mp = 3 /\ m = 6) \/ (mp = 4 /\ m = 7) \/ (mp = 5 /\ m = 8) \/
                    (mp = 6 /\ m = 9) \/ (mp = 7 /\ m = 10) \/ (mp = 8 /\ m = 11) \/
                    (mp = 9 /\ m = 12) \/ (mp = 10 /\ m = 1) \/ (mp = 11 /\ m = 2)).
    { unfold m. destruct (Z.ltb_spec mp 10); lia. }
    assert (Hdm : 1 <= m <= 12 ->
                  JsDate.daysInMonth y m =
                  if m =? 2 then (if JsDate.isLeap y then 29 else 28)
                  else if (m =? 4) || (m =? 6) || (m =? 9) || (m =? 11) then 30 else 31)
      by reflexivity.
    rewrite Hdm by exact Hm. clear Hdm.
    unfold d.
    assert (Emp : mp = (5 * doy + 2) / 153) by reflexivity.
    clearbody mp m y doy.
    destruct Hcase as [[E1 E2]|[[E1 E2]|[[E1 E2]|[[E1 E2]|[[E1 E2]|[[E1 E2]|[[E1 E2]|
                      [[E1 E2]|[[E1 E2]|[[E1 E2]|[[E1 E2]|[E1 E2]]]]]]]]]]]];
      rewrite E2; rewrite E1 in *; cbn [Z.eqb Pos.eqb orb];
      try (Z.to_euclidean_division_equations; lia).
    destruct (JsDate.isLeap y) eqn:HL.
    - Z.to_euclidean_division_equations; lia.
    - assert (Hn : doy <> 365).
      { intros E365. specialize (Hleap E365).
        assert (Hc : false = true) by (apply Hy; left; lia). discriminate Hc. }
      Z.to_euclidean_division_equations; lia. }
  split; [exact Hd|].
  unfold JsDate.days_from_civil in *. lia.
Qed.

Lemma localMidnight_le tz now :
  let n := JsDate.Day (JsDate.LocalTime tz now) in
  localMidnight tz n <= now < localMidnight tz n + JsDate.msPerDay.
Proof.
  unfold localMidnight, JsDate.UTC, JsDate.Day, JsDate.LocalTime, JsDate.msPerDay.
  Z.to_euclidean_division_equations. lia.
Qed.

Lemma Day_localMidnight tz n : JsDate.Day (JsDate.LocalTime tz (localMidnight tz n)) = n.
Proof.
  unfold localMidnight, JsDate.UTC, JsDate.Day, JsDate.LocalTime, JsDate.msPerDay.
  Z.to_euclidean_division_equations. lia.
Qed.

Lemma ytd_start tz now :
  let y := JsDate.getFullYear tz now in
  JsDate.newDate tz y 0 1 = localMidnight tz (JsDate.days_from_civil y 1 1) /\
  JsDate.days_from_civil y 1 1 <= JsDate.Day (JsDate.LocalTime tz now) /\
  JsDate.civil_from_days (JsDate.days_from_civil y 1 1) = (y, 1, 1).
Proof.
  intros y. split; [|split].
  - unfold JsDate.newDate, localMidnight, JsDate.MakeDay.
    change (0 / 12) with 0. change (0 mod 12 + 1) with 1.
    rewrite Z.add_0_r. f_equal. f_equal. lia.
  - unfold y, JsDate.getFullYear.
    pose proof (civil_from_days_day (JsDate.Day (JsDate.LocalTime tz now))) as H.
    destruct (JsDate.civil_from_days _) as [[y0 m] d].
    destruct H as [_ [Hd [Hz Hle]]]. lia.
  - apply civil_from_days_from_civil; [lia|]. change (JsDate.daysInMonth y 1) with 31. lia.
Qed.

Lemma getPresetDates_fixed tz now p :
  match DateRangePicker.getPresetDates tz now p with
  | (Some start, Some end_) =>
      start <= end_ /\ end_ <= now < end_ + JsDate.msPerDay /\
      JsDate.TimeWithinDay (JsDate.LocalTime tz start) = 0 /\
      JsDate.TimeWithinDay (JsDate.LocalTime tz end_) = 0 /\
      match p with
      | FilterContext.last7 => end_ - start = 7 * JsDate.msPerDay
      | FilterContext.last30 => end_ - start = 30 * JsDate.msPerDay
      | FilterContext.last90 => end_ - start = 90 * JsDate.msPerDay
      | _ => JsDate.getFullYear tz start = JsDate.getFullYear tz now /\
             JsDate.getMonth tz start = 0 /\ JsDate.getDate tz start = 1
      end
  | (None, None) => p = FilterContext.custom \/ p = FilterContext.all
  | _ => False
  end.
Proof.
  pose proof (rolling_preset_bounds tz now) as R. cbv zeta in R.
  destruct R as [R7 [R30 R90]].
  pose proof (localMidnight_le tz now) as Hn. cbv zeta in Hn.
  set (n := JsDate.Day (JsDate.LocalTime tz now)) in *.
  assert (Hmid : forall k, JsDate.TimeWithinDay (JsDate.LocalTime tz (localMidnight tz k)) = 0).
  { intros k. unfold localMidnight, JsDate.UTC, JsDate.TimeWithinDay, JsDate.LocalTime,
      JsDate.msPerDay. Z.to_euclidean_division_equations. lia. }
  assert (Hdiff : forall k, localMidnight tz n - localMidnight tz (n - k)
                            = k * JsDate.msPerDay).
  { intros k. unfold localMidnight, JsDate.UTC. lia. }
  destruct p.
  - rewrite R7. pose proof (Hdiff 7). unfold JsDate.msPerDay in *.
    repeat split; try apply Hmid; lia.
  - rewrite R30. pose proof (Hdiff 30). unfold JsDate.msPerDay in *.
    repeat split; try apply Hmid; lia.
  - rewrite R90. pose proof (Hdiff 90). unfold JsDate.msPerDay in *.
    repeat split; try apply Hmid; lia.
  - unfold DateRangePicker.getPresetDates. rewrite newDate_today. fold n.
    destruct (ytd_start tz now) as [E [Hle Hciv]]. rewrite E.
    split; [unfold localMidnight, JsDate.UTC, JsDate.msPerDay; lia|].
    split; [exact Hn|]. split; [apply Hmid|]. split; [apply Hmid|].
    unfold JsDate.getFullYear at 1, JsDate.getMonth, JsDate.getDate.
    rewrite Day_localMidnight, Hciv. repeat split; reflexivity.
  - left. reflexivity.
  - right. reflexivity.
Qed.

(** X11 ([getPresetDates]): in a zone that keeps one offset, for every
    preset the two bounds are both null (custom, all) or both local
    midnights with start <= end <= now < end + one day; the rolling presets
    span exactly 7, 30 and 90 days, and the start of year-to-date is the
    first of January of the local year of now.  Across a change of offset
    the span is not a whole number of days: two days after a zone has put
    its clocks forward by an hour, the last seven days are an hour short. *)
Theorem getPresetDates_bounds :
  forall (tz now : Z) (p : FilterContext.Preset),
    let zone := JsDate.fixedOffset tz in
    match DateRangePicker.Zoned.getPresetDates zone now p with
    | (Some start, Some end_) =>
        start <= end_ /\ end_ <= now < end_ + JsDate.msPerDay /\
        (start + tz) mod JsDate.msPerDay = 0 /\
        (end_ + tz) mod JsDate.msPerDay = 0 /\
        match p with
        | FilterContext.last7 => end_ - start = 7 * JsDate.msPerDay
        | FilterContext.last30 => end_ - start = 30 * JsDate.msPerDay
        | FilterContext.last90 => end_ - start = 90 * JsDate.msPerDay
        | _ => JsDate.Zoned.getFullYear zone start = JsDate.Zoned.getFullYear zone now /\
               JsDate.Zoned.getMonth zone start = 0 /\ JsDate.Zoned.getDate zone start = 1
        end
    | (None, None) => p = FilterContext.custom \/ p = FilterContext.all
    | _ => False
    end /\
    DateRangePicker.Zoned.getPresetDates springForward2024 1710259200000 FilterContext.last7
    = (Some 1709614800000, Some (1709614800000 + 7 * JsDate.msPerDay - 3600000)).
Proof.
  intros tz now p zone. split; [|vm_compute; reflexivity].
  unfold zone. rewrite Zoned_getPresetDates_fixedOffset.
  exact (getPresetDates_fixed tz now p).
Qed.

(** ** Decimal numerals and ISO dates *)

Lemma pad_zeros width z :
  JsDate.pad width z =
  (zeros (width - String.length (JsNumber.Z_to_string z)) ++ JsNumber.Z_to_string z)%string.
Proof. reflexivity. Qed.

Lemma digit_char c n :
  JsDate.digit c = Some n ->
  (c = "0" /\ n = 0 \/ c = "1" /\ n = 1 \/ c = "2" /\ n = 2 \/ c = "3" /\ n = 3 \/
   c = "4" /\ n = 4 \/ c = "5" /\ n = 5 \/ c = "6" /\ n = 6 \/ c = "7" /\ n = 7 \/
   c = "8" /\ n = 8 \/ c = "9" /\ n = 9)%char.
Proof.
  destruct c as [[|] [|] [|] [|] [|] [|] [|] [|]]; cbv; intros [= <-]; intuition.
Qed.

Lemma usize_nb_digits d : DecimalPos.Unsigned.usize d = N.of_nat (nb_digits d).
Proof.
  induction d; cbn [DecimalPos.Unsigned.usize nb_digits]; rewrite ?IHd; lia.
Qed.

Lemma length_string_of_uint d :
  String.length (NilEmpty.string_of_uint d) = nb_digits d.
Proof. induction d; simpl; congruence. Qed.

Lemma of_lu_rev_cons (f : Decimal.uint -> Decimal.uint) (k : N) d :
  (forall u, DecimalPos.Unsigned.of_lu (f u) = (k + 10 * DecimalPos.Unsigned.of_lu u)%N) ->
  (forall u v, Decimal.revapp (f u) v = Decimal.revapp u (f v)) ->
  DecimalPos.Unsigned.of_lu (Decimal.rev (f d)) =
  (DecimalPos.Unsigned.of_lu (Decimal.rev d) + k * 10 ^ DecimalPos.Unsigned.usize d)%N.
Proof.
  intros Hf Hr. unfold Decimal.rev at 1. rewrite Hr.
  rewrite DecimalPos.Unsigned.of_lu_revapp, Hf. simpl. lia.
Qed.

Ltac digits_step k IH :=
  cbn [NilEmpty.string_of_uint JsDate.digits];
  match goal with
  | |- context [JsDate.digit ?c] =>
      let v := eval cbv in (JsDate.digit c) in
      change (JsDate.digit c) with v
  end; cbv iota; rewrite IH;
  match goal with
  | |- context [Decimal.rev (?f ?d)] =>
      rewrite (of_lu_rev_cons f k d
                 ltac:(intros; cbn [DecimalPos.Unsigned.of_lu]; lia)
                 ltac:(intros; reflexivity))
  end;
  rewrite usize_nb_digits; cbn [nb_digits];
  rewrite Nat2Z.inj_succ, Z.pow_succ_r by lia;
  rewrite N2Z.inj_add, N2Z.inj_mul, N2Z.inj_pow, nat_N_Z; f_equal; simpl Z.of_N; ring.

(** The digits of a decimal numeral, read from the left. *)
Lemma digits_string_of_uint d :
  forall acc,
    JsDate.digits (NilEmpty.string_of_uint d) acc =
    Some (acc * 10 ^ Z.of_nat (nb_digits d)
          + Z.of_N (DecimalPos.Unsigned.of_lu (Decimal.rev d))).
Proof.
  induction d; intros acc;
    [ simpl; f_equal; lia
    | digits_step 0%N IHd | digits_step 1%N IHd | digits_step 2%N IHd
    | digits_step 3%N IHd | digits_step 4%N IHd | digits_step 5%N IHd
    | digits_step 6%N IHd | digits_step 7%N IHd | digits_step 8%N IHd
    | digits_step 9%N IHd ].
Qed.

Lemma digits_of_uint d :
  JsDate.digits (NilEmpty.string_of_uint d) 0 = Some (Z.of_N (Pos.of_uint d)).
Proof.
  rewrite digits_string_of_uint, DecimalPos.Unsigned.of_uint_alt. reflexivity.
Qed.

(** A string of digits is the string of a numeral. *)
Lemma digits_numeral s :
  forall acc v, JsDate.digits s acc = Some v -> exists d, s = NilEmpty.string_of_uint d.
Proof.
  induction s as [|c s IH]; intros acc v H.
  - exists Decimal.Nil. reflexivity.
  - cbn [JsDate.digits] in H. destruct (JsDate.digit c) as [n|] eqn:E; [|discriminate].
    destruct (IH _ _ H) as [d ->].
    apply digit_char in E.
    destruct E as [[-> _]|[[-> _]|[[-> _]|[[-> _]|[[-> _]|[[-> _]|[[-> _]|[[-> _]|
                  [[-> _]|[-> _]]]]]]]]]].
    + exists (Decimal.D0 d). reflexivity.
    + exists (Decimal.D1 d). reflexivity.
    + exists (Decimal.D2 d). reflexivity.
    + exists (Decimal.D3 d). reflexivity.
    + exists (Decimal.D4 d). reflexivity.
    + exists (Decimal.D5 d). reflexivity.
    + exists (Decimal.D6 d). reflexivity.
    + exists (Decimal.D7 d). reflexivity.
    + exists (Decimal.D8 d). reflexivity.
    + exists (Decimal.D9 d). reflexivity.
Qed.

Lemma Z_to_string_of_N n :
  JsNumber.Z_to_string (Z.of_N n) = NilZero.string_of_uint (N.to_uint n).
Proof. destruct n; reflexivity. Qed.

Lemma string_of_uint_nonnil d :
  d <> Decimal.Nil -> NilZero.string_of_uint d = NilEmpty.string_of_uint d.
Proof. destruct d; intros H; [contradiction|..]; reflexivity. Qed.

Lemma unorm_nonnil d : Decimal.unorm d <> Decimal.Nil.
Proof. unfold Decimal.unorm. destruct (Decimal.nzhead d); discriminate. Qed.

Lemma string_of_iter_D0 k d :
  NilEmpty.string_of_uint (Nat.iter k Decimal.D0 d) =
  (zeros k ++ NilEmpty.string_of_uint d)%string.
Proof. induction k as [|k IH]; simpl; [reflexivity|]. rewrite IH. reflexivity. Qed.

(** Printing the value of a string of digits and padding the result to the
    length of the string gives the string back. *)
Lemma pad_digits s v :
  s <> EmptyString -> JsDate.digits s 0 = Some v -> JsDate.pad (String.length s) v = s.
Proof.
  intros Hs H. destruct (digits_numeral _ _ _ H) as [d ->].
  assert (Hd : d <> Decimal.Nil) by (intros ->; apply Hs; reflexivity).
  rewrite digits_of_uint in H. injection H as <-.
  rewrite pad_zeros, Z_to_string_of_N, DecimalPos.Unsigned.to_of.
  rewrite string_of_uint_nonnil by apply unorm_nonnil.
  rewrite !length_string_of_uint, <- string_of_iter_D0.
  rewrite DecimalFacts.iter_D0_unorm by exact Hd. reflexivity.
Qed.

Lemma digits_zeros k s :
  JsDate.digits (zeros k ++ s) 0 = JsDate.digits s 0.
Proof. induction k as [|k IH]; simpl; [reflexivity|exact IH]. Qed.

Lemma digits_Z_to_string v : 0 <= v -> JsDate.digits (JsNumber.Z_to_string v) 0 = Some v.
Proof.
  intros Hv. destruct v as [|p|p]; [reflexivity| |lia].
  change (JsNumber.Z_to_string (Z.pos p)) with (NilZero.string_of_uint (Pos.to_uint p)).
  rewrite string_of_uint_nonnil by apply DecimalPos.Unsigned.to_uint_nonnil.
  rewrite digits_of_uint, DecimalPos.Unsigned.of_to. reflexivity.
Qed.

Lemma nzhead_fixed d :
  Decimal.nzhead d = d -> d <> Decimal.Nil ->
  (10 ^ (DecimalPos.Unsigned.usize d - 1) <= DecimalPos.Unsigned.of_lu (Decimal.rev d))%N.
Proof.
  intros Hn Hd.
  destruct d; [contradiction| |..];
    [ exfalso; cbn [Decimal.nzhead] in Hn;
      pose proof (DecimalFacts.nb_digits_nzhead d) as Hle; rewrite Hn in Hle;
      cbn [nb_digits] in Hle; lia
    | .. ];
    match goal with
    | |- context [Decimal.rev (?f ?d)] =>
        unfold Decimal.rev; change (Decimal.revapp (f d) Decimal.Nil)
          with (Decimal.revapp d (f Decimal.Nil));
        rewrite DecimalPos.Unsigned.of_lu_revapp
    end;
    cbn [DecimalPos.Unsigned.usize DecimalPos.Unsigned.of_lu];
    replace (N.succ (DecimalPos.Unsigned.usize d) - 1)%N
      with (DecimalPos.Unsigned.usize d) by lia;
    generalize (10 ^ DecimalPos.Unsigned.usize d)%N; intros P;
    generalize (DecimalPos.Unsigned.of_lu (Decimal.rev d)); intros Q; lia.
Qed.

Lemma to_uint_nzhead p : Decimal.nzhead (Pos.to_uint p) = Pos.to_uint p.
Proof.
  pose proof (DecimalPos.Unsigned.to_of (Pos.to_uint p)) as H.
  rewrite DecimalPos.Unsigned.of_to in H. cbn [N.to_uint] in H.
  unfold Decimal.unorm in H.
  destruct (Decimal.nzhead (Pos.to_uint p)) eqn:E; try (symmetry; exact H).
  exfalso. apply (DecimalPos.Unsigned.to_uint_nonzero p). exact H.
Qed.

Lemma length_Z_to_string v (w : nat) :
  0 <= v < 10 ^ Z.of_nat w -> (1 <= w)%nat ->
  (String.length (JsNumber.Z_to_string v) <= w)%nat.
Proof.
  intros [H0 H1] Hw. destruct v as [|p|p]; [simpl; lia| |lia].
  change (JsNumber.Z_to_string (Z.pos p)) with (NilZero.string_of_uint (Pos.to_uint p)).
  rewrite string_of_uint_nonnil by apply DecimalPos.Unsigned.to_uint_nonnil.
  rewrite length_string_of_uint.
  pose proof (nzhead_fixed (Pos.to_uint p) (to_uint_nzhead p)
                (DecimalPos.Unsigned.to_uint_nonnil p)) as Hlow.
  rewrite <- DecimalPos.Unsigned.of_uint_alt, DecimalPos.Unsigned.of_to in Hlow.
  rewrite usize_nb_digits in Hlow.
  set (n := nb_digits (Pos.to_uint p)) in *.
  destruct (le_lt_dec n w) as [Hle|Hgt]; [exact Hle|exfalso].
  assert (Hp : 10 ^ Z.of_nat w <= Z.pos p).
  { apply N2Z.inj_le in Hlow. rewrite N2Z.inj_pow in Hlow.
    replace (Z.of_N (N.of_nat n - 1)) with (Z.of_nat n - 1) in Hlow by lia.
    simpl Z.of_N in Hlow.
    eapply Z.le_trans; [|exact Hlow].
    apply Z.pow_le_mono_r; lia. }
  lia.
Qed.

Lemma length_zeros k : String.length (zeros k) = k.
Proof. induction k; simpl; congruence. Qed.

Lemma length_append (a b : string) :
  String.length (a ++ b) = (String.length a + String.length b)%nat.
Proof. induction a; simpl; congruence. Qed.

(** A number below [10 ^ w] is printed on [w] digits and read back. *)
Lemma digits_pad (w : nat) v :
  0 <= v < 10 ^ Z.of_nat w -> (1 <= w)%nat ->
  String.length (JsDate.pad w v) = w /\ JsDate.digits (JsDate.pad w v) 0 = Some v.
Proof.
  intros Hv Hw. rewrite pad_zeros. split.
  - rewrite length_append, length_zeros.
    pose proof (length_Z_to_string v w Hv Hw). lia.
  - rewrite digits_zeros. apply digits_Z_to_string. lia.
Qed.

(** The parts of an ISO date string. *)
Lemma iso_parts (a b c : string) :
  String.length a = 4%nat -> String.length b = 2%nat -> String.length c = 2%nat ->
  let s := (a ++ "-" ++ b ++ "-" ++ c)%string in
  String.length s = 10%nat /\ substring 0 4 s = a /\ substring 4 1 s = "-" /\
  substring 5 2 s = b /\ substring 7 1 s = "-" /\ substring 8 2 s = c.
Proof.
  intros Ha Hb Hc.
  destruct a as [|a0 [|a1 [|a2 [|a3 [|? ?]]]]]; try discriminate.
  destruct b as [|b0 [|b1 [|? ?]]]; try discriminate.
  destruct c as [|c0 [|c1 [|? ?]]]; try discriminate.
  cbn. repeat split; reflexivity.
Qed.

Lemma iso_split (s : string) :
  String.length s = 10%nat ->
  String.eqb (substring 4 1 s) "-" = true -> String.eqb (substring 7 1 s) "-" = true ->
  s = (substring 0 4 s ++ "-" ++ substring 5 2 s ++ "-" ++ substring 8 2 s)%string /\
  String.length (substring 0 4 s) = 4%nat /\ String.length (substring 5 2 s) = 2%nat /\
  String.length (substring 8 2 s) = 2%nat.
Proof.
  intros Hl H4 H7.
  destruct s as [|c0 [|c1 [|c2 [|c3 [|c4 [|c5 [|c6 [|c7 [|c8 [|c9 [|? ?]]]]]]]]]]];
    try discriminate.
  cbn in H4, H7 |- *.
  destruct (Ascii.eqb_spec c4 "-") as [->|]; [|discriminate].
  destruct (Ascii.eqb_spec c7 "-") as [->|]; [|discriminate].
  repeat split; reflexivity.
Qed.

(** A date string that [parse] accepts is the ISO date of its time value. *)
Lemma parse_toISODate s t :
  JsDate.parse s = Some t ->
  JsDate.toISODate t = s /\ t = JsDate.Day t * JsDate.msPerDay.
Proof.
  unfold JsDate.parse. intros H.
  destruct (Nat.eqb (String.length s) 10) eqn:El; [|discriminate].
  apply Nat.eqb_eq in El. cbn [negb] in H.
  destruct (JsDate.digits (substring 0 4 s) 0) as [y|] eqn:Ey; [|discriminate].
  destruct (JsDate.digits (substring 5 2 s) 0) as [m|] eqn:Em; [|discriminate].
  destruct (JsDate.digits (substring 8 2 s) 0) as [d|] eqn:Ed; [|discriminate].
  match type of H with (if ?c then _ else _) = _ => destruct c eqn:Ec; [|discriminate] end.
  injection H as <-.
  repeat (apply andb_prop in Ec; destruct Ec as [Ec ?]).
  repeat match goal with
         | K : (_ <=? _) = true |- _ => apply Z.leb_le in K
         end.
  destruct (iso_split s El) as [Es [L4 [L2 L2']]]; try assumption.
  rewrite Day_midnight. split; [|reflexivity].
  unfold JsDate.toISODate. rewrite Day_midnight.
  rewrite civil_from_days_from_civil by lia.
  pose proof (pad_digits _ _ ltac:(intros E; rewrite E in L4; discriminate) Ey) as Py.
  pose proof (pad_digits _ _ ltac:(intros E; rewrite E in L2; discriminate) Em) as Pm.
  pose proof (pad_digits _ _ ltac:(intros E; rewrite E in L2'; discriminate) Ed) as Pd.
  rewrite L4 in Py. rewrite L2 in Pm. rewrite L2' in Pd.
  rewrite Py, Pm, Pd.
  symmetry. exact Es.
Qed.

(** The ISO date of a time value in the years 0 to 9999 is read back as the
    midnight of its day. *)
Lemma toISODate_parse t :
  (let '(y, _, _) := JsDate.civil_from_days (JsDate.Day t) in 0 <= y <= 9999) ->
  JsDate.parse (JsDate.toISODate t) = Some (JsDate.Day t * JsDate.msPerDay).
Proof.
  unfold JsDate.toISODate.
  pose proof (civil_from_days_valid (JsDate.Day t)) as H.
  destruct (JsDate.civil_from_days (JsDate.Day t)) as [[y m] d].
  destruct H as [Hm [Hd Hz]]. intros Hy.
  assert (Hd31 : JsDate.daysInMonth y m <= 31).
  { unfold JsDate.daysInMonth.
    destruct (m =? 2); [destruct (JsDate.isLeap y); lia|].
    destruct ((m =? 4) || (m =? 6) || (m =? 9) || (m =? 11)); lia. }
  destruct (digits_pad 4 y) as [Ly Vy]; [simpl; lia|lia|].
  destruct (digits_pad 2 m) as [Lm Vm]; [simpl; lia|lia|].
  destruct (digits_pad 2 d) as [Ld Vd]; [simpl; lia|lia|].
  destruct (iso_parts _ _ _ Ly Lm Ld) as [Hl [P1 [P2 [P3 [P4 P5]]]]].
  unfold JsDate.parse. rewrite Hl. cbn [Nat.eqb negb].
  rewrite P1, P2, P3, P4, P5, Vy, Vm, Vd.
  cbn [String.eqb Ascii.eqb Bool.eqb andb].
  replace (1 <=? m) with true by (symmetry; apply Z.leb_le; lia).
  replace (m <=? 12) with true by (symmetry; apply Z.leb_le; lia).
  replace (1 <=? d) with true by (symmetry; apply Z.leb_le; lia).
  replace (d <=? JsDate.daysInMonth y m) with true by (symmetry; apply Z.leb_le; lia).
  cbn [andb]. rewrite Hz. reflexivity.
Qed.

Lemma toISODate_Day t t' : JsDate.Day t = JsDate.Day t' -> JsDate.toISODate t = JsDate.toISODate t'.
Proof. unfold JsDate.toISODate. intros ->. reflexivity. Qed.

Lemma Day_back now k : JsDate.Day (now - k * JsDate.msPerDay) = JsDate.Day now - k.
Proof.
  unfold JsDate.Day, JsDate.msPerDay. Z.to_euclidean_division_equations. lia.
Qed.

Lemma eqb_toISODate_onDay t r :
  0 <= JsDate.getFullYear 0 t <= 9999 ->
  String.eqb (Types.requestDate r) (JsDate.toISODate t) = onDay (JsDate.Day t) r.
Proof.
  intros Hy. unfold onDay.
  assert (Hx : JsDate.parse (JsDate.toISODate t) = Some (JsDate.Day t * JsDate.msPerDay)).
  { apply toISODate_parse. unfold JsDate.getFullYear, JsDate.LocalTime in Hy.
    rewrite Z.add_0_r in Hy. destruct (JsDate.civil_from_days (JsDate.Day t)) as [[y m] d].
    exact Hy. }
  destruct (String.eqb_spec (Types.requestDate r) (JsDate.toISODate t)) as [E|N].
  - rewrite E, Hx, Day_midnight. symmetry. apply Z.eqb_refl.
  - destruct (JsDate.parse (Types.requestDate r)) as [t'|] eqn:P; [|reflexivity].
    destruct (parse_toISODate _ _ P) as [Et _].
    destruct (Z.eqb_spec (JsDate.Day t') (JsDate.Day t)) as [Ed|]; [|reflexivity].
    exfalso. apply N. rewrite <- Et. apply toISODate_Day. exact Ed.
Qed.



(** X13 ([handleCustomApply] with the date filter): for a custom range whose
    two inputs parse, a record whose date parses passes exactly when its day
    lies between the day of the start and the day of the end, both included,
    in every time zone; each of the three time values prints back as the
    string it was parsed from. *)
Theorem custom_range_compares_days :
  forall (customStart customEnd : string) (s : FilterContext.State)
         (r : Types.ServiceRequest) (ts te tr : Z),
    JsDate.parse customStart = Some ts ->
    JsDate.parse customEnd = Some te ->
    JsDate.parse (Types.requestDate r) = Some tr ->
    let dr := FilterContext.currentDateRange
                (DateRangePicker.handleCustomApply customStart customEnd s) in
    FilterContext.preset dr = FilterContext.custom /\
    passesDateRange dr r =
    (JsDate.Day ts <=? JsDate.Day tr) && (JsDate.Day tr <=? JsDate.Day te) /\
    JsDate.toISODate ts = customStart /\ JsDate.toISODate te = customEnd /\
    JsDate.toISODate tr = Types.requestDate r.
Proof.
  intros cs ce s r ts te tr Hs He Hr dr.
  destruct (parse_toISODate _ _ Hs) as [Is Ds].
  destruct (parse_toISODate _ _ He) as [Ie De].
  destruct (parse_toISODate _ _ Hr) as [Ir Dr].
  assert (Ncs : String.eqb cs EmptyString = false) by (destruct cs; [discriminate|reflexivity]).
  assert (Nce : String.eqb ce EmptyString = false) by (destruct ce; [discriminate|reflexivity]).
  assert (Edr : dr = {| FilterContext.start := Some ts; FilterContext.end_ := Some te;
                        FilterContext.preset := FilterContext.custom |}).
  { unfold dr, DateRangePicker.handleCustomApply. rewrite Ncs, Nce, Hs, He. reflexivity. }
  split; [rewrite Edr; reflexivity|]. split; [|auto].
  rewrite Edr. unfold passesDateRange, withinBounds.
  cbn [FilterContext.preset FilterContext.start FilterContext.end_ FilterContext.isSome
       FilterContext.Preset_beq negb andb orb].
  rewrite Hr. unfold JsDate.gt, JsDate.lt.
  revert Ds De Dr.
  generalize (JsDate.Day ts) (JsDate.Day te) (JsDate.Day tr). intros ds de dr' -> -> ->.
  unfold JsDate.msPerDay.
  destruct (Z.ltb_spec (dr' * 86400000) (ds * 86400000));
    destruct (Z.ltb_spec (de * 86400000) (dr' * 86400000));
    destruct (Z.leb_spec ds dr'); destruct (Z.leb_spec dr' de); try reflexivity; lia.
Qed.

Lemma custom_range_compares_days_witness :
  passesDateRange
    (FilterContext.currentDateRange
       (DateRangePicker.handleCustomApply "2024-01-02" "2024-01-31" (FilterContext.init None)))
    recordB = true.
Proof.
  destruct (custom_range_compares_days "2024-01-02" "2024-01-31" (FilterContext.init None)
              recordB _ _ _ eq_refl eq_refl eq_refl) as [_ [H _]].
  rewrite H. reflexivity.
Defined.

(** ** The threshold form *)

Lemma digitValue_10 c : SLASettings.digitValue 10 c = JsDate.digit c.
Proof. destruct c as [[|] [|] [|] [|] [|] [|] [|] [|]]; reflexivity. Qed.

Lemma digitsPrefix_digits s :
  forall acc v, JsDate.digits s acc = Some v ->
                SLASettings.digitsPrefix 10 s (Some acc) = Some v.
Proof.
  induction s as [|c s IH]; intros acc v H; [exact H|].
  cbn [JsDate.digits SLASettings.digitsPrefix] in *. rewrite digitValue_10.
  destruct (JsDate.digit c) as [d|]; [|discriminate].
  apply IH. exact H.
Qed.

Lemma digitsPrefix_numeral d :
  d <> Decimal.Nil ->
  SLASettings.digitsPrefix 10 (NilEmpty.string_of_uint d) None
  = Some (Z.of_N (Pos.of_uint d)).
Proof.
  intros Hd. pose proof (digits_of_uint d) as H.
  destruct d; [contradiction|..];
    cbn [NilEmpty.string_of_uint JsDate.digits SLASettings.digitsPrefix] in *;
    rewrite digitValue_10;
    match goal with
    | |- context [JsDate.digit ?c] =>
        let v := eval cbv in (JsDate.digit c) in
        change (JsDate.digit c) with v in *
    end; cbv iota in *; apply digitsPrefix_digits; exact H.
Qed.

(** The numeral of a positive number is read by [parseInt] as it is
    read after a sign. *)
Lemma parseInt_positive p :
  let s := NilEmpty.string_of_uint (Pos.to_uint p) in
  SLASettings.parseInt s = Some (Z.pos p) /\
  SLASettings.parseInt (String "-" s) = Some (Z.neg p).
Proof.
  intros s.
  pose proof (digitsPrefix_numeral (Pos.to_uint p)
                (DecimalPos.Unsigned.to_uint_nonnil p)) as H.
  rewrite DecimalPos.Unsigned.of_to in H. fold s in H.
  pose proof (to_uint_nzhead p) as Hn.
  pose proof (DecimalPos.Unsigned.to_uint_nonnil p) as Hnil.
  unfold s in *. clear s.
  destruct (Pos.to_uint p) as [|u|u|u|u|u|u|u|u|u|u]; [contradiction| |..];
    [ exfalso; cbn [Decimal.nzhead] in Hn;
      pose proof (DecimalFacts.nb_digits_nzhead u) as Hle; rewrite Hn in Hle;
      cbn [nb_digits] in Hle; lia
    | .. ];
    cbn [NilEmpty.string_of_uint] in *;
    unfold SLASettings.parseInt; cbn [SLASettings.trimStart];
    match goal with
    | |- context [SLASettings.isWhiteSpace ?c] =>
        change (SLASettings.isWhiteSpace c) with false
    end;
    change (SLASettings.isWhiteSpace "-") with false; cbv iota;
    rewrite H; split; reflexivity.
Qed.

Lemma parseInt_toString z : SLASettings.parseInt (JsNumber.toString z) = Some z.
Proof.
  destruct z as [|p|p]; [reflexivity| |].
  - change (JsNumber.toString (Z.pos p)) with (NilZero.string_of_uint (Pos.to_uint p)).
    rewrite string_of_uint_nonnil by apply DecimalPos.Unsigned.to_uint_nonnil.
    apply parseInt_positive.
  - change (JsNumber.toString (Z.neg p))
      with (String "-" (NilZero.string_of_uint (Pos.to_uint p))).
    rewrite string_of_uint_nonnil by apply DecimalPos.Unsigned.to_uint_nonnil.
    apply parseInt_positive.
Qed.

(** X14 ([SLASettings.handleSave]): for ASCII texts of at most fifteen
    characters, which [parseInt] reads exactly, the thresholds saved are
    integers other than zero; saving the texts that the form shows for
    integral thresholds below 2^53 in magnitude gives these thresholds back,
    with zero replaced by the default; an empty or non-numeric text gives
    the defaults 12 and 72. *)
Theorem handleSave_thresholds :
  forall (s : SLASettings.State) (a b : Z),
    isAscii (SLASettings.responseTime s) = true ->
    isAscii (SLASettings.resolutionTime s) = true ->
    (String.length (SLASettings.responseTime s) <= 15)%nat ->
    (String.length (SLASettings.resolutionTime s) <= 15)%nat ->
    Z.abs a < 2 ^ 53 ->
    Z.abs b < 2 ^ 53 ->
    nonzeroInteger (SLAContext.responseTimeHours (SLASettings.handleSave s)) /\
    nonzeroInteger (SLAContext.resolutionTimeHours (SLASettings.handleSave s)) /\
    SLASettings.handleSave (SLASettings.init a b) =
    {| SLAContext.responseTimeHours := inject_Z (if a =? 0 then 12 else a);
       SLAContext.resolutionTimeHours := inject_Z (if b =? 0 then 72 else b) |} /\
    SLASettings.handleSave
      {| SLASettings.responseTime := EmptyString; SLASettings.resolutionTime := "abc" |}
    = SLAContext.defaultThresholds.
Proof.
  intros s a b _ _ _ _ _ _.
  assert (Hnz : forall n d, d <> 0 -> SLASettings.orDefault n d <> 0).
  { intros n d Hd. unfold SLASettings.orDefault. destruct n as [v|]; [|exact Hd].
    destruct (Z.eqb_spec v 0); assumption. }
  split; [|split; [|split]].
  - eexists. split; [|reflexivity]. apply Hnz. discriminate.
  - eexists. split; [|reflexivity]. apply Hnz. discriminate.
  - unfold SLASettings.handleSave, SLASettings.init.
    cbn [SLASettings.responseTime SLASettings.resolutionTime].
    rewrite !parseInt_toString. reflexivity.
  - reflexivity.
Qed.

(** X14 on the texts 24 and 0x30, and on the thresholds 0 and -3. *)
Lemma handleSave_thresholds_witness :
  SLASettings.handleSave
    {| SLASettings.responseTime := "24"; SLASettings.resolutionTime := "0x30" |}
  = {| SLAContext.responseTimeHours := 24; SLAContext.resolutionTimeHours := 48 |} /\
  SLASettings.handleSave (SLASettings.init 0 (-3)) =
  {| SLAContext.responseTimeHours := 12; SLAContext.resolutionTimeHours := inject_Z (-3) |}.
Proof.
  split; [reflexivity|].
  refine (proj1 (proj2 (proj2
    (handleSave_thresholds
       {| SLASettings.responseTime := "24"; SLASettings.resolutionTime := "0x30" |}
       0 (-3) _ _ _ _ _ _)))).
  - reflexivity.
  - reflexivity.
  - simpl. lia.
  - simpl. lia.
  - reflexivity.
  - reflexivity.
Defined.

(** X15 ([SLASettings.handleSave] with [getBreachCount]): a negative response
    threshold (an integer above -2^53, shown by the form with all its
    digits) is saved as it is, no lower bound is enforced; every record with
    a non-negative response time is then in breach. *)
Theorem negative_threshold_flags_every_record :
  forall (a b : Z) (data : list Types.ServiceRequest),
    - 2 ^ 53 < a < 0 ->
    Z.abs b < 2 ^ 53 ->
    Forall (fun r => 0 <= Types.timeToRespond r)%Q data ->
    let th := SLASettings.handleSave (SLASettings.init a b) in
    SLAContext.responseTimeHours th = inject_Z a /\
    SLAContext.getBreachCount th data = List.length data.
Proof.
  intros a b data Ha _ Hdata th.
  assert (Eth : SLAContext.responseTimeHours th = inject_Z a).
  { unfold th, SLASettings.handleSave, SLASettings.init.
    cbn [SLASettings.responseTime SLAContext.responseTimeHours].
    rewrite parseInt_toString. unfold SLASettings.orDefault.
    destruct (Z.eqb_spec a 0); [lia|reflexivity]. }
  split; [exact Eth|].
  unfold SLAContext.getBreachCount. f_equal.
  rewrite <- (filter_true data) at 2. apply filter_ext_in. intros r Hr.
  rewrite Forall_forall in Hdata. specialize (Hdata r Hr).
  unfold SLAContext.isBreachingSLA, SLAContext.isBreachingResponse.
  apply orb_true_iff. left. apply gt_iff. rewrite Eth.
  eapply Qlt_le_trans; [|exact Hdata].
  unfold Qlt, inject_Z. simpl. lia.
Qed.

Lemma negative_threshold_flags_every_record_witness :
  SLAContext.getBreachCount (SLASettings.handleSave (SLASettings.init (-5) 72))
    [recordA; recordB] = 2%nat.
Proof.
  apply (negative_threshold_flags_every_record (-5) 72 [recordA; recordB]).
  - lia.
  - reflexivity.
  - repeat constructor; simpl; q_le.
Defined.

(** ** Sorting and paging *)

Section InsertionSort.
Context {A : Type}.
Variable cmp : A -> A -> comparison.

Lemma insert_perm x l : Permutation (DataTable.insert cmp x l) (x :: l).
Proof.
  induction l as [|y l IH]; simpl; [reflexivity|].
  destruct (cmp x y); try reflexivity.
  rewrite IH. apply perm_swap.
Qed.

Lemma sort_perm l : Permutation (DataTable.sort cmp l) l.
Proof.
  induction l as [|x l IH]; simpl; [reflexivity|].
  rewrite insert_perm. apply perm_skip, IH.
Qed.

Variable le : A -> A -> Prop.
Hypothesis le_trans : forall a b c, le a b -> le b c -> le a c.
Hypothesis cmp_le : forall a b, cmp a b <> Gt -> le a b.
Hypothesis cmp_gt : forall a b, cmp a b = Gt -> le b a.

Lemma insert_sorted x l :
  StronglySorted le l -> StronglySorted le (DataTable.insert cmp x l).
Proof.
  induction 1 as [|y l Hs IH Hy]; simpl; [repeat constructor|].
  destruct (cmp x y) eqn:E.
  - constructor; [constructor; assumption|].
    assert (Hxy : le x y) by (apply cmp_le; congruence).
    constructor; [exact Hxy|].
    eapply Forall_impl; [|exact Hy]. intros z Hz. eapply le_trans; eauto.
  - constructor; [constructor; assumption|].
    assert (Hxy : le x y) by (apply cmp_le; congruence).
    constructor; [exact Hxy|].
    eapply Forall_impl; [|exact Hy]. intros z Hz. eapply le_trans; eauto.
  - constructor; [exact IH|].
    eapply Permutation_Forall; [symmetry; apply insert_perm|].
    constructor; [apply cmp_gt, E|exact Hy].
Qed.

Lemma sort_sorted l : StronglySorted le (DataTable.sort cmp l).
Proof.
  induction l as [|x l IH]; simpl; [constructor|]. apply insert_sorted, IH.
Qed.

Variable p : A -> bool.
Hypothesis cmp_class : forall a b, cmp a b = Gt -> p a = true -> p b = false.

Lemma insert_stable x l :
  filter p (DataTable.insert cmp x l) = filter p (x :: l).
Proof.
  induction l as [|y l IH]; [reflexivity|].
  cbn [DataTable.insert]. destruct (cmp x y) eqn:E; try reflexivity.
  cbn [filter] in *. rewrite IH.
  destruct (p x) eqn:Px; [|reflexivity].
  rewrite (cmp_class _ _ E Px). reflexivity.
Qed.

Lemma sort_stable l : filter p (DataTable.sort cmp l) = filter p l.
Proof.
  induction l as [|x l IH]; [reflexivity|].
  cbn [DataTable.sort fold_right]. fold (DataTable.sort cmp l).
  rewrite insert_stable. cbn [filter]. rewrite IH. reflexivity.
Qed.

End InsertionSort.

Lemma isNumeric_field key r :
  isNumeric key = true -> exists n, DataTable.field key r = DataTable.NumberValue n.
Proof. destruct key; try discriminate; intros _; eexists; reflexivity. Qed.

(** X16 ([sortedData]): for a numeric column (site count, time to respond,
    time to resolution) the sorted rows are a rearrangement of the filtered
    rows, ordered by the column in the direction chosen, and rows with the
    same number keep the order they had: the sort is stable in both
    directions. *)
Theorem sortedData_numeric_column :
  forall (localeCompare : string -> string -> comparison)
         (filteredData : list Types.ServiceRequest) (s : DataTable.State) (q : Q),
    isNumeric (DataTable.sortKey s) = true ->
    let sorted := DataTable.sortedData localeCompare filteredData s in
    Permutation sorted filteredData /\
    StronglySorted (inOrder (DataTable.sortKey s) (DataTable.sortDirection s)) sorted /\
    filter (holds (DataTable.sortKey s) q) sorted =
    filter (holds (DataTable.sortKey s) q) filteredData.
Proof.
  intros lc l s q Hnum sorted. split; [apply sort_perm|].
  assert (Hf : forall r, exists n, DataTable.field (DataTable.sortKey s) r
                                   = DataTable.NumberValue n)
    by (intros r; apply isNumeric_field, Hnum).
  split.
  - apply sort_sorted.
    + intros a b c. unfold inOrder, numberOf.
      destruct (Hf a) as [x ->], (Hf b) as [y ->], (Hf c) as [z ->].
      destruct (DataTable.sortDirection s); intros H1 H2; eapply Qle_trans; eauto.
    + intros a b. unfold DataTable.compareRows, inOrder, numberOf.
      destruct (Hf a) as [x ->], (Hf b) as [y ->].
      destruct (DataTable.sortDirection s); intros H.
      * apply Qnot_lt_le. intros Hlt. apply H. apply Qgt_alt. exact Hlt.
      * apply Qnot_lt_le. intros Hlt. apply H. apply Qgt_alt. exact Hlt.
    + intros a b. unfold DataTable.compareRows, inOrder, numberOf.
      destruct (Hf a) as [x ->], (Hf b) as [y ->].
      destruct (DataTable.sortDirection s); intros H.
      * apply Qlt_le_weak. apply Qgt_alt in H. exact H.
      * apply Qlt_le_weak. apply Qgt_alt in H. exact H.
  - apply sort_stable.
    intros a b. unfold DataTable.compareRows, holds, numberOf.
    destruct (Hf a) as [x ->], (Hf b) as [y ->].
    intros H Ha. apply Qeq_bool_iff in Ha.
    destruct (Qeq_bool y q) eqn:Eb; [|reflexivity].
    apply Qeq_bool_iff in Eb. exfalso.
    assert (Exy : (x == y)%Q) by (rewrite Ha, Eb; reflexivity).
    destruct (DataTable.sortDirection s); apply Qgt_alt in H; rewrite Exy in H;
      apply (Qlt_irrefl _ H).
Qed.

Lemma sortedData_numeric_column_witness :
  map Types.requestDate
      (DataTable.sortedData String.compare threeRecords (byResponseTime DataTable.asc))
  = ["2024-01-03"; "2024-01-01"; "2024-01-02"] /\
  map Types.requestDate
      (DataTable.sortedData String.compare threeRecords (byResponseTime DataTable.desc))
  = ["2024-01-01"; "2024-01-02"; "2024-01-03"] /\
  filter (holds DataTable.k_timeToRespond 5)
         (DataTable.sortedData String.compare threeRecords (byResponseTime DataTable.desc))
  = filter (holds DataTable.k_timeToRespond 5) threeRecords.
Proof.
  split; [reflexivity|]. split; [reflexivity|].
  apply (sortedData_numeric_column String.compare threeRecords
           (byResponseTime DataTable.desc) 5).
  reflexivity.
Defined.

Lemma chunks_concat {A} (n : nat) :
  forall (l : list A),
    (List.length l <= 50 * n)%nat ->
    List.concat (map (fun i => firstn 50 (skipn (50 * i) l)) (seq 0 n)) = l.
Proof.
  induction n as [|n IH]; intros l Hl.
  - destruct l; [reflexivity|simpl in Hl; lia].
  - cbn [seq map List.concat]. rewrite <- seq_shift, map_map.
    transitivity (firstn 50 l ++ skipn 50 l); [|apply firstn_skipn].
    replace (50 * 0)%nat with 0%nat by lia. change (skipn 0 l) with l. f_equal.
    transitivity (List.concat (map (fun i => firstn 50 (skipn (50 * i) (skipn 50 l)))
                                   (seq 0 n))).
    + f_equal. apply map_ext. intros i.
      rewrite skipn_skipn. f_equal. f_equal. lia.
    + apply IH. rewrite length_skipn. lia.
Qed.

Lemma pageAt_chunk (l : list Types.ServiceRequest) (i : nat) :
  pageAt l (Z.of_nat (S i)) = firstn 50 (skipn (50 * i) l).
Proof.
  unfold pageAt, DataTable.paginatedData, DataTable.slice, DataTable.ITEMS_PER_PAGE.
  cbn [DataTable.currentPage DataTable.setCurrentPage].
  f_equal; [|f_equal]; lia.
Qed.

Lemma totalPages_spec (l : list Types.ServiceRequest) :
  let n := Z.to_nat (DataTable.totalPages l) in
  (List.length l <= 50 * n)%nat /\ (50 * n < List.length l + 50)%nat.
Proof.
  unfold DataTable.totalPages, DataTable.ITEMS_PER_PAGE.
  Z.to_euclidean_division_equations. lia.
Qed.

Lemma allPages_chunks (l : list Types.ServiceRequest) :
  allPages l =
  map (fun i => firstn 50 (skipn (50 * i) l)) (seq 0 (Z.to_nat (DataTable.totalPages l))).
Proof.
  unfold allPages. rewrite <- seq_shift, map_map.
  apply map_ext. intros i. apply pageAt_chunk.
Qed.

(** X17 ([totalPages], [paginatedData], [sortedData]): the pages 1 to
    [totalPages], one after the other, are the sorted rows, so every filtered
    row is on exactly one page; each of these pages has between 1 and 50 rows;
    there is no page exactly when no row passes the filters. *)
Theorem pages_partition_the_rows :
  forall (localeCompare : string -> string -> comparison)
         (filteredData : list Types.ServiceRequest) (s : DataTable.State),
    let sortedData := DataTable.sortedData localeCompare filteredData s in
    List.concat (allPages sortedData) = sortedData /\
    Permutation (List.concat (allPages sortedData)) filteredData /\
    Forall (fun page => (1 <= List.length page <= 50)%nat) (allPages sortedData) /\
    (DataTable.totalPages sortedData = 0 <-> filteredData = []).
Proof.
  intros lc fd s sortedData.
  pose proof (totalPages_spec sortedData) as [Hle Hlt].
  assert (Hc : List.concat (allPages sortedData) = sortedData).
  { rewrite allPages_chunks. apply chunks_concat. exact Hle. }
  assert (Hp : Permutation sortedData fd) by apply sort_perm.
  split; [exact Hc|]. split; [rewrite Hc; exact Hp|]. split.
  - rewrite allPages_chunks. apply Forall_forall. intros page Hin.
    apply in_map_iff in Hin. destruct Hin as [i [<- Hi]].
    apply in_seq in Hi. rewrite length_firstn, length_skipn. lia.
  - pose proof (Permutation_length Hp) as Hlen.
    unfold DataTable.totalPages, DataTable.ITEMS_PER_PAGE in *.
    split.
    + intros H0. destruct fd; [reflexivity|]. exfalso. simpl in Hlen.
      revert H0 Hlen. generalize (List.length sortedData). intros n.
      Z.to_euclidean_division_equations. lia.
    + intros ->. reflexivity.
Qed.

(** X18 (the buttons Previous and Next): from a page between 1 and
    [totalPages] the buttons move by at most one page, stay between 1 and
    [totalPages], and the page shown is not empty. *)
Theorem page_buttons_stay_in_range :
  forall (sortedData : list Types.ServiceRequest) (s : DataTable.State) (e : DataTable.Event),
    e = DataTable.Previous \/ e = DataTable.Next ->
    1 <= DataTable.currentPage s <= DataTable.totalPages sortedData ->
    let s' := DataTable.handle (DataTable.totalPages sortedData) e s in
    1 <= DataTable.currentPage s' <= DataTable.totalPages sortedData /\
    Z.abs (DataTable.currentPage s' - DataTable.currentPage s) <= 1 /\
    DataTable.paginatedData sortedData s' <> [].
Proof.
  intros l s e He Hp s'.
  assert (Hr : 1 <= DataTable.currentPage s' <= DataTable.totalPages l /\
               Z.abs (DataTable.currentPage s' - DataTable.currentPage s) <= 1).
  { unfold s'. destruct He as [-> | ->]; cbn; lia. }
  destruct Hr as [Hr Ha]. split; [exact Hr|]. split; [exact Ha|].
  pose proof (totalPages_spec l) as [Hle Hlt].
  unfold DataTable.paginatedData, DataTable.slice, DataTable.ITEMS_PER_PAGE.
  intros Hnil. apply (f_equal (@List.length _)) in Hnil.
  rewrite length_firstn, length_skipn in Hnil. simpl in Hnil. lia.
Qed.

Lemma page_buttons_stay_in_range_witness :
  DataTable.paginatedData sixtyRecords
    (DataTable.handle (DataTable.totalPages sixtyRecords) DataTable.Next
       (DataTable.handle (DataTable.totalPages sixtyRecords) DataTable.Next DataTable.init))
  <> [].
Proof.
  apply (page_buttons_stay_in_range sixtyRecords
           (DataTable.handle (DataTable.totalPages sixtyRecords) DataTable.Next DataTable.init)
           DataTable.Next).
  - right. reflexivity.
  - vm_compute. split; discriminate.
Defined.

(** ** The search box, the column headers and the rows *)

Lemma string_app_assoc (a b c : string) : ((a ++ b) ++ c = a ++ (b ++ c))%string.
Proof. induction a as [|x a IH]; simpl; [reflexivity|]. rewrite IH. reflexivity. Qed.

Lemma prefix_iff (p s : string) :
  String.prefix p s = true <-> exists post, s = (p ++ post)%string.
Proof.
  revert p. induction s as [|c s IH]; intros p.
  - destruct p as [|a p]; simpl.
    + split; [exists EmptyString; reflexivity|reflexivity].
    + split; [discriminate|intros [post H]; discriminate].
  - destruct p as [|a p]; simpl.
    + split; [intros _; eexists; reflexivity|reflexivity].
    + destruct (ascii_dec a c) as [->|Hne].
      * rewrite IH. split; intros [post H]; exists post; [rewrite H; reflexivity|].
        injection H as H. exact H.
      * split; [discriminate|]. intros [post H]. injection H as H1 H2. congruence.
Qed.

Lemma includes_iff (s sub : string) :
  DataTable.includes s sub = true <-> exists pre post, s = (pre ++ sub ++ post)%string.
Proof.
  induction s as [|c s IH].
  - cbn [DataTable.includes]. rewrite orb_false_r, prefix_iff. split.
    + intros [post H]. exists EmptyString, post. exact H.
    + intros [pre [post H]]. destruct pre; [|discriminate].
      exists post. exact H.
  - cbn [DataTable.includes]. rewrite orb_true_iff, prefix_iff, IH. split.
    + intros [[post H]|[pre [post H]]].
      * exists EmptyString, post. exact H.
      * exists (String c pre), post. rewrite H. reflexivity.
    + intros [pre [post H]]. destruct pre as [|a pre].
      * left. exists post. exact H.
      * right. injection H as _ H. exists pre, post. exact H.
Qed.

Lemma includes_trans (a b c : string) :
  DataTable.includes a b = true -> DataTable.includes b c = true ->
  DataTable.includes a c = true.
Proof.
  rewrite !includes_iff. intros [p1 [q1 ->]] [p2 [q2 ->]].
  exists (p1 ++ p2)%string, (q2 ++ q1)%string.
  rewrite !string_app_assoc. reflexivity.
Qed.

Lemma lower_idem c : DataTable.lower (DataTable.lower c) = DataTable.lower c.
Proof. destruct c as [[|] [|] [|] [|] [|] [|] [|] [|]]; reflexivity. Qed.

Lemma toLowerCase_idem s :
  DataTable.toLowerCase (DataTable.toLowerCase s) = DataTable.toLowerCase s.
Proof. induction s as [|c s IH]; simpl; [reflexivity|]. rewrite lower_idem, IH. reflexivity. Qed.

Lemma toLowerCase_empty s :
  String.eqb (DataTable.toLowerCase s) EmptyString = String.eqb s EmptyString.
Proof. destruct s; reflexivity. Qed.

Lemma includes_in_empty sub : DataTable.includes EmptyString sub = true -> sub = EmptyString.
Proof. destruct sub; [reflexivity|discriminate]. Qed.

Lemma keep_search v s F dr item :
  DataTable.keep (DataTable.setSearch v s) F dr item =
  DataTable.keep (DataTable.setSearch EmptyString s) F dr item && matchesSearch v item.
Proof.
  unfold DataTable.keep, matchesSearch.
  cbn [DataTable.search DataTable.setSearch DataTable.verticalFilter DataTable.statusFilter
       DataTable.categoryFilter DataTable.urgencyFilter DataTable.priorityFilter
       DataTable.healthFilter].
  destruct (negb _ && _);
    [destruct (FilterContext.isSome (FilterContext.start dr) && _); [reflexivity|];
     destruct (FilterContext.isSome (FilterContext.end_ dr) && _); [reflexivity|]|];
    cbv zeta; change (String.eqb EmptyString EmptyString) with true; cbn [orb];
    generalize (String.eqb v EmptyString
                || DataTable.includes (DataTable.toLowerCase (Types.accountName item))
                     (DataTable.toLowerCase v)
                || DataTable.includes (DataTable.toLowerCase (Types.requestId item))
                     (DataTable.toLowerCase v)); intros b;
    repeat match goal with |- context [DataTable.matches ?e ?x ?o] =>
             generalize (DataTable.matches e x o); intros ? end;
    repeat match goal with b : bool |- _ => destruct b end; reflexivity.
Qed.

Lemma setSearch_same s : DataTable.setSearch (DataTable.search s) s = s.
Proof. destruct s; reflexivity. Qed.

Lemma matchesSearch_narrows v w item :
  DataTable.includes (DataTable.toLowerCase v) (DataTable.toLowerCase w) = true ->
  matchesSearch v item = true -> matchesSearch w item = true.
Proof.
  intros Hvw. unfold matchesSearch. rewrite !orb_true_iff.
  intros [[Hv|Hv]|Hv].
  - apply String.eqb_eq in Hv. subst v. apply includes_in_empty in Hvw.
    left. left. rewrite <- toLowerCase_empty, Hvw. reflexivity.
  - left. right. eapply includes_trans; eauto.
  - right. eapply includes_trans; eauto.
Qed.

(** X19 ([DataTable.filteredData], the search predicate): on ASCII text,
    where lower case is the change of the letters A to Z, a search term
    that contains the current one, letter case aside, shows rows that are
    among the current rows, in their order; the letter case of the term
    makes no difference. *)
Theorem longer_search_fewer_rows :
  forall (data : list Types.ServiceRequest) (s : DataTable.State)
         (F : FilterContext.ChartFilters) (dr : FilterContext.DateRange) (v : string),
    isAscii v = true ->
    isAscii (DataTable.search s) = true ->
    Forall asciiRecord data ->
    DataTable.includes (DataTable.toLowerCase v) (DataTable.toLowerCase (DataTable.search s))
    = true ->
    Subseq (DataTable.filteredData data (DataTable.setSearch v s) F dr)
           (DataTable.filteredData data s F dr) /\
    DataTable.filteredData data (DataTable.setSearch (DataTable.toLowerCase v) s) F dr =
    DataTable.filteredData data (DataTable.setSearch v s) F dr.
Proof.
  intros data s F dr v _ _ _ Hv. split.
  - rewrite <- (setSearch_same s) at 2. unfold DataTable.filteredData.
    apply Subseq_filter_weaker. intros item.
    rewrite (keep_search v), (keep_search (DataTable.search s)).
    rewrite !andb_true_iff. intros [H1 H2]. split; [exact H1|].
    eapply matchesSearch_narrows; eauto.
  - unfold DataTable.filteredData. apply filter_ext. intros item.
    rewrite (keep_search v), (keep_search (DataTable.toLowerCase v)).
    f_equal. unfold matchesSearch.
    rewrite toLowerCase_idem, toLowerCase_empty. reflexivity.
Qed.

Lemma longer_search_fewer_rows_witness :
  Subseq (DataTable.filteredData [recordA; recordB]
            (DataTable.setSearch "Account B" (DataTable.setSearch "ACCOUNT" DataTable.init))
            FilterContext.defaultChartFilters FilterContext.defaultDateRange)
         (DataTable.filteredData [recordA; recordB]
            (DataTable.setSearch "ACCOUNT" DataTable.init)
            FilterContext.defaultChartFilters FilterContext.defaultDateRange).
Proof.
  apply (longer_search_fewer_rows [recordA; recordB]
           (DataTable.setSearch "ACCOUNT" DataTable.init)
           FilterContext.defaultChartFilters FilterContext.defaultDateRange "Account B").
  - reflexivity.
  - reflexivity.
  - repeat constructor.
  - vm_compute. reflexivity.
Defined.

Lemma SortKey_beq_refl k : DataTable.SortKey_beq k k = true.
Proof. destruct k; reflexivity. Qed.

(** X20 ([handleSort]): a click on a header makes its column the sort key,
    ascending if it was not the key and in the other direction if it was; a
    second click reverses the direction and a third one gives the state after
    the first; the page and the filtered rows are not changed. *)
Theorem handleSort_clicks :
  forall (key : DataTable.SortKey) (s : DataTable.State) (data : list Types.ServiceRequest)
         (F : FilterContext.ChartFilters) (dr : FilterContext.DateRange),
    let s1 := DataTable.handleSort key s in
    let s2 := DataTable.handleSort key s1 in
    DataTable.sortKey s1 = key /\
    DataTable.sortDirection s1 =
    (if DataTable.SortKey_beq (DataTable.sortKey s) key
     then flipDirection (DataTable.sortDirection s) else DataTable.asc) /\
    DataTable.sortKey s2 = key /\
    DataTable.sortDirection s2 = flipDirection (DataTable.sortDirection s1) /\
    DataTable.handleSort key s2 = s1 /\
    DataTable.currentPage s1 = DataTable.currentPage s /\
    DataTable.filteredData data s1 F dr = DataTable.filteredData data s F dr.
Proof.
  intros key s data F dr s1 s2.
  assert (K1 : DataTable.sortKey s1 = key).
  { unfold s1, DataTable.handleSort.
    destruct (DataTable.SortKey_beq (DataTable.sortKey s) key) eqn:E; [|reflexivity].
    cbn. destruct (DataTable.sortKey s), key; try discriminate; reflexivity. }
  assert (E2 : s2 = DataTable.setSortDirection (flipDirection (DataTable.sortDirection s1)) s1).
  { unfold s2, DataTable.handleSort. rewrite K1, SortKey_beq_refl. reflexivity. }
  assert (K2 : DataTable.sortKey s2 = key) by (rewrite E2; exact K1).
  split; [exact K1|]. split.
  { unfold s1, DataTable.handleSort.
    destruct (DataTable.SortKey_beq (DataTable.sortKey s) key); reflexivity. }
  split; [exact K2|]. split; [rewrite E2; reflexivity|]. split.
  { unfold DataTable.handleSort at 1. rewrite K2, SortKey_beq_refl.
    rewrite E2. destruct s1 as [? ? ? ? ? ? ? ? d ?]. cbn. destruct d; reflexivity. }
  split.
  { unfold s1, DataTable.handleSort.
    destruct (DataTable.SortKey_beq (DataTable.sortKey s) key); reflexivity. }
  unfold DataTable.filteredData. apply filter_ext. intros item.
  unfold s1, DataTable.handleSort.
  destruct (DataTable.SortKey_beq (DataTable.sortKey s) key); reflexivity.
Qed.

Lemma has_app x a b : DataTable.has x (a ++ b) = DataTable.has x a || DataTable.has x b.
Proof. unfold DataTable.has. apply existsb_app. Qed.

Lemma has_delete x y set :
  DataTable.has x (DataTable.delete y set) = negb (String.eqb x y) && DataTable.has x set.
Proof.
  unfold DataTable.has, DataTable.delete. induction set as [|z set IH]; simpl.
  - rewrite andb_false_r. reflexivity.
  - destruct (String.eqb_spec z y) as [->|Hzy]; simpl.
    + rewrite IH. destruct (String.eqb_spec x y) as [->|Hxy]; simpl; [reflexivity|].
      destruct (String.eqb_spec x y); [contradiction|]. reflexivity.
    + rewrite IH. destruct (String.eqb_spec x z) as [->|Hxz]; simpl; [|reflexivity].
      destruct (String.eqb_spec z y); [contradiction|]. reflexivity.
Qed.

Lemma has_toggle i x set :
  DataTable.has x (DataTable.toggleRowExpansion i set) =
  (if String.eqb x i then negb (DataTable.has x set) else DataTable.has x set).
Proof.
  unfold DataTable.toggleRowExpansion. cbv zeta.
  destruct (DataTable.has i set) eqn:Hi.
  - rewrite has_delete. destruct (String.eqb_spec x i) as [->|Hne]; simpl.
    + rewrite Hi. reflexivity.
    + reflexivity.
  - unfold DataTable.add. rewrite Hi, has_app. simpl.
    destruct (String.eqb_spec x i) as [->|Hne]; simpl.
    + rewrite Hi. reflexivity.
    + rewrite orb_false_r. reflexivity.
Qed.

(** X21 ([toggleRowExpansion]): toggling a row changes whether that row is
    expanded and no other row; toggling it twice gives the expansion of every
    row back. *)
Theorem toggleRowExpansion_flips_one_row :
  forall (requestId x : string) (prev : list string),
    DataTable.has x (DataTable.toggleRowExpansion requestId prev) =
    (if String.eqb x requestId then negb (DataTable.has x prev) else DataTable.has x prev) /\
    DataTable.has x (DataTable.toggleRowExpansion requestId
                       (DataTable.toggleRowExpansion requestId prev))
    = DataTable.has x prev.
Proof.
  intros i x prev. split; [apply has_toggle|].
  rewrite !has_toggle. destruct (String.eqb x i); [apply negb_involutive|reflexivity].
Qed.

(** X22 ([handleKeyDown] of the table): on a page with rows, from a focus
    index between -1 and the last row, the arrow keys put the focus on a row
    of the page and change no expansion; Enter then toggles the expansion of
    exactly that row. *)
Theorem arrow_keys_focus_a_row :
  forall (paginatedData : list Types.ServiceRequest) (r : DataTable.RowState)
         (key : DataTable.Key),
    paginatedData <> [] ->
    -1 <= DataTable.focusedRowIndex r < Z.of_nat (List.length paginatedData) ->
    key = DataTable.ArrowDown \/ key = DataTable.ArrowUp ->
    let r' := DataTable.handleKeyDown paginatedData key r in
    DataTable.expandedRows r' = DataTable.expandedRows r /\
    exists item,
      nth_error paginatedData (Z.to_nat (DataTable.focusedRowIndex r')) = Some item /\
      0 <= DataTable.focusedRowIndex r' /\
      DataTable.handleKeyDown paginatedData DataTable.Enter r' =
      {| DataTable.expandedRows :=
           DataTable.toggleRowExpansion (Types.requestId item) (DataTable.expandedRows r);
         DataTable.focusedRowIndex := DataTable.focusedRowIndex r' |}.
Proof.
  intros page r key Hne Hidx Hkey r'.
  assert (Hlen : (Z.of_nat (List.length page) =? 0) = false).
  { apply Z.eqb_neq. destruct page; [contradiction|]. simpl. lia. }
  assert (Hr' : DataTable.expandedRows r' = DataTable.expandedRows r /\
                0 <= DataTable.focusedRowIndex r' < Z.of_nat (List.length page)).
  { unfold r', DataTable.handleKeyDown. cbv zeta. rewrite Hlen.
    destruct Hkey as [-> | ->];
      cbn [DataTable.expandedRows DataTable.focusedRowIndex]; split; try reflexivity; lia. }
  destruct Hr' as [He Hi]. split; [exact He|].
  destruct (nth_error page (Z.to_nat (DataTable.focusedRowIndex r'))) as [item|] eqn:En.
  - exists item. split; [reflexivity|]. split; [lia|].
    unfold DataTable.handleKeyDown at 1. cbv zeta. rewrite Hlen.
    replace (0 <=? DataTable.focusedRowIndex r') with true by (symmetry; apply Z.leb_le; lia).
    replace (DataTable.focusedRowIndex r' <? Z.of_nat (List.length page)) with true
      by (symmetry; apply Z.ltb_lt; lia).
    cbn [andb]. rewrite En, He. reflexivity.
  - exfalso. apply nth_error_None in En. lia.
Qed.

Lemma arrow_keys_focus_a_row_witness :
  DataTable.expandedRows
    (DataTable.handleKeyDown [recordA; recordB] DataTable.Enter
       (DataTable.handleKeyDown [recordA; recordB] DataTable.ArrowDown DataTable.initRows))
  = ["A"].
Proof.
  destruct (arrow_keys_focus_a_row [recordA; recordB] DataTable.initRows DataTable.ArrowDown)
    as [_ [item [Hn [_ He]]]].
  - discriminate.
  - simpl. lia.
  - left. reflexivity.
  - rewrite He. injection Hn as <-. reflexivity.
Defined.

(** ** The chart of the average resolution time *)

Section GroupFold.
Context {V : Type}.
Variable key : Types.ServiceRequest -> string.
Variable v0 : V.
Variable u : V -> Types.ServiceRequest -> V.

Lemma group_cons_same x l : groupOf key (key x) (x :: l) = x :: groupOf key (key x) l.
Proof. unfold groupOf. simpl. rewrite String.eqb_refl. reflexivity. Qed.

Lemma group_cons_other k x l : k <> key x -> groupOf key k (x :: l) = groupOf key k l.
Proof.
  intros H. unfold groupOf. simpl. destruct (String.eqb_spec k (key x)); [contradiction|].
  reflexivity.
Qed.

Lemma get_In k (v : V) o : NoDup (keys o) -> In (k, v) o -> Charts.get k o = Some v.
Proof.
  intros Hnd Hin. induction o as [|[k' v'] o IH]; [destruct Hin|].
  inversion Hnd as [|? ? Hnot Hnd']; subst. simpl.
  destruct (String.eqb_spec k' k) as [->|Hne].
  - destruct Hin as [E|Hin]; [congruence|].
    exfalso. apply Hnot. apply (in_map fst) in Hin. exact Hin.
  - destruct Hin as [E|Hin]; [congruence|]. apply IH; assumption.
Qed.

Lemma groupStep_fold (l : list Types.ServiceRequest) :
  forall (o : list (string * V)),
    NoDup (keys o) ->
    fold_left (groupStep key v0 u) l o =
    map (fun e => (fst e, fold_left u (groupOf key (fst e) l) (snd e))) o ++
    map (fun k => (k, fold_left u (groupOf key k l) v0))
        (filter (fun k => negb (mem k (keys o))) (distinct (map key l))).
Proof.
  induction l as [|x l IH]; intros o Hnd.
  - simpl. rewrite app_nil_r. rewrite <- (map_id o) at 1.
    apply map_ext. intros [k n]. reflexivity.
  - cbn [fold_left map distinct]. unfold groupStep at 2.
    destruct (Charts.get (key x) o) as [n|] eqn:Hget.
    + assert (Hin : In (key x) (keys o)).
      { destruct (in_dec string_dec (key x) (keys o)) as [H|H]; [exact H|].
        apply get_none_iff in H. congruence. }
      rewrite (set_present (key x) _ n o Hnd Hget).
      rewrite IH.
      2:{ rewrite keys_map_entry; [exact Hnd|].
          intros e. destruct (String.eqb (fst e) (key x)); reflexivity. }
      rewrite keys_map_entry
        by (intros e; destruct (String.eqb (fst e) (key x)); reflexivity).
      cbn [filter]. apply mem_iff in Hin as Hmem. rewrite Hmem. cbn [negb].
      rewrite (distinct_filter_absent (key x) (keys o) (distinct (map key l)) Hin).
      f_equal.
      * rewrite map_map. apply map_ext_in. intros [k m] Hk. cbn [fst snd].
        destruct (String.eqb_spec k (key x)) as [->|Hne]; cbn [fst snd].
        -- rewrite group_cons_same. cbn [fold_left].
           rewrite (get_In _ _ _ Hnd Hk) in Hget. injection Hget as ->. reflexivity.
        -- rewrite group_cons_other by exact Hne. reflexivity.
      * apply map_ext_in. intros k Hk. apply filter_In in Hk as [_ Hk].
        apply negb_true_iff, mem_false_iff in Hk.
        rewrite group_cons_other; [reflexivity|].
        intros ->. contradiction.
    + apply get_none_iff in Hget.
      rewrite (set_absent (key x) _ o Hget).
      rewrite IH.
      2:{ unfold keys. rewrite map_app. simpl.
          apply NoDup_app; [exact Hnd | repeat constructor; intros [] |].
          intros a Ha [<-|[]]. contradiction. }
      cbn [filter]. apply mem_false_iff in Hget as Hmem. rewrite Hmem. cbn [negb map].
      rewrite map_app. cbn [map fst snd]. rewrite <- app_assoc. cbn [app].
      rewrite group_cons_same. cbn [fold_left]. f_equal.
      * apply map_ext_in. intros [k m] Hk. cbn [fst snd].
        rewrite group_cons_other; [reflexivity|].
        intros ->. apply Hget. apply (in_map fst) in Hk. exact Hk.
      * simpl ([_] ++ _). f_equal.
        rewrite filter_filter. unfold keys at 1. rewrite map_app. cbn [map fst].
        fold (keys o).
        rewrite (filter_ext (fun k => negb (mem k (keys o ++ [key x])))
                  (fun k => negb (String.eqb k (key x)) && negb (mem k (keys o)))).
        2:{ intros k. unfold mem. rewrite existsb_app. simpl. rewrite orb_false_r.
            rewrite negb_orb. apply andb_comm. }
        apply map_ext_in. intros k Hk. apply filter_In in Hk as [_ Hk].
        apply andb_true_iff in Hk as [Hk _].
        apply negb_true_iff in Hk.
        rewrite group_cons_other; [reflexivity|].
        intros ->. rewrite String.eqb_refl in Hk. discriminate.
Qed.

End GroupFold.

Lemma totals_fold (g : list Types.ServiceRequest) :
  forall sum count,
    fold_left (fun (acc : Q * nat) item =>
                 ((fst acc + Types.timeToResolution item)%Q, (snd acc + 1)%nat))
              g (sum, count)
    = (fold_left (fun s d => (s + Types.timeToResolution d)%Q) g sum,
       (count + List.length g)%nat).
Proof.
  induction g as [|x g IH]; intros sum count; simpl.
  - f_equal. lia.
  - rewrite IH. f_equal. lia.
Qed.

Lemma addTotal_groupStep item totals :
  Charts.addTotal item totals =
  groupStep (fun item => Types.Vertical_name (Types.vertical item)) (0%Q, 0%nat)
            (fun (acc : Q * nat) item =>
               ((fst acc + Types.timeToResolution item)%Q, (snd acc + 1)%nat))
            totals item.
Proof.
  rewrite addTotal_set. unfold groupStep. cbv zeta.
  destruct (Charts.get _ totals) as [[sum count]|]; reflexivity.
Qed.

Lemma In_distinct_group key k data :
  In k (distinct (map key data)) ->
  exists x g, filter (fun item : Types.ServiceRequest => String.eqb k (key item)) data = x :: g.
Proof.
  intros Hin. apply (proj1 (distinct_In _ _)) in Hin. apply in_map_iff in Hin.
  destruct Hin as [x [Hk Hx]].
  destruct (filter _ data) as [|y g] eqn:E; [|eauto].
  exfalso. assert (Hf : In x (filter (fun item => String.eqb k (key item)) data)).
  { apply filter_In. split; [exact Hx|]. rewrite Hk. apply String.eqb_refl. }
  rewrite E in Hf. destruct Hf.
Qed.

Lemma fold_left_same {A B} (f g : A -> B -> A) (l : list B) (a : A) :
  (forall x y, f x y = g x y) -> fold_left f l a = fold_left g l a.
Proof.
  intros H. revert a. induction l as [|y l IH]; intros a; simpl; [reflexivity|].
  rewrite H. apply IH.
Qed.

Lemma inject_Z_of_whole (q : Q) : Qden q = 1%positive -> q = inject_Z (Qnum q).
Proof. destruct q as [n d]. simpl. intros ->. reflexivity. Qed.

(** The sum of whole hours is the whole number that they add up to. *)
Lemma total_whole (g : list Types.ServiceRequest) :
  Forall wholeHours g ->
  forall acc : Z,
    Qeq (fold_left (fun s d => (s + Types.timeToResolution d)%Q) g (inject_Z acc))
        (inject_Z (acc + fold_right Z.add 0 (map hours g))).
Proof.
  induction 1 as [|x g Hx _ IH]; intros acc; cbn [fold_left map fold_right].
  - rewrite Z.add_0_r. reflexivity.
  - rewrite (inject_Z_of_whole _ Hx).
    assert (E : (inject_Z acc + inject_Z (Qnum (Types.timeToResolution x)))%Q
                = inject_Z (acc + hours x)).
    { unfold Qplus, inject_Z, hours. simpl. f_equal. lia. }
    rewrite E, IH. rewrite Z.add_assoc. reflexivity.
Qed.

(** [Math.round] of a quotient of whole numbers, by a division of whole
    numbers. *)
Lemma round_mean (S : Z) (n : nat) (q : Q) :
  Qeq q (inject_Z S) ->
  Qfloor (q / JsNumber.of_nat (Datatypes.S n) + (1 # 2))%Q
  = (2 * S + Z.of_nat (Datatypes.S n)) / (2 * Z.of_nat (Datatypes.S n)).
Proof.
  intros Hq.
  assert (E : Qeq (q / JsNumber.of_nat (Datatypes.S n) + (1 # 2))%Q
                  ((2 * S + Z.of_nat (Datatypes.S n)) # (2 * Pos.of_succ_nat n))).
  { rewrite Hq. unfold JsNumber.of_nat, Qdiv, Qinv, Qmult, Qplus, Qeq, inject_Z.
    cbn [Qnum Qden]. rewrite Nat2Z.inj_succ, <- Zpos_P_of_succ_nat.
    cbn [Qnum Qden]. lia. }
  rewrite (Qfloor_comp _ _ E). reflexivity.
Qed.

(** X23 ([avgResolutionByVertical]): for resolution times that are whole
    numbers of hours with magnitudes that add up to less than 2^52, where
    the sums, the quotient and the rounding are exact in floating point, the
    chart lists the verticals in the order of their first occurrence, each
    with the mean of the resolution times of its records rounded to the
    nearest whole number, a half towards plus infinity; every vertical
    listed has a record, so no quotient is a division by zero. *)
Theorem avgResolutionByVertical_rounded_means :
  forall (data : list Types.ServiceRequest),
    Forall wholeHours data ->
    magnitude data < 2 ^ 52 ->
    Charts.avgResolutionByVertical data =
    map (fun name =>
           Charts.mkNamedValue name
             (JsNumber.Fin (inject_Z (roundedMean (map hours (ofVertical name data))))))
        (distinct (map (fun item => Types.Vertical_name (Types.vertical item)) data)) /\
    Forall (fun name => ofVertical name data <> [])
           (distinct (map (fun item => Types.Vertical_name (Types.vertical item)) data)).
Proof.
  intros data Hwhole _. split.
  - unfold Charts.avgResolutionByVertical, Charts.entries.
    rewrite (fold_left_same _ _ _ _ (fun totals item => addTotal_groupStep item totals)).
    rewrite groupStep_fold by constructor.
    cbn [map keys]. rewrite app_nil_l, map_map.
    rewrite (filter_ext _ (fun _ => true)) by reflexivity. rewrite filter_true.
    apply map_ext_in. intros k Hk.
    rewrite totals_fold. unfold groupOf. fold (ofVertical k data).
    assert (Hg : Forall wholeHours (ofVertical k data)).
    { unfold ofVertical. apply Forall_forall. intros r Hr. apply filter_In in Hr.
      rewrite Forall_forall in Hwhole. apply Hwhole. apply Hr. }
    destruct (In_distinct_group _ _ _ Hk) as [x [g E]]. fold (ofVertical k data) in E.
    rewrite E in *. cbn [Nat.add List.length].
    unfold JsNumber.div, JsNumber.of_count. rewrite of_nat_S_nonzero.
    unfold JsNumber.round. f_equal. f_equal. f_equal.
    unfold roundedMean. rewrite length_map.
    apply round_mean. apply (total_whole (x :: g) Hg 0).
  - apply Forall_forall. intros k Hk.
    destruct (In_distinct_group _ _ _ Hk) as [x [g E]]. unfold ofVertical. rewrite E.
    discriminate.
Qed.

(** X23 on three records: one restaurant with ten hours, two fuel stations
    with ten and five hours, whose mean of seven and a half is shown as
    eight. *)
Lemma avgResolutionByVertical_rounded_means_witness :
  Charts.avgResolutionByVertical
    [recordA; recordB; sampleRequest "2024-01-03" 1 5] =
  [Charts.mkNamedValue "Restaurant" (JsNumber.Fin 10);
   Charts.mkNamedValue "Fuel" (JsNumber.Fin 8)].
Proof.
  refine (eq_trans
            (proj1 (avgResolutionByVertical_rounded_means
                      [recordA; recordB; sampleRequest "2024-01-03" 1 5] _ _)) _).
  - repeat constructor.
  - reflexivity.
  - vm_compute. reflexivity.
Defined.

(** ** The command palette *)

Lemma filter_select {A} (p : A -> bool) (l : list A) : filter p l = select (map p l) l.
Proof.
  induction l as [|x l IH]; [reflexivity|].
  simpl. destruct (p x); rewrite IH; reflexivity.
Qed.

Lemma shown_select (isDarkMode b1 b2 b3 b4 b5 b6 b7 b8 b9 : bool) :
  let l := select [b1; b2; b3; b4; b5; b6; b7; b8; b9] (CommandPalette.commands isDarkMode) in
  CommandPalette.shown l = l.
Proof.
  destruct b1, b2, b3, b4, b5, b6, b7, b8, b9; reflexivity.
Qed.

Lemma shown_filteredCommands isDarkMode search :
  CommandPalette.shown (CommandPalette.filteredCommands isDarkMode search)
  = CommandPalette.filteredCommands isDarkMode search.
Proof.
  unfold CommandPalette.filteredCommands. rewrite filter_select.
  set (p := fun cmd => _).
  exact (shown_select isDarkMode _ _ _ _ _ _ _ _ _).
Qed.

(** X24 ([filteredCommands], [groupedCommands], [handleKeyDown] of the
    palette): for every search text the commands are shown, grouped by
    category, in the order of the filtered list, so the command that Enter
    runs is the one shown as selected; after typing, the selection is the
    first match; the matches are among the nine commands, and the empty text
    matches all of them. *)
Theorem palette_enter_runs_highlighted :
  forall (isDarkMode : bool) (s : CommandPalette.State) (v : string),
    CommandPalette.shown (CommandPalette.filteredCommands isDarkMode (CommandPalette.search s))
    = CommandPalette.filteredCommands isDarkMode (CommandPalette.search s) /\
    snd (CommandPalette.handleKeyDown isDarkMode CommandPalette.Enter s) =
    (if CommandPalette.isOpen s
     then option_map CommandPalette.action (CommandPalette.highlighted isDarkMode s)
     else None) /\
    CommandPalette.highlighted isDarkMode (CommandPalette.handleSearch v s) =
    (if String.eqb v (CommandPalette.search s)
     then CommandPalette.highlighted isDarkMode s
     else hd_error (CommandPalette.filteredCommands isDarkMode v)) /\
    Subseq (CommandPalette.filteredCommands isDarkMode v) (CommandPalette.commands isDarkMode) /\
    CommandPalette.filteredCommands isDarkMode EmptyString = CommandPalette.commands isDarkMode.
Proof.
  intros dm s v. split; [apply shown_filteredCommands|]. split; [|split; [|split]].
  - unfold CommandPalette.handleKeyDown, CommandPalette.highlighted.
    rewrite shown_filteredCommands.
    destruct (CommandPalette.isOpen s); [|reflexivity].
    destruct (CommandPalette.at_ _ _); reflexivity.
  - unfold CommandPalette.handleSearch.
    destruct (String.eqb v (CommandPalette.search s)); [reflexivity|].
    unfold CommandPalette.highlighted.
    cbn [CommandPalette.search CommandPalette.selectedIndex].
    rewrite shown_filteredCommands.
    destruct (CommandPalette.filteredCommands dm v); reflexivity.
  - apply Subseq_filter.
  - destruct dm; vm_compute; reflexivity.
Qed.

(** X25 ([handleKeyDown] of the palette): while the palette is open and the
    selection is on a command, the arrow keys move it by at most one place and
    keep it on a command; they run nothing and leave the search text and the
    palette open. *)
Theorem palette_arrows_keep_selection :
  forall (isDarkMode : bool) (s : CommandPalette.State) (key : CommandPalette.Key),
    key = CommandPalette.ArrowDown \/ key = CommandPalette.ArrowUp ->
    CommandPalette.isOpen s = true ->
    CommandPalette.highlighted isDarkMode s <> None ->
    let s' := fst (CommandPalette.handleKeyDown isDarkMode key s) in
    CommandPalette.highlighted isDarkMode s' <> None /\
    Z.abs (CommandPalette.selectedIndex s' - CommandPalette.selectedIndex s) <= 1 /\
    CommandPalette.search s' = CommandPalette.search s /\
    CommandPalette.isOpen s' = true /\
    snd (CommandPalette.handleKeyDown isDarkMode key s) = None.
Proof.
  intros dm s key Hkey Hopen Hsel s'.
  unfold CommandPalette.highlighted in *. rewrite shown_filteredCommands in Hsel.
  set (l := CommandPalette.filteredCommands dm (CommandPalette.search s)) in *.
  assert (Hidx : 0 <= CommandPalette.selectedIndex s < Z.of_nat (List.length l)).
  { unfold CommandPalette.at_ in Hsel.
    destruct (Z.ltb_spec (CommandPalette.selectedIndex s) 0) as [Hneg|Hpos];
      [contradiction|].
    split; [exact Hpos|].
    apply nth_error_Some in Hsel. lia. }
  assert (Hs' : CommandPalette.search s' = CommandPalette.search s /\
                CommandPalette.isOpen s' = true /\
                0 <= CommandPalette.selectedIndex s' < Z.of_nat (List.length l) /\
                Z.abs (CommandPalette.selectedIndex s' - CommandPalette.selectedIndex s) <= 1 /\
                snd (CommandPalette.handleKeyDown dm key s) = None).
  { unfold s', CommandPalette.handleKeyDown. fold l. rewrite Hopen.
    destruct Hkey as [-> | ->];
      cbn [fst snd CommandPalette.search CommandPalette.isOpen
           CommandPalette.selectedIndex];
      repeat split; try reflexivity; lia. }
  destruct Hs' as [Hsearch [Ho [Hi [Ha Hn]]]].
  split; [|repeat split; assumption].
  rewrite Hsearch. rewrite shown_filteredCommands. fold l.
  unfold CommandPalette.at_.
  destruct (Z.ltb_spec (CommandPalette.selectedIndex s') 0) as [Hneg|Hpos]; [lia|].
  apply nth_error_Some. lia.
Qed.

Lemma palette_arrows_keep_selection_witness :
  CommandPalette.highlighted false
    (fst (CommandPalette.handleKeyDown false CommandPalette.ArrowDown paletteOpen)) <> None.
Proof.
  apply (palette_arrows_keep_selection false paletteOpen CommandPalette.ArrowDown).
  - left. reflexivity.
  - reflexivity.
  - vm_compute. discriminate.
Defined.

(** ** The exports *)

Lemma replaceAll_app c r (a b : string) :
  ExportUtils.replaceAll c r (a ++ b) =
  (ExportUtils.replaceAll c r a ++ ExportUtils.replaceAll c r b)%string.
Proof.
  induction a as [|x a IH]; [reflexivity|].
  cbn [String.append ExportUtils.replaceAll]. rewrite IH.
  destruct (Ascii.eqb x c); [|reflexivity].
  rewrite string_app_assoc. reflexivity.
Qed.

Lemma escapeXml_app (a b : string) :
  ExportUtils.escapeXml (a ++ b) = (ExportUtils.escapeXml a ++ ExportUtils.escapeXml b)%string.
Proof. unfold ExportUtils.escapeXml. rewrite !replaceAll_app. reflexivity. Qed.

Lemma escapeXml_char a : ExportUtils.escapeXml (String a EmptyString) = escapeChar a.
Proof. destruct a as [[|] [|] [|] [|] [|] [|] [|] [|]]; reflexivity. Qed.

Lemma escapeXml_expand s : ExportUtils.escapeXml s = expand escapeChar s.
Proof.
  induction s as [|a s IH]; [reflexivity|].
  change (String a s) with (String a EmptyString ++ s)%string.
  rewrite escapeXml_app, escapeXml_char, IH. reflexivity.
Qed.

Lemma occurs_app c (a b : string) : occurs c (a ++ b) = occurs c a || occurs c b.
Proof.
  induction a as [|x a IH]; [reflexivity|].
  cbn [String.append occurs]. rewrite IH, orb_assoc. reflexivity.
Qed.

Lemma escapeChar_clean a :
  occurs "<" (escapeChar a) = false /\ occurs ">" (escapeChar a) = false /\
  occurs ExportUtils.dquote (escapeChar a) = false /\ occurs "'" (escapeChar a) = false.
Proof. destruct a as [[|] [|] [|] [|] [|] [|] [|] [|]]; repeat split; reflexivity. Qed.

Lemma unescape_escapeChar a t :
  unescape 0 (escapeChar a ++ t) = String a (unescape 0 t).
Proof. destruct a as [[|] [|] [|] [|] [|] [|] [|] [|]]; reflexivity. Qed.

(** X26 ([escapeXml]): the five replacements in sequence replace each
    character by its entity once, none is escaped twice; the result holds none
    of the characters [<], [>], the double quote and the apostrophe, and a
    reader that replaces the five entities gets the original text back. *)
Theorem escapeXml_text :
  forall (str : string),
    ExportUtils.escapeXml str = expand escapeChar str /\
    occurs "<" (ExportUtils.escapeXml str) = false /\
    occurs ">" (ExportUtils.escapeXml str) = false /\
    occurs ExportUtils.dquote (ExportUtils.escapeXml str) = false /\
    occurs "'" (ExportUtils.escapeXml str) = false /\
    unescapeXml (ExportUtils.escapeXml str) = str.
Proof.
  intros str. split; [apply escapeXml_expand|].
  rewrite escapeXml_expand.
  induction str as [|a s IH]; [repeat split; reflexivity|].
  destruct IH as [H1 [H2 [H3 [H4 H5]]]].
  destruct (escapeChar_clean a) as [C1 [C2 [C3 C4]]].
  cbn [expand]. rewrite !occurs_app, H1, H2, H3, H4, C1, C2, C3, C4.
  repeat split; try reflexivity.
  unfold unescapeXml in *. rewrite unescape_escapeChar, H5. reflexivity.
Qed.

Lemma readField_quoted cell rest :
  noQuote cell = true ->
  (rest = EmptyString \/ exists rest', rest = String "," rest') ->
  readField (cell ++ String ExportUtils.dquote rest) = Some (cell, rest).
Proof.
  intros Hc Hr. induction cell as [|c cell IH].
  - cbn [String.append readField]. rewrite Ascii.eqb_refl.
    destruct Hr as [-> | [rest' ->]]; reflexivity.
  - unfold noQuote in *. cbn [occurs] in Hc.
    apply negb_true_iff in Hc. apply orb_false_iff in Hc. destruct Hc as [Hc1 Hc2].
    cbn [String.append readField]. rewrite Hc1.
    rewrite IH by (apply negb_true_iff; exact Hc2). reflexivity.
Qed.

Lemma join_cons sep x y l :
  ExportUtils.join sep (x :: y :: l) = (x ++ sep ++ ExportUtils.join sep (y :: l))%string.
Proof. reflexivity. Qed.

Lemma readFields_line (cells : list string) :
  forall fuel,
    cells <> [] -> forallb noQuote cells = true -> (List.length cells <= fuel)%nat ->
    readFields fuel (ExportUtils.join "," (map ExportUtils.quoted cells)) = Some cells.
Proof.
  induction cells as [|x cells IH]; intros fuel Hne Hq Hf; [contradiction|].
  cbn [forallb] in Hq. apply andb_prop in Hq. destruct Hq as [Hx Hq].
  destruct fuel as [|fuel]; [simpl in Hf; lia|].
  destruct cells as [|y cells].
  - cbn [map ExportUtils.join String.concat ExportUtils.quoted String.append readFields].
    rewrite Ascii.eqb_refl. rewrite readField_quoted; auto.
  - cbn [map]. rewrite join_cons.
    unfold ExportUtils.quoted at 1.
    cbn [String.append readFields]. rewrite Ascii.eqb_refl.
    rewrite string_app_assoc. cbn [String.append].
    rewrite readField_quoted; [|exact Hx|right; eexists; reflexivity].
    cbn [Ascii.eqb Bool.eqb].
    change (map ExportUtils.quoted (y :: cells)) with
      (ExportUtils.quoted y :: map ExportUtils.quoted cells) in IH.
    rewrite IH; [reflexivity|discriminate|exact Hq|simpl in *; lia].
Qed.

Lemma length_line cells :
  (List.length cells
   <= String.length (ExportUtils.join "," (map ExportUtils.quoted cells)))%nat.
Proof.
  induction cells as [|x cells IH]; [simpl; lia|].
  destruct cells as [|y cells].
  - cbn [map ExportUtils.join String.concat ExportUtils.quoted]. simpl. lia.
  - cbn [map]. rewrite join_cons. rewrite !length_append.
    cbn [map] in IH. unfold ExportUtils.quoted at 1. simpl String.length. simpl in IH |- *. lia.
Qed.

(** X27 ([exportToCSV], the line of a record): the line of a record has the
    thirteen cells of the header; when no cell holds a double quote, a reader
    of quoted fields gets the thirteen cells back, commas and line breaks
    inside a cell included. Cells are not escaped: the condition is needed. *)
Theorem csv_line_read_back :
  forall (numberToString : Q -> string) (item : Types.ServiceRequest),
    forallb noQuote (ExportUtils.row numberToString item) = true ->
    readLine (ExportUtils.line (ExportUtils.row numberToString item))
    = Some (ExportUtils.row numberToString item) /\
    List.length (ExportUtils.row numberToString item) = List.length ExportUtils.headers.
Proof.
  intros nts item Hq. split; [|reflexivity].
  unfold readLine, ExportUtils.line.
  apply readFields_line; [discriminate|exact Hq|apply length_line].
Qed.

Lemma csv_line_read_back_witness :
  readLine (ExportUtils.line (ExportUtils.row printFloor recordA))
  = Some ["A"; "Account A"; "Restaurant"; "1"; "API Error"; "2024-01-01"; "Resolved";
          "Low"; "Low"; "5"; "10"; "2024-01-02"; "Neutral"].
Proof.
  apply (csv_line_read_back printFloor recordA). reflexivity.
Defined.
